(** * Checkout-flow test suite: step reporter and step orchestrator

    A shallow embedding of [utils/csv_reporter.py], of the page objects
    under [pages/] and of [test_end_to_end_checkout_flow] from
    [tests/test_05_complete_checkout_flow.py], with the properties the
    specification states about them; and of the lookups of
    [utils/test_data_reader.py], the file names of
    [utils/screenshot_handler.py] and the fixture [cart_with_items] of
    [conftest.py], with properties read off the code.

    Conventions.  Python [str] is [string]; a character is an [ascii]:
    texts are taken as ASCII, and the methods of [str] are modelled on
    ASCII text.
    Python [int] is [Z].  Python [float] is an abstract type (class
    [PyFloat]): only rounding to two places, addition and printing are
    used by the code.  A [dict] with string keys is a [gmap string _].
    Exceptions are values of [exn]; code that can raise lives in a state
    and error monad. *)

From Stdlib Require Import ZArith List Ascii String Bool Lia.
From Stdlib Require Import DecimalString.
From stdpp Require Import base option list gmap strings.

Local Open Scope Z_scope.
Local Open Scope string_scope.

(** ** Python values *)

(** [str(n)] for an [int]. *)
Definition str_int (n : Z) : string := NilZero.string_of_int (Z.to_int n).

(** A [datetime.datetime] value, as returned by [datetime.now()]. *)
Record datetime := mkDatetime {
  year : Z; month : Z; day : Z;
  hour : Z; minute : Z; second : Z; microsecond : Z
}.

(** The operations the code applies to [float] values. *)
Class PyFloat (F : Type) := {
  fzero : F;                      (* the literal 0.0 *)
  total_seconds : datetime -> datetime -> F;
                                  (* (end - start).total_seconds() *)
  F_of_Z : Z -> F;                (* int to float promotion *)
  fadd : F -> F -> F;             (* float addition *)
  fround2 : F -> F;               (* round(x, 2) on a float *)
  str_float : F -> string         (* str(x) *)
}.

Section Values.
Context {F : Type} `{PyFloat F}.

(** A Python number: [int] or [float]. *)
Inductive PyNum := NInt (n : Z) | NFloat (x : F).

(** [a + b] on numbers, with int-to-float promotion. *)
Definition py_add (a b : PyNum) : PyNum :=
  match a, b with
  | NInt m, NInt n => NInt (m + n)
  | NInt m, NFloat y => NFloat (fadd (F_of_Z m) y)
  | NFloat x, NInt n => NFloat (fadd x (F_of_Z n))
  | NFloat x, NFloat y => NFloat (fadd x y)
  end.

(** [sum(xs)]: left fold from the int 0. *)
Definition py_sum (xs : list PyNum) : PyNum := fold_left py_add xs (NInt 0).

(** [round(a, 2)]: an int is returned unchanged. *)
Definition py_round2 (a : PyNum) : PyNum :=
  match a with
  | NInt n => NInt n
  | NFloat x => NFloat (fround2 x)
  end.

Definition str_num (a : PyNum) : string :=
  match a with
  | NInt n => str_int n
  | NFloat x => str_float x
  end.

(** The value stored under ['Step Number']: an int for a step, the empty
    string for the summary row. *)
Inductive StepNo := SNInt (n : Z) | SNStr (s : string).

Definition str_stepno (a : StepNo) : string :=
  match a with
  | SNInt n => str_int n
  | SNStr s => s
  end.

(** ** utils/csv_reporter.py *)

(** One entry of [CSVReporter.steps]: the dict built by [add_step] and
    [add_summary], one field per key. *)
Record Step := mkStep {
  Step_Number : StepNo;           (* 'Step Number' *)
  Step_Name : string;             (* 'Step Name' *)
  Status : string;                (* 'Status' *)
  Duration : PyNum;               (* 'Duration (seconds)' *)
  Details : string;               (* 'Details' *)
  Error_Message : string          (* 'Error Message' *)
}.

Record CSVReporter := mkCSVReporter {
  report_name : string;
  csv_file : string;
  steps : list Step
}.

(** [self.headers] *)
Definition headers : list string :=
  [ "Step Number"; "Step Name"; "Status"; "Duration (seconds)";
    "Details"; "Error Message" ].

(** [CSVReporter.add_step] *)
Definition add_step (self : CSVReporter) (step_number : Z)
    (step_name status : string) (duration : F)
    (details error_message : string) : CSVReporter :=
  let step := {| Step_Number := SNInt step_number;
                 Step_Name := step_name;
                 Status := status;
                 Duration := py_round2 (NFloat duration);
                 Details := details;
                 Error_Message := error_message |} in
  {| report_name := report_name self;
     csv_file := csv_file self;
     steps := steps self ++ [step] |}.

(** [sum(1 for step in self.steps if step['Status'] == 'SUCCESS')] *)
Definition passed_count (l : list Step) : Z :=
  Z.of_nat (length (filter (fun s => Status s = "SUCCESS") l)).

(** The summary dict of [CSVReporter.add_summary]. *)
Definition summary_row (l : list Step) : Step :=
  let total_steps := Z.of_nat (length l) in
  let passed_steps := passed_count l in
  let failed_steps := total_steps - passed_steps in
  let total_duration := py_sum (map Duration l) in
  {| Step_Number := SNStr "";
     Step_Name := "SUMMARY";
     Status := if Z.eqb failed_steps 0 then "PASSED" else "FAILED";
     Duration := py_round2 total_duration;
     Details := "Total: " ++ str_int total_steps ++ ", Passed: "
                ++ str_int passed_steps ++ ", Failed: " ++ str_int failed_steps;
     Error_Message := "" |}.

(** [CSVReporter.add_summary] *)
Definition add_summary (self : CSVReporter) : CSVReporter :=
  {| report_name := report_name self;
     csv_file := csv_file self;
     steps := steps self ++ [summary_row (steps self)] |}.

End Values.

Arguments PyNum F : clear implicits.
Arguments Step F : clear implicits.
Arguments CSVReporter F : clear implicits.

(** ** The csv module (excel dialect), as used by [generate_report]

    [csv.DictWriter(csvfile, fieldnames=self.headers)] writes with the
    default dialect: delimiter [,], quote character [034], minimal
    quoting with doubled quotes, line terminator CR LF. *)

Definition dquote : ascii := "034"%char.
Definition comma : ascii := ","%char.
Definition CR : ascii := "013"%char.
Definition LF : ascii := "010"%char.

Definition is_special (c : ascii) : bool :=
  Ascii.eqb c comma || Ascii.eqb c dquote || Ascii.eqb c CR || Ascii.eqb c LF.

Fixpoint has_special (s : string) : bool :=
  match s with
  | EmptyString => false
  | String c r => is_special c || has_special r
  end.

(** Every quote character of the field is doubled. *)
Fixpoint csv_escape (s : string) : string :=
  match s with
  | EmptyString => EmptyString
  | String c r =>
      if Ascii.eqb c dquote then String dquote (String dquote (csv_escape r))
      else String c (csv_escape r)
  end.

(** One field under minimal quoting. *)
Definition csv_field (s : string) : string :=
  if has_special s then String dquote (csv_escape s ++ String dquote "")
  else s.

Fixpoint csv_join (fs : list string) : string :=
  match fs with
  | [] => ""
  | [f] => f
  | f :: r => f ++ String comma (csv_join r)
  end.

(** [writer.writerow(fields)]: a record made of one empty field is written
    as a pair of quotes. *)
Definition csv_row (fields : list string) : string :=
  match fields with
  | [EmptyString] => String dquote (String dquote (String CR (String LF "")))
  | _ => csv_join (map csv_field fields) ++ String CR (String LF "")
  end.

(** [csv.reader] over a file opened with [newline='']: the file object
    yields lines ending at LF, CR LF or a lone CR; the reader feeds each
    character of a line, then an end-of-line mark, to its state machine,
    and returns a record whenever the mark leaves it in [START_RECORD]. *)
Inductive pstate :=
  START_RECORD | START_FIELD | IN_FIELD | IN_QUOTED_FIELD
| QUOTE_IN_QUOTED_FIELD | EAT_CRNL.

Record reader := mkReader {
  rd_state : pstate;
  rd_field : string;                  (* characters of the current field *)
  rd_fields : list string;            (* fields of the current record *)
  rd_rows : list (list string);       (* records returned so far *)
  rd_pending_cr : bool                (* last character was CR: the line
                                         ends here unless LF follows *)
}.

Definition snoc_char (s : string) (c : ascii) : string := s ++ String c "".

Definition save_field (r : reader) (next : pstate) : reader :=
  {| rd_state := next; rd_field := "";
     rd_fields := rd_fields r ++ [rd_field r];
     rd_rows := rd_rows r; rd_pending_cr := rd_pending_cr r |}.

Definition add_char (r : reader) (c : ascii) (next : pstate) : reader :=
  {| rd_state := next; rd_field := snoc_char (rd_field r) c;
     rd_fields := rd_fields r; rd_rows := rd_rows r;
     rd_pending_cr := rd_pending_cr r |}.

Definition set_state (r : reader) (next : pstate) : reader :=
  {| rd_state := next; rd_field := rd_field r; rd_fields := rd_fields r;
     rd_rows := rd_rows r; rd_pending_cr := rd_pending_cr r |}.

Definition is_nl (c : ascii) : bool := Ascii.eqb c CR || Ascii.eqb c LF.

(** [parse_process_char] on a character; [None] is [csv.Error]. *)
Definition process_char (r : reader) (c : ascii) : option reader :=
  match rd_state r with
  | START_RECORD | START_FIELD =>
      if is_nl c then
        match rd_state r with
        | START_RECORD => Some (set_state r EAT_CRNL)
        | _ => Some (save_field r EAT_CRNL)
        end
      else if Ascii.eqb c dquote then Some (set_state r IN_QUOTED_FIELD)
      else if Ascii.eqb c comma then Some (save_field r START_FIELD)
      else Some (add_char r c IN_FIELD)
  | IN_FIELD =>
      if is_nl c then Some (save_field r EAT_CRNL)
      else if Ascii.eqb c comma then Some (save_field r START_FIELD)
      else Some (add_char r c IN_FIELD)
  | IN_QUOTED_FIELD =>
      if Ascii.eqb c dquote then Some (set_state r QUOTE_IN_QUOTED_FIELD)
      else Some (add_char r c IN_QUOTED_FIELD)
  | QUOTE_IN_QUOTED_FIELD =>
      if Ascii.eqb c dquote then Some (add_char r c IN_QUOTED_FIELD)
      else if Ascii.eqb c comma then Some (save_field r START_FIELD)
      else if is_nl c then Some (save_field r EAT_CRNL)
      else Some (add_char r c IN_FIELD)
  | EAT_CRNL =>
      if is_nl c then Some r else None
  end.

(** Return the record under construction and start a new one. *)
Definition emit_row (r : reader) : reader :=
  {| rd_state := START_RECORD; rd_field := ""; rd_fields := [];
     rd_rows := rd_rows r ++ [rd_fields r];
     rd_pending_cr := rd_pending_cr r |}.

(** [parse_process_char] on the end-of-line mark, followed by the test
    of [Reader_iternext] that returns the record. *)
Definition process_eol (r : reader) : reader :=
  match rd_state r with
  | START_RECORD => emit_row r
  | START_FIELD | IN_FIELD | QUOTE_IN_QUOTED_FIELD =>
      emit_row (save_field r START_RECORD)
  | IN_QUOTED_FIELD => r
  | EAT_CRNL => emit_row r
  end.

Definition set_pending (r : reader) (b : bool) : reader :=
  {| rd_state := rd_state r; rd_field := rd_field r;
     rd_fields := rd_fields r; rd_rows := rd_rows r; rd_pending_cr := b |}.

(** One character of the file: close the line left open by a CR that is
    not followed by LF, process the character, close the line after LF. *)
Definition feed (r : reader) (c : ascii) : option reader :=
  if rd_pending_cr r then
    if Ascii.eqb c LF then
      option_map process_eol (process_char (set_pending r false) c)
    else
      match process_char (process_eol (set_pending r false)) c with
      | Some r' => Some (set_pending r' (Ascii.eqb c CR))
      | None => None
      end
  else
    match process_char r c with
    | Some r' =>
        if Ascii.eqb c LF then Some (process_eol r')
        else Some (set_pending r' (Ascii.eqb c CR))
    | None => None
    end.

Fixpoint feed_all (r : reader) (s : string) : option reader :=
  match s with
  | EmptyString => Some r
  | String c rest =>
      match feed r c with
      | Some r' => feed_all r' rest
      | None => None
      end
  end.

(** End of the file: a last line without terminator gets its end-of-line
    mark; a record still open inside a quoted field is returned as is. *)
Definition finish (r : reader) (in_line : bool) : list (list string) :=
  let r1 := if rd_pending_cr r || in_line then process_eol r else r in
  match rd_state r1 with
  | IN_QUOTED_FIELD => (rd_rows r1 ++ [(rd_fields r1 ++ [rd_field r1])%list])%list
  | _ => rd_rows r1
  end.

Fixpoint last_char (s : string) : option ascii :=
  match s with
  | EmptyString => None
  | String c EmptyString => Some c
  | String _ r => last_char r
  end.

Definition ends_line (s : string) : bool :=
  match last_char s with
  | Some c => is_nl c
  | None => true
  end.

Definition reader_init : reader :=
  {| rd_state := START_RECORD; rd_field := ""; rd_fields := [];
     rd_rows := []; rd_pending_cr := false |}.

(** [list(csv.reader(f))] for a file with content [s]. *)
Definition csv_read (s : string) : option (list (list string)) :=
  match feed_all reader_init s with
  | Some r => Some (finish r (negb (ends_line s)))
  | None => None
  end.

(** ** Time stamps and paths *)

Definition digit_char (d : Z) : ascii := ascii_of_nat (48 + Z.to_nat d).

(** [n] in decimal on [width] digits, zero padded. *)
Fixpoint zpad (width : nat) (n : Z) : string :=
  match width with
  | O => ""
  | S w => zpad w (n / 10) ++ String (digit_char (n mod 10)) ""
  end.

(** [t.strftime('%Y%m%d_%H%M%S')], for the four-digit years a clock gives. *)
Definition strftime_Ymd_HMS (t : datetime) : string :=
  zpad 4 (year t) ++ zpad 2 (month t) ++ zpad 2 (day t) ++ "_"
  ++ zpad 2 (hour t) ++ zpad 2 (minute t) ++ zpad 2 (second t).

(** The range of the fields of a [datetime] (years of four digits). *)
Definition valid_datetime (t : datetime) : Prop :=
  1000 <= year t <= 9999 /\ 1 <= month t <= 12 /\ 1 <= day t <= 31 /\
  0 <= hour t <= 23 /\ 0 <= minute t <= 59 /\ 0 <= second t <= 59 /\
  0 <= microsecond t <= 999999.

(** The fields of [t] down to the second. *)
Definition to_the_second (t : datetime) : list Z :=
  [year t; month t; day t; hour t; minute t; second t].

Definition starts_with (p s : string) : bool := String.prefix p s.

Definition ends_with_sep (s : string) : bool :=
  match last_char s with
  | Some c => Ascii.eqb c "/"
  | None => false
  end.

(** [os.path.join(a, b)] (posixpath). *)
Definition path_join (a b : string) : string :=
  if starts_with "/" b then b
  else if String.eqb a "" || ends_with_sep a then a ++ b
  else a ++ "/" ++ b.

(** The path computed by [CSVReporter.__init__]:
    [os.path.join(self.reports_dir, f"{report_name}_{timestamp}.csv")],
    where [reports_dir] stands for the [reports] directory next to the
    package. *)
Definition report_path (reports_dir name : string) (t : datetime) : string :=
  path_join reports_dir (name ++ "_" ++ strftime_Ymd_HMS t ++ ".csv").

(** ** Exceptions, and the state and error monad *)

Inductive exn_class :=
  TimeoutException | ElementNotInteractableException | WebDriverException
| AssertionError | KeyError | IndexError | OSError | UnboundLocalError.

(** An exception: its class and [str(e)]. *)
Record exn := mkExn { exn_cls : exn_class; exn_str : string }.

Inductive result (A : Type) := Ok (a : A) | Raise (e : exn).
Arguments Ok {A} a.
Arguments Raise {A} e.

(** A computation over the state [S] that returns or raises; the state
    reached is kept in both cases. *)
Definition M (S A : Type) : Type := S -> result A * S.

Definition ret {S A} (a : A) : M S A := fun s => (Ok a, s).

Definition raise {S A} (e : exn) : M S A := fun s => (Raise e, s).

Definition bind {S A B} (c : M S A) (k : A -> M S B) : M S B :=
  fun s => match c s with
           | (Ok a, s') => k a s'
           | (Raise e, s') => (Raise e, s')
           end.

(** [try: body  except Exception as e: handler(e)] *)
Definition try_except {S A} (body : M S A) (handler : exn -> M S A) : M S A :=
  fun s => match body s with
           | (Ok a, s') => (Ok a, s')
           | (Raise e, s') => handler e s'
           end.

(** A state change that cannot raise. *)
Definition effect {S} (f : S -> S) : M S unit := fun s => (Ok tt, f s).

Notation "'let*' x ':=' c 'in' k" := (bind c (fun x => k))
  (at level 10, x name, c at level 100, k at level 200).
Notation "c >> k" := (bind c (fun _ => k))
  (at level 100, k at level 200, right associativity).

(** [assert cond, msg] *)
Definition py_assert {S} (cond : bool) (msg : string) : M S unit :=
  if cond then ret tt else raise (mkExn AssertionError msg).

(** [d[k]] on a dict: [KeyError] when the key is missing; [str] of a
    [KeyError] is the [repr] of the key. *)
Definition getitem {S} (d : gmap string string) (k : string) : M S string :=
  match d !! k with
  | Some v => ret v
  | None => raise (mkExn KeyError ("'" ++ k ++ "'"))
  end.

(** [d.get(k, default)] *)
Definition dict_get (d : gmap string string) (k default : string) : string :=
  match d !! k with
  | Some v => v
  | None => default
  end.

(** [d.get(k)] as a condition: the key is present with a non-empty value. *)
Definition dict_truthy (d : gmap string string) (k : string) : bool :=
  match d !! k with
  | Some v => negb (String.eqb v "")
  | None => false
  end.

(** [l[i]] on a list: an index below zero counts from the end;
    [IndexError] outside [-len(l) .. len(l) - 1]. *)
Definition list_getitem {S A} (l : list A) (i : Z) : M S A :=
  let n := Z.of_nat (length l) in
  let j := if Z.ltb i 0 then i + n else i in
  match (if Z.leb 0 j then nth_error l (Z.to_nat j) else None) with
  | Some x => ret x
  | None => raise (mkExn IndexError "list index out of range")
  end.

(** ** The browser session and the operating system

    What the code calls but does not define: the selenium driver, the
    clock, the file system calls and [ScreenshotHandler.capture_screenshot]
    (whose body is one [try] that returns [None] on any exception, so it
    never raises).  A world [W] answers each call and moves to a new
    world; no assumption is made on the answers. *)

Inductive By := By_ID | By_CSS_SELECTOR | By_XPATH | By_LINK_TEXT | By_TAG_NAME.

Definition locator : Type := By * string.

(** The expected conditions passed to [WebDriverWait.until]. *)
Inductive condition :=
  presence_of_element_located | element_to_be_clickable
| visibility_of_element_located.

Class World (W : Type) := {
  element : Type;
  (* WebDriverWait(driver, timeout).until(EC.<condition>(locator)) *)
  wait_until : Z -> condition -> locator -> M W element;
  (* ....until(EC.presence_of_all_elements_located(locator)) *)
  wait_until_all : Z -> locator -> M W (list element);
  element_click : element -> M W unit;
  element_clear : element -> M W unit;
  element_send_keys : element -> string -> M W unit;
  element_text : element -> M W string;
  (* Select(element).select_by_visible_text(text) *)
  select_by_visible_text : element -> string -> M W unit;
  (* driver.find_elements(by, value) *)
  driver_find_elements : locator -> M W (list element);
  (* ScreenshotHandler.capture_screenshot(name) *)
  screenshot : string -> W -> W;
  (* time.sleep(seconds) *)
  sleep : Z -> W -> W;
  (* datetime.now() *)
  now : W -> datetime * W;
  (* os.makedirs(path, exist_ok=True) *)
  makedirs : string -> M W unit;
  (* open(path, 'w', ...): the file can be created, or OSError *)
  open_w : string -> M W unit;
  (* writing a text through the open file and closing it: [None] when all
     of it was written; [Some (e, n)] when [e] was raised, [n] characters
     having reached the file *)
  file_write : string -> string -> W -> option (exn * nat) * W;
  (* what the test runner appends to the message of a failed [assert] of
     a test function: nothing when the module runs as plain Python, a
     line break and the explanation of the failed expression under
     pytest's assertion rewriting *)
  assert_explanation : W -> string;
  (* the unique address built by TestDataReader.get_user_credentials from
     time.time() and Faker *)
  unique_email : W -> string * W;
  (* the directories 'reports' and 'screenshots' next to the package *)
  reports_dir : string;
  screenshots_dir : string
}.

#[global] Instance exn_class_eq_dec : EqDecision exn_class.
Proof. solve_decision. Defined.

(** [isinstance(e, c)] for the classes above, none a subclass of another. *)
Definition is_class (c : exn_class) (e : exn) : bool :=
  bool_decide (exn_cls e = c).

(** ** pages/base_page.py

    Calls of the logger are left out of the page objects: they change
    neither the result nor the browser. *)
Section Pages.
Context {W : Type} `{World W}.

Definition default_timeout : Z := 20.

(** [BasePage.capture_screenshot] *)
Definition capture_screenshot (name : string) : M W unit :=
  effect (screenshot name).

Definition time_sleep (secs : Z) : M W unit := effect (sleep secs).

(** [BasePage.find_element] *)
Definition find_element (loc : locator) : M W element :=
  try_except (wait_until default_timeout presence_of_element_located loc)
    (fun e => if is_class TimeoutException e
              then capture_screenshot ("element_not_found_" ++ snd loc) >> raise e
              else raise e).

(** [BasePage.find_elements] *)
Definition find_elements (loc : locator) : M W (list element) :=
  try_except (wait_until_all default_timeout loc)
    (fun e => if is_class TimeoutException e then ret [] else raise e).

(** [BasePage.click] *)
Definition click (loc : locator) : M W unit :=
  try_except
    (let* el := wait_until default_timeout element_to_be_clickable loc in
     element_click el)
    (fun e => if is_class TimeoutException e
                 || is_class ElementNotInteractableException e
              then capture_screenshot ("click_failed_" ++ snd loc) >> raise e
              else raise e).

(** [BasePage.send_keys], with [clear_first=True] as in every call. *)
Definition send_keys (loc : locator) (text : string) : M W unit :=
  try_except
    (let* el := wait_until default_timeout visibility_of_element_located loc in
     element_clear el >>
     element_send_keys el text)
    (fun e => if is_class TimeoutException e
                 || is_class ElementNotInteractableException e
              then capture_screenshot ("sendkeys_failed_" ++ snd loc) >> raise e
              else raise e).

(** [BasePage.get_text] *)
Definition get_text (loc : locator) : M W string :=
  try_except
    (let* el := find_element loc in element_text el)
    (fun e => raise e).

(** [wait_time = timeout if timeout else self.timeout] *)
Definition wait_time (timeout : option Z) : Z :=
  match timeout with
  | Some t => if Z.eqb t 0 then default_timeout else t
  | None => default_timeout
  end.

(** [BasePage.is_element_visible] *)
Definition is_element_visible (loc : locator) (timeout : option Z) : M W bool :=
  try_except
    (wait_until (wait_time timeout) visibility_of_element_located loc >> ret true)
    (fun e => if is_class TimeoutException e then ret false else raise e).

(** [BasePage.is_element_present] *)
Definition is_element_present (loc : locator) (timeout : option Z) : M W bool :=
  try_except
    (wait_until (wait_time timeout) presence_of_element_located loc >> ret true)
    (fun e => if is_class TimeoutException e then ret false else raise e).

(** [BasePage.select_dropdown_by_text] *)
Definition select_dropdown_by_text (loc : locator) (text : string) : M W unit :=
  try_except
    (let* el := find_element loc in select_by_visible_text el text)
    (fun e => capture_screenshot ("dropdown_failed_" ++ snd loc) >> raise e).

(** [[elem.text for elem in elems if elem.text]], with [post] applied to
    the text kept: [elem.text] is read once for the test and once more for
    the value. *)
Fixpoint texts_of (post : string -> string) (elems : list element)
  : M W (list string) :=
  match elems with
  | [] => ret []
  | el :: rest =>
      let* t := element_text el in
      if String.eqb t "" then texts_of post rest
      else
        let* t' := element_text el in
        let* ts := texts_of post rest in
        ret (post t' :: ts)
  end.

End Pages.

(** ** String methods *)

Definition lower_char (c : ascii) : ascii :=
  let n := nat_of_ascii c in
  if (Nat.leb 65 n && Nat.leb n 90)%bool then ascii_of_nat (n + 32) else c.

(** [s.lower()] (on ASCII letters) *)
Fixpoint lower (s : string) : string :=
  match s with
  | EmptyString => EmptyString
  | String c r => String (lower_char c) (lower r)
  end.

(** [sub in s] *)
Fixpoint contains (sub s : string) : bool :=
  String.prefix sub s
  || match s with
     | EmptyString => false
     | String _ r => contains sub r
     end.

(** [c.isspace()] (on ASCII characters) *)
Definition is_space (c : ascii) : bool :=
  let n := nat_of_ascii c in
  (Nat.eqb n 32 || (Nat.leb 9 n && Nat.leb n 13)
   || (Nat.leb 28 n && Nat.leb n 31))%bool.

Fixpoint lstrip (s : string) : string :=
  match s with
  | EmptyString => EmptyString
  | String c r => if is_space c then lstrip r else s
  end.

(** [s.strip()] (on ASCII text) *)
Definition strip (s : string) : string :=
  String.rev (lstrip (String.rev (lstrip s))).

(** [s[0].isdigit()] for a non-empty [s] *)
Definition first_isdigit (s : string) : bool :=
  match s with
  | EmptyString => false
  | String c _ => let n := nat_of_ascii c in (Nat.leb 48 n && Nat.leb n 57)%bool
  end.

(** [s[:n]] (on ASCII text, where a character is one [ascii]) *)
Definition take_str (n : nat) (s : string) : string := String.substring 0 n s.

(** ** pages/registration_page.py *)
Module RegistrationPage.
Section Defs.
Context {W : Type} `{World W}.

Definition REGISTER_LINK : locator := (By_LINK_TEXT, "Register").
Definition GENDER_MALE : locator := (By_ID, "gender-male").
Definition GENDER_FEMALE : locator := (By_ID, "gender-female").
Definition FIRST_NAME : locator := (By_ID, "FirstName").
Definition LAST_NAME : locator := (By_ID, "LastName").
Definition EMAIL : locator := (By_ID, "Email").
Definition PASSWORD : locator := (By_ID, "Password").
Definition CONFIRM_PASSWORD : locator := (By_ID, "ConfirmPassword").
Definition REGISTER_BUTTON : locator := (By_ID, "register-button").
Definition SUCCESS_MESSAGE : locator := (By_CSS_SELECTOR, ".result").
Definition VALIDATION_ERROR : locator :=
  (By_CSS_SELECTOR, ".field-validation-error").

Definition navigate_to_registration_page : M W unit :=
  try_except (click REGISTER_LINK)
    (fun e => capture_screenshot "navigation_to_register_failed" >> raise e).

Definition select_gender (gender : string) : M W unit :=
  try_except
    (if String.eqb (lower gender) "male" then click GENDER_MALE
     else click GENDER_FEMALE)
    (fun e => raise e).

Definition fill_registration_form
    (first_name last_name email password gender : string) : M W unit :=
  try_except
    (select_gender gender >>
     send_keys FIRST_NAME first_name >>
     send_keys LAST_NAME last_name >>
     send_keys EMAIL email >>
     send_keys PASSWORD password >>
     send_keys CONFIRM_PASSWORD password)
    (fun e => capture_screenshot "registration_form_fill_failed" >> raise e).

Definition click_register_button : M W unit :=
  try_except (click REGISTER_BUTTON)
    (fun e => capture_screenshot "register_button_click_failed" >> raise e).

Definition get_success_message : M W string :=
  try_except (get_text SUCCESS_MESSAGE)
    (fun e => capture_screenshot "success_message_not_found" >> raise e).

Definition is_registration_successful : M W bool :=
  try_except (is_element_visible SUCCESS_MESSAGE (Some 10))
    (fun _ => ret false).

Definition get_validation_errors : M W (list string) :=
  try_except
    (let* error_elements := find_elements VALIDATION_ERROR in
     texts_of id error_elements)
    (fun _ => ret []).

Definition register_new_user
    (first_name last_name email password gender : string) : M W bool :=
  try_except
    (navigate_to_registration_page >>
     fill_registration_form first_name last_name email password gender >>
     click_register_button >>
     let* ok := is_registration_successful in
     if ok then
       get_success_message >>
       capture_screenshot "registration_successful" >>
       ret true
     else
       get_validation_errors >>
       capture_screenshot "registration_failed" >>
       ret false)
    (fun e => capture_screenshot "registration_exception" >> raise e).

End Defs.
End RegistrationPage.

(** ** pages/login_page.py *)
Module LoginPage.
Section Defs.
Context {W : Type} `{World W}.

Definition LOGIN_LINK : locator := (By_LINK_TEXT, "Log in").
Definition EMAIL_INPUT : locator := (By_ID, "Email").
Definition PASSWORD_INPUT : locator := (By_ID, "Password").
Definition REMEMBER_ME_CHECKBOX : locator := (By_ID, "RememberMe").
Definition LOGIN_BUTTON : locator := (By_CSS_SELECTOR, ".button-1.login-button").
Definition LOGOUT_LINK : locator := (By_LINK_TEXT, "Log out").
Definition ERROR_MESSAGE : locator := (By_CSS_SELECTOR, ".message-error").
Definition VALIDATION_SUMMARY : locator :=
  (By_CSS_SELECTOR, ".validation-summary-errors").

Definition navigate_to_login_page : M W unit :=
  try_except (click LOGIN_LINK)
    (fun e => capture_screenshot "navigation_to_login_failed" >> raise e).

Definition enter_email (email : string) : M W unit :=
  try_except (send_keys EMAIL_INPUT email) (fun e => raise e).

Definition enter_password (password : string) : M W unit :=
  try_except (send_keys PASSWORD_INPUT password) (fun e => raise e).

Definition check_remember_me : M W unit :=
  try_except (click REMEMBER_ME_CHECKBOX) (fun _ => ret tt).

Definition click_login_button : M W unit :=
  try_except (click LOGIN_BUTTON)
    (fun e => capture_screenshot "login_button_click_failed" >> raise e).

Definition is_logged_in : M W bool :=
  try_except (is_element_visible LOGOUT_LINK (Some 5)) (fun _ => ret false).

Definition get_error_message : M W string :=
  try_except
    (let* vis := is_element_visible ERROR_MESSAGE (Some 5) in
     if vis then get_text ERROR_MESSAGE else ret "")
    (fun _ => ret "").

Definition get_validation_errors : M W string :=
  try_except
    (let* vis := is_element_visible VALIDATION_SUMMARY (Some 5) in
     if vis then get_text VALIDATION_SUMMARY else ret "")
    (fun _ => ret "").

Definition login (email password : string) (remember_me : bool) : M W bool :=
  try_except
    (navigate_to_login_page >>
     enter_email email >>
     enter_password password >>
     (if remember_me then check_remember_me else ret tt) >>
     click_login_button >>
     let* ok := is_logged_in in
     if ok then
       capture_screenshot "login_successful" >> ret true
     else
       get_error_message >>
       get_validation_errors >>
       capture_screenshot "login_failed" >>
       ret false)
    (fun e => capture_screenshot "login_exception" >> raise e).

Definition logout : M W bool :=
  try_except
    (let* li := is_logged_in in
     if li then
       click LOGOUT_LINK >>
       is_element_visible LOGIN_LINK (Some 5)
     else ret false)
    (fun e => capture_screenshot "logout_exception" >> raise e).

End Defs.
End LoginPage.

(** ** pages/home_page.py *)
Module HomePage.
Section Defs.
Context {W : Type} `{World W}.

Definition SEARCH_BOX : locator := (By_ID, "small-searchterms").
Definition SEARCH_BUTTON : locator :=
  (By_CSS_SELECTOR, ".button-1.search-box-button").
Definition LOGO : locator := (By_CSS_SELECTOR, ".header-logo").
Definition SHOPPING_CART_LINK : locator := (By_LINK_TEXT, "Shopping cart").

Definition search_product (product_name : string) : M W unit :=
  try_except
    (send_keys SEARCH_BOX product_name >> click SEARCH_BUTTON)
    (fun e => capture_screenshot "product_search_failed" >> raise e).

Definition navigate_to_shopping_cart : M W unit :=
  try_except (click SHOPPING_CART_LINK)
    (fun e => capture_screenshot "cart_navigation_failed" >> raise e).

Definition click_logo : M W unit :=
  try_except (click LOGO) (fun e => raise e).

End Defs.
End HomePage.

(** ** pages/product_page.py *)
Module ProductPage.
Section Defs.
Context {W : Type} `{World W}.

Definition SEARCH_RESULTS : locator := (By_CSS_SELECTOR, ".product-item").
Definition ADD_TO_CART_BUTTONS : locator :=
  (By_CSS_SELECTOR, ".button-2.product-box-add-to-cart-button").
Definition SUCCESS_NOTIFICATION : locator :=
  (By_CSS_SELECTOR, ".bar-notification.success").
Definition NOTIFICATION_CLOSE : locator := (By_CSS_SELECTOR, ".close").

Definition get_search_results_count : M W Z :=
  try_except
    (let* products := find_elements SEARCH_RESULTS in
     ret (Z.of_nat (length products)))
    (fun _ => ret 0).

(** [index] is a list position counted from the front (the code passes 0). *)
Definition add_to_cart_from_listing (index : nat) : M W unit :=
  try_except
    (let* add_to_cart_buttons := find_elements ADD_TO_CART_BUTTONS in
     match nth_error add_to_cart_buttons index with
     | Some button =>
         element_click button >>
         is_element_visible SUCCESS_NOTIFICATION (Some 5) >>
         ret tt
     | None =>
         raise (mkExn IndexError
                  ("Product index " ++ str_int (Z.of_nat index) ++ " out of range"))
     end)
    (fun e => capture_screenshot "add_to_cart_listing_failed" >> raise e).

Definition close_notification : M W unit :=
  try_except
    (let* vis := is_element_visible NOTIFICATION_CLOSE (Some 3) in
     if vis then click NOTIFICATION_CLOSE else ret tt)
    (fun _ => ret tt).

End Defs.
End ProductPage.

(** ** pages/cart_page.py *)
Module CartPage.
Section Defs.
Context {W : Type} `{World W}.

Definition CART_ITEMS : locator := (By_CSS_SELECTOR, ".cart-item-row").
Definition PRODUCT_NAMES : locator := (By_CSS_SELECTOR, ".product-name").
Definition TERMS_OF_SERVICE_CHECKBOX : locator := (By_ID, "termsofservice").
Definition CHECKOUT_BUTTON : locator := (By_ID, "checkout").

Definition get_cart_items_count : M W Z :=
  try_except
    (let* items := find_elements CART_ITEMS in
     ret (Z.of_nat (length items)))
    (fun _ => ret 0).

Definition get_product_names : M W (list string) :=
  try_except
    (let* name_elements := find_elements PRODUCT_NAMES in
     texts_of strip name_elements)
    (fun _ => ret []).

Definition total_locators : list locator :=
  [ (By_CSS_SELECTOR, ".order-total .cart-total-right strong");
    (By_CSS_SELECTOR, ".order-total strong");
    (By_XPATH, "//div[@class='order-total']//strong");
    (By_XPATH, "//*[contains(@class, 'order-total')]//strong");
    (By_CSS_SELECTOR, ".cart-total strong");
    (By_XPATH, "//span[@class='order-total']//strong") ].

(** The loop [for locator in total_locators] of [get_cart_total]; the
    boolean of an iteration tells whether it ended in [break]. *)
Fixpoint total_from_locators (locs : list locator) (total : string)
  : M W string :=
  match locs with
  | [] => ret total
  | loc :: rest =>
      let* r :=
        try_except
          (let* present := is_element_present loc (Some 2) in
           if present then
             let* t := get_text loc in
             ret (t, negb (String.eqb t ""))
           else ret (total, false))
          (fun _ => ret (total, false)) in
      if snd r then ret (fst r) else total_from_locators rest (fst r)
  end.

(** The loop [for strong in all_strongs] of [get_cart_total]. *)
Fixpoint total_from_strongs (strongs : list element) (total : string)
  : M W string :=
  match strongs with
  | [] => ret total
  | strong :: rest =>
      let* t := element_text strong in
      let text := strip t in
      if (negb (String.eqb text "") && contains "$" text && first_isdigit text)
         || starts_with "$" text
      then ret text
      else total_from_strongs rest total
  end.

Definition get_cart_total : M W string :=
  try_except
    (time_sleep 2 >>
     let* total := total_from_locators total_locators "" in
     let* total :=
       if String.eqb total "" then
         try_except
           (let* all_strongs := driver_find_elements (By_TAG_NAME, "strong") in
            total_from_strongs all_strongs total)
           (fun _ => ret total)
       else ret total in
     if negb (String.eqb total "") then ret total
     else ret "Total not displayed")
    (fun _ => ret "Total retrieval failed").

Definition accept_terms_of_service : M W unit :=
  try_except (click TERMS_OF_SERVICE_CHECKBOX)
    (fun e => capture_screenshot "terms_acceptance_failed" >> raise e).

Definition click_checkout : M W unit :=
  try_except (click CHECKOUT_BUTTON)
    (fun e => capture_screenshot "checkout_click_failed" >> raise e).

Definition proceed_to_checkout : M W unit :=
  try_except
    (accept_terms_of_service >> click_checkout)
    (fun e => capture_screenshot "proceed_to_checkout_failed" >> raise e).

Definition UNIT_PRICES : locator := (By_CSS_SELECTOR, ".product-unit-price").
Definition QUANTITIES : locator := (By_CSS_SELECTOR, ".qty-input").
Definition REMOVE_CHECKBOXES : locator :=
  (By_CSS_SELECTOR, ".remove-from-cart input[type='checkbox']").
Definition UPDATE_CART_BUTTON : locator :=
  (By_CSS_SELECTOR, ".button-2.update-cart-button").
Definition CONTINUE_SHOPPING_BUTTON : locator :=
  (By_CSS_SELECTOR, ".button-2.continue-shopping-button").
Definition EMPTY_CART_MESSAGE : locator :=
  (By_CSS_SELECTOR, ".order-summary-content").

Definition get_product_prices : M W (list string) :=
  try_except
    (let* price_elements := find_elements UNIT_PRICES in
     texts_of strip price_elements)
    (fun _ => ret []).

(** The message of the [IndexError] raised by [update_quantity] and
    [remove_product]. *)
Definition out_of_range (product_index : Z) : exn :=
  mkExn IndexError ("Product index " ++ str_int product_index ++ " out of range").

Definition update_quantity (product_index quantity : Z) : M W unit :=
  try_except
    (let* qty_elements := find_elements QUANTITIES in
     if Z.ltb product_index (Z.of_nat (length qty_elements)) then
       let* qty_input := list_getitem qty_elements product_index in
       element_clear qty_input >>
       element_send_keys qty_input (str_int quantity)
     else raise (out_of_range product_index))
    (fun e => raise e).

Definition click_update_cart : M W unit :=
  try_except (click UPDATE_CART_BUTTON) (fun e => raise e).

Definition remove_product (product_index : Z) : M W unit :=
  try_except
    (let* remove_checkboxes := find_elements REMOVE_CHECKBOXES in
     if Z.ltb product_index (Z.of_nat (length remove_checkboxes)) then
       let* checkbox := list_getitem remove_checkboxes product_index in
       element_click checkbox >>
       click_update_cart
     else raise (out_of_range product_index))
    (fun e => capture_screenshot "remove_product_failed" >> raise e).

Definition is_cart_empty : M W bool :=
  try_except (is_element_visible EMPTY_CART_MESSAGE (Some 5))
    (fun _ => ret false).

Definition continue_shopping : M W unit :=
  try_except (click CONTINUE_SHOPPING_BUTTON) (fun e => raise e).

Definition validate_cart_contents (expected_item_count : Z) : M W bool :=
  try_except
    (let* actual_count := get_cart_items_count in
     if Z.eqb actual_count expected_item_count then ret true else ret false)
    (fun _ => ret false).

End Defs.
End CartPage.

(** ** pages/checkout_page.py *)
Module CheckoutPage.
Section Defs.
Context {W : Type} `{World W}.

Definition BILLING_CONTINUE_BUTTON : locator :=
  (By_CSS_SELECTOR, "#billing-buttons-container .button-1.new-address-next-step-button").
Definition BILLING_FIRST_NAME : locator := (By_ID, "BillingNewAddress_FirstName").
Definition BILLING_LAST_NAME : locator := (By_ID, "BillingNewAddress_LastName").
Definition BILLING_EMAIL : locator := (By_ID, "BillingNewAddress_Email").
Definition BILLING_COMPANY : locator := (By_ID, "BillingNewAddress_Company").
Definition BILLING_COUNTRY : locator := (By_ID, "BillingNewAddress_CountryId").
Definition BILLING_CITY : locator := (By_ID, "BillingNewAddress_City").
Definition BILLING_ADDRESS1 : locator := (By_ID, "BillingNewAddress_Address1").
Definition BILLING_ADDRESS2 : locator := (By_ID, "BillingNewAddress_Address2").
Definition BILLING_ZIP : locator := (By_ID, "BillingNewAddress_ZipPostalCode").
Definition BILLING_PHONE : locator := (By_ID, "BillingNewAddress_PhoneNumber").
Definition SHIPPING_CONTINUE_BUTTON : locator :=
  (By_CSS_SELECTOR, "#shipping-buttons-container .button-1.new-address-next-step-button").
Definition SHIPPING_METHOD_CONTINUE : locator :=
  (By_CSS_SELECTOR, "#shipping-method-buttons-container .button-1.shipping-method-next-step-button").
Definition GROUND_SHIPPING : locator := (By_ID, "shippingoption_0").
Definition NEXT_DAY_AIR : locator := (By_ID, "shippingoption_1").
Definition SECOND_DAY_AIR : locator := (By_ID, "shippingoption_2").
Definition PAYMENT_METHOD_CONTINUE : locator :=
  (By_CSS_SELECTOR, "#payment-method-buttons-container .button-1.payment-method-next-step-button").
Definition CASH_ON_DELIVERY : locator := (By_ID, "paymentmethod_0").
Definition CHECK_MONEY_ORDER : locator := (By_ID, "paymentmethod_1").
Definition CREDIT_CARD : locator := (By_ID, "paymentmethod_2").
Definition PURCHASE_ORDER : locator := (By_ID, "paymentmethod_3").
Definition PAYMENT_INFO_CONTINUE : locator :=
  (By_CSS_SELECTOR, "#payment-info-buttons-container .button-1.payment-info-next-step-button").
Definition CONFIRM_BUTTON : locator :=
  (By_CSS_SELECTOR, "#confirm-order-buttons-container .button-1.confirm-order-next-step-button").
Definition ORDER_SUCCESS_MESSAGE : locator :=
  (By_CSS_SELECTOR, ".section.order-completed .title strong").
Definition ORDER_NUMBER : locator := (By_CSS_SELECTOR, ".order-number").

Definition fill_billing_address (address_data : gmap string string) : M W unit :=
  try_except
    (send_keys BILLING_FIRST_NAME (dict_get address_data "first_name" "") >>
     send_keys BILLING_LAST_NAME (dict_get address_data "last_name" "") >>
     send_keys BILLING_EMAIL (dict_get address_data "email" "") >>
     (if dict_truthy address_data "company" then
        let* company := getitem address_data "company" in
        send_keys BILLING_COMPANY company
      else ret tt) >>
     select_dropdown_by_text BILLING_COUNTRY
       (dict_get address_data "country" "United States") >>
     send_keys BILLING_CITY (dict_get address_data "city" "") >>
     send_keys BILLING_ADDRESS1 (dict_get address_data "address1" "") >>
     (if dict_truthy address_data "address2" then
        let* address2 := getitem address_data "address2" in
        send_keys BILLING_ADDRESS2 address2
      else ret tt) >>
     send_keys BILLING_ZIP (dict_get address_data "zip_code" "") >>
     send_keys BILLING_PHONE (dict_get address_data "phone" ""))
    (fun e => capture_screenshot "billing_address_failed" >> raise e).

Definition click_billing_continue : M W unit :=
  try_except
    (time_sleep 1 >> click BILLING_CONTINUE_BUTTON >> time_sleep 2)
    (fun e => capture_screenshot "billing_continue_failed" >> raise e).

Definition click_shipping_continue : M W unit :=
  try_except
    (time_sleep 1 >> click SHIPPING_CONTINUE_BUTTON >> time_sleep 2)
    (fun e => capture_screenshot "shipping_continue_failed" >> raise e).

Definition select_shipping_method (method : string) : M W unit :=
  try_except
    (let method_lower := lower method in
     if String.eqb method_lower "ground" then click GROUND_SHIPPING
     else if String.eqb method_lower "next_day" then click NEXT_DAY_AIR
     else if String.eqb method_lower "second_day" then click SECOND_DAY_AIR
     else click GROUND_SHIPPING)
    (fun e => raise e).

Definition click_shipping_method_continue : M W unit :=
  try_except
    (time_sleep 1 >> click SHIPPING_METHOD_CONTINUE >> time_sleep 2)
    (fun e => capture_screenshot "shipping_method_continue_failed" >> raise e).

Definition select_payment_method (method : string) : M W unit :=
  try_except
    (let method_lower := lower method in
     if String.eqb method_lower "cash" then click CASH_ON_DELIVERY
     else if String.eqb method_lower "check" then click CHECK_MONEY_ORDER
     else if String.eqb method_lower "credit_card" then click CREDIT_CARD
     else if String.eqb method_lower "purchase_order" then click PURCHASE_ORDER
     else click CASH_ON_DELIVERY)
    (fun e => raise e).

Definition click_payment_method_continue : M W unit :=
  try_except
    (time_sleep 1 >> click PAYMENT_METHOD_CONTINUE >> time_sleep 2)
    (fun e => capture_screenshot "payment_method_continue_failed" >> raise e).

Definition click_payment_info_continue : M W unit :=
  try_except
    (time_sleep 1 >> click PAYMENT_INFO_CONTINUE >> time_sleep 2)
    (fun e => capture_screenshot "payment_info_continue_failed" >> raise e).

Definition click_confirm_order : M W unit :=
  try_except
    (time_sleep 1 >> click CONFIRM_BUTTON >> time_sleep 3)
    (fun e => capture_screenshot "confirm_order_failed" >> raise e).

Definition get_order_success_message : M W string :=
  try_except (get_text ORDER_SUCCESS_MESSAGE) (fun _ => ret "").

Definition get_order_number : M W string :=
  try_except (get_text ORDER_NUMBER) (fun _ => ret "").

Definition is_order_completed : M W bool :=
  try_except (is_element_visible ORDER_SUCCESS_MESSAGE (Some 10))
    (fun _ => ret false).

Definition complete_checkout_flow (billing_address : gmap string string)
    (shipping_method payment_method : string) : M W bool :=
  try_except
    (fill_billing_address billing_address >>
     click_billing_continue >>
     click_shipping_continue >>
     select_shipping_method shipping_method >>
     click_shipping_method_continue >>
     select_payment_method payment_method >>
     click_payment_method_continue >>
     click_payment_info_continue >>
     click_confirm_order >>
     let* completed := is_order_completed in
     if completed then
       get_order_success_message >>
       get_order_number >>
       capture_screenshot "order_completed_successfully" >>
       ret true
     else
       capture_screenshot "order_completion_failed" >>
       ret false)
    (fun e => capture_screenshot "checkout_flow_exception" >> raise e).

End Defs.
End CheckoutPage.

(** ** utils/csv_reporter.py: StepTimer, construction and export *)

Record StepTimer := mkStepTimer {
  start_time : option datetime;
  end_time : option datetime
}.

Section Reporter.
Context {W : Type} `{World W} {F : Type} `{PyFloat F}.

(** [StepTimer()] *)
Definition StepTimer_init : StepTimer :=
  {| start_time := None; end_time := None |}.

(** [StepTimer.start]; the formatted time it returns is not used. *)
Definition StepTimer_start (t : StepTimer) : M W StepTimer :=
  fun w => let (d, w') := now w in
           (Ok {| start_time := Some d; end_time := end_time t |}, w').

(** [StepTimer.stop] *)
Definition StepTimer_stop (t : StepTimer) : M W StepTimer :=
  fun w => let (d, w') := now w in
           (Ok {| start_time := start_time t; end_time := Some d |}, w').

(** [StepTimer.get_duration] *)
Definition get_duration (t : StepTimer) : F :=
  match start_time t, end_time t with
  | Some s, Some e => total_seconds s e
  | _, _ => fzero
  end.

(** [CSVReporter.__init__] *)
Definition CSVReporter_init (name : string) : M W (CSVReporter F) :=
  makedirs reports_dir >>
  fun w => let (t, w') := now w in
           (Ok {| report_name := name;
                  csv_file := report_path reports_dir name t;
                  steps := [] |}, w').

(** The clock value read by [CSVReporter.__init__] when started in [w]. *)
Definition init_time (w : W) : datetime :=
  fst (now (snd (makedirs reports_dir w))).

(** The row [DictWriter] writes for a step: [str] of the value under each
    header, in the order of [headers]. *)
Definition step_cells (s : Step F) : list string :=
  [ str_stepno (Step_Number s); Step_Name s; Status s;
    str_num (Duration s); Details s; Error_Message s ].

Fixpoint csv_rows (rows : list (list string)) : string :=
  match rows with
  | [] => ""
  | r :: rest => csv_row r ++ csv_rows rest
  end.

(** What [generate_report] writes: [writeheader()], then
    [writerows(self.steps)]. *)
Definition report_text (l : list (Step F)) : string :=
  csv_row headers ++ csv_rows (map step_cells l).

End Reporter.

(** ** tests/test_05_complete_checkout_flow.py *)

(** What the [test_data] fixture returns for the three accessors used. *)
Record TestData := mkTestData {
  user_credentials : gmap string string;
  billing_address : gmap string string;
  products_to_search : list string
}.

(** The state of a run of [test_end_to_end_checkout_flow]: the world, the
    report files written, the records of level WARNING logged by the test
    function, and the local variables [csv_reporter], [timer] and
    [added_count]. *)
Record TestState (W F : Type) := mkTestState {
  world : W;
  files : gmap string string;
  warnings : list string;
  csv_reporter : option (CSVReporter F);
  timer : StepTimer;
  added_count : Z
}.
Arguments world {W F} _.
Arguments files {W F} _.
Arguments warnings {W F} _.
Arguments csv_reporter {W F} _.
Arguments timer {W F} _.
Arguments added_count {W F} _.
Arguments mkTestState {W F} _ _ _ _ _ _.

Module TestCompleteCheckoutFlow.
Section Defs.
Context {W : Type} `{World W} {F : Type} `{PyFloat F}.

Definition T (A : Type) : Type := M (TestState W F) A.

(** A call into a page object or the operating system. *)
Definition lift {A} (c : M W A) : T A :=
  fun st => let (r, w') := c (world st) in
            (r, mkTestState w' (files st) (warnings st) (csv_reporter st)
                  (timer st) (added_count st)).

(** [logger.warning(msg)] *)
Definition warning (msg : string) : T unit :=
  effect (fun st => mkTestState (world st) (files st)
                      (warnings st ++ [msg]) (csv_reporter st)
                      (timer st) (added_count st)).

Definition set_reporter (r : CSVReporter F) : T unit :=
  effect (fun st => mkTestState (world st) (files st) (warnings st)
                      (Some r) (timer st) (added_count st)).

Definition set_timer (t : StepTimer) : T unit :=
  effect (fun st => mkTestState (world st) (files st) (warnings st)
                      (csv_reporter st) t (added_count st)).

Definition set_added_count (n : Z) : T unit :=
  effect (fun st => mkTestState (world st) (files st) (warnings st)
                      (csv_reporter st) (timer st) n).

Definition get_added_count : T Z := fun st => (Ok (added_count st), st).

(** [timer = StepTimer(); timer.start()] *)
Definition timer_new_start : T unit :=
  set_timer StepTimer_init >>
  fun st => bind (lift (StepTimer_start (timer st))) set_timer st.

(** [timer.stop()] *)
Definition timer_stop : T unit :=
  fun st => bind (lift (StepTimer_stop (timer st))) set_timer st.

(** [timer.get_duration()] *)
Definition timer_get_duration : T F :=
  fun st => (Ok (get_duration (timer st)), st).

(** The steps recorded so far. *)
Definition recorded {W F} (st : TestState W F) : list (Step F) :=
  match csv_reporter st with
  | Some r => steps r
  | None => []
  end.

(** Reading the local variable [csv_reporter], bound once the constructor
    has returned. *)
Definition get_reporter : T (CSVReporter F) :=
  fun st => match csv_reporter st with
            | Some r => (Ok r, st)
            | None => (Raise (mkExn UnboundLocalError "csv_reporter"), st)
            end.

(** [csv_reporter.add_step(...)] *)
Definition csv_add_step (step_number : Z) (step_name status : string)
    (duration : F) (details error_message : string) : T unit :=
  let* r := get_reporter in
  set_reporter (add_step r step_number step_name status duration
                  details error_message).

(** [csv_reporter.add_summary()] *)
Definition csv_add_summary : T unit :=
  let* r := get_reporter in
  set_reporter (add_summary r).

(** [assert cond, msg] in the test function: the text of the
    [AssertionError] is [msg] followed by what the test runner appends. *)
Definition test_assert (cond : bool) (msg : string) : T unit :=
  fun st => py_assert cond (msg ++ assert_explanation (world st)) st.

(** The file at [path] holds [text]. *)
Definition set_file (path text : string) : T unit :=
  effect (fun st =>
    mkTestState (world st) (<[path := text]> (files st))
      (warnings st) (csv_reporter st) (timer st) (added_count st)).

(** [CSVReporter.generate_report]: [open] creates or truncates the file,
    or raises and changes nothing; then the header and the rows are
    written and the file is closed, which may raise with a part of the
    text in the file; the path is returned.  An exception is logged and
    raised again. *)
Definition generate_report (self : CSVReporter F) : T string :=
  try_except
    (lift (open_w (csv_file self)) >>
     set_file (csv_file self) "" >>
     (fun st =>
        match file_write (csv_file self) (report_text (steps self)) (world st)
        with
        | (None, w') =>
            set_file (csv_file self) (report_text (steps self))
              (mkTestState w' (files st) (warnings st) (csv_reporter st)
                 (timer st) (added_count st))
        | (Some (e, n), w') =>
            (set_file (csv_file self) (take_str n (report_text (steps self)))
             >> raise e)
              (mkTestState w' (files st) (warnings st) (csv_reporter st)
                 (timer st) (added_count st))
        end) >>
     ret (csv_file self))
    (fun e => raise e).

(** [BasePage.__init__], run by the constructor of each page object:
    [ScreenshotHandler(driver)] creates the screenshot directory. *)
Definition new_page : T unit := lift (makedirs screenshots_dir).

(** [TestDataReader.get_user_credentials]: a copy of the stored
    credentials with a fresh ['email']. *)
Definition get_user_credentials (data : TestData) : T (gmap string string) :=
  fun st => let (email, w') := unique_email (world st) in
            (Ok (<["email" := email]> (user_credentials data)),
             mkTestState w' (files st) (warnings st) (csv_reporter st)
               (timer st) (added_count st)).

Section Stages.
Variable credentials : gmap string string.
Variable billing : gmap string string.
Variable products_to_add : list string.

(** Step 0: Register new user *)
Definition step0 : T unit :=
  timer_new_start >>
  try_except
    (lift RegistrationPage.navigate_to_registration_page >>
     let* first_name := getitem credentials "first_name" in
     let* last_name := getitem credentials "last_name" in
     let* email := getitem credentials "email" in
     let* password := getitem credentials "password" in
     let* reg_success :=
       lift (RegistrationPage.register_new_user first_name last_name email
               password "male") in
     test_assert reg_success "User registration failed" >>
     timer_stop >>
     let* duration := timer_get_duration in
     let* email := getitem credentials "email" in
     csv_add_step 0 "User Registration" "SUCCESS" duration
       ("Registered user: " ++ email) "")
    (fun e =>
     timer_stop >>
     let* duration := timer_get_duration in
     let* email := getitem credentials "email" in
     csv_add_step 0 "User Registration" "FAILED" duration
       ("Failed to register user: " ++ email) (exn_str e) >>
     raise e).

(** Step 1: Logout after registration *)
Definition step1 : T unit :=
  timer_new_start >>
  try_except
    (let* logged_in := lift LoginPage.is_logged_in in
     (if logged_in then
        let* logout_success := lift LoginPage.logout in
        test_assert logout_success "Logout failed"
      else warning "User was not logged in after registration") >>
     timer_stop >>
     let* duration := timer_get_duration in
     csv_add_step 1 "Logout After Registration" "SUCCESS" duration
       "User logged out successfully after registration" "")
    (fun e =>
     timer_stop >>
     let* duration := timer_get_duration in
     csv_add_step 1 "Logout After Registration" "FAILED" duration
       "Failed to logout after registration" (exn_str e) >>
     raise e).

(** Step 2: Login with newly created credentials *)
Definition step2 : T unit :=
  timer_new_start >>
  try_except
    (let* email := getitem credentials "email" in
     let* password := getitem credentials "password" in
     let* login_success := lift (LoginPage.login email password false) in
     test_assert login_success "Login with newly created credentials failed" >>
     timer_stop >>
     let* duration := timer_get_duration in
     let* email := getitem credentials "email" in
     csv_add_step 2 "Login with New Credentials" "SUCCESS" duration
       ("Successfully logged in with new credentials: " ++ email) "")
    (fun e =>
     timer_stop >>
     let* duration := timer_get_duration in
     let* email := getitem credentials "email" in
     csv_add_step 2 "Login with New Credentials" "FAILED" duration
       ("Failed to login with new credentials: " ++ email) (exn_str e) >>
     raise e).

(** The [try] block of the loop over [products_to_add[:3]], for one
    product. *)
Definition add_product_try (product : string) : T unit :=
  lift (HomePage.search_product product) >>
  let* count := lift ProductPage.get_search_results_count in
  if Z.ltb 0 count then
    lift (ProductPage.add_to_cart_from_listing 0) >>
    (let* n := get_added_count in set_added_count (n + 1)) >>
    lift ProductPage.close_notification >>
    lift HomePage.click_logo
  else warning ("  ⚠ No results for: " ++ product).

(** One iteration of the loop: any exception is logged as a warning and
    dropped. *)
Definition add_product (product : string) : T unit :=
  try_except (add_product_try product)
    (fun e => warning ("  ⚠ Failed to add " ++ product ++ ": " ++ exn_str e)).

Fixpoint add_products (products : list string) : T unit :=
  match products with
  | [] => ret tt
  | product :: rest => add_product product >> add_products rest
  end.

(** Step 3: Add multiple products to cart *)
Definition step3 : T unit :=
  timer_new_start >>
  set_added_count 0 >>
  try_except
    (add_products (firstn 3 products_to_add) >>
     let* n := get_added_count in
     test_assert (Z.ltb 0 n) "Failed to add any products to cart" >>
     timer_stop >>
     let* duration := timer_get_duration in
     let* n := get_added_count in
     csv_add_step 3 "Add Products to Cart" "SUCCESS" duration
       ("Added " ++ str_int n ++ " products to cart") "")
    (fun e =>
     timer_stop >>
     let* duration := timer_get_duration in
     let* n := get_added_count in
     csv_add_step 3 "Add Products to Cart" "FAILED" duration
       ("Only added " ++ str_int n ++ " products") (exn_str e) >>
     raise e).

(** Step 4: Navigate to cart and validate *)
Definition step4 : T unit :=
  timer_new_start >>
  try_except
    (lift HomePage.navigate_to_shopping_cart >>
     let* cart_items_count := lift CartPage.get_cart_items_count in
     test_assert (Z.ltb 0 cart_items_count) "Cart is empty" >>
     lift CartPage.get_product_names >>
     let* cart_total := lift CartPage.get_cart_total in
     (if negb (String.eqb cart_total "") && contains "$" cart_total
      then ret tt
      else warning "  ⚠ Cart total not clearly displayed, but continuing...") >>
     timer_stop >>
     let* duration := timer_get_duration in
     csv_add_step 4 "Cart Validation" "SUCCESS" duration
       ("Cart items: " ++ str_int cart_items_count ++ ", Total: " ++ cart_total)
       "")
    (fun e =>
     timer_stop >>
     let* duration := timer_get_duration in
     csv_add_step 4 "Cart Validation" "FAILED" duration
       "Failed to validate cart" (exn_str e) >>
     raise e).

(** Step 5: Proceed to checkout *)
Definition step5 : T unit :=
  timer_new_start >>
  try_except
    (lift CartPage.proceed_to_checkout >>
     timer_stop >>
     let* duration := timer_get_duration in
     csv_add_step 5 "Proceed to Checkout" "SUCCESS" duration
       "Successfully navigated to checkout" "")
    (fun e =>
     timer_stop >>
     let* duration := timer_get_duration in
     csv_add_step 5 "Proceed to Checkout" "FAILED" duration
       "Failed to proceed to checkout" (exn_str e) >>
     raise e).

(** Step 6: Fill billing address *)
Definition step6 : T unit :=
  timer_new_start >>
  try_except
    (lift (CheckoutPage.fill_billing_address billing) >>
     lift CheckoutPage.click_billing_continue >>
     timer_stop >>
     let* duration := timer_get_duration in
     let* city := getitem billing "city" in
     let* country := getitem billing "country" in
     csv_add_step 6 "Fill Billing Address" "SUCCESS" duration
       ("Billing address: " ++ city ++ ", " ++ country) "")
    (fun e =>
     timer_stop >>
     let* duration := timer_get_duration in
     csv_add_step 6 "Fill Billing Address" "FAILED" duration
       "Failed to fill billing address" (exn_str e) >>
     raise e).

(** Step 7: Complete checkout flow (shipping, payment, confirm) *)
Definition step7 : T unit :=
  timer_new_start >>
  try_except
    (lift CheckoutPage.click_shipping_continue >>
     lift (CheckoutPage.select_shipping_method "ground") >>
     lift CheckoutPage.click_shipping_method_continue >>
     lift (CheckoutPage.select_payment_method "cash") >>
     lift CheckoutPage.click_payment_method_continue >>
     lift CheckoutPage.click_payment_info_continue >>
     lift CheckoutPage.click_confirm_order >>
     timer_stop >>
     let* duration := timer_get_duration in
     csv_add_step 7 "Complete Checkout (Shipping, Payment, Confirm)" "SUCCESS"
       duration "Shipping: Ground, Payment: Cash on Delivery" "")
    (fun e =>
     timer_stop >>
     let* duration := timer_get_duration in
     csv_add_step 7 "Complete Checkout (Shipping, Payment, Confirm)" "FAILED"
       duration "Failed to complete checkout flow" (exn_str e) >>
     raise e).

(** Step 8: Validate order completion *)
Definition step8 : T unit :=
  timer_new_start >>
  try_except
    (let* success_message := lift CheckoutPage.get_order_success_message in
     test_assert (contains "successfully" (lower success_message)
                || contains "processed" (lower success_message))
       ("Unexpected success message: " ++ success_message) >>
     lift CheckoutPage.get_order_number >>
     lift (capture_screenshot "order_confirmation_final") >>
     timer_stop >>
     let* duration := timer_get_duration in
     csv_add_step 8 "Order Completion Validation" "SUCCESS" duration
       ("Order confirmed. Message: " ++ take_str 50 success_message ++ "...")
       "")
    (fun e =>
     timer_stop >>
     let* duration := timer_get_duration in
     csv_add_step 8 "Order Completion Validation" "FAILED" duration
       "Failed to validate order completion" (exn_str e) >>
     raise e).

(** The nine stages, in the order of the function body. *)
Definition run_stages : T unit :=
  step0 >> step1 >> step2 >> step3 >> step4 >> step5 >> step6 >> step7 >>
  step8.

End Stages.

(** [TestCompleteCheckoutFlow.test_end_to_end_checkout_flow] *)
Definition test_end_to_end_checkout_flow (test_data : TestData) : T unit :=
  let* reporter := lift (CSVReporter_init "e2e_checkout_test") in
  set_reporter reporter >>
  let* credentials := get_user_credentials test_data in
  let billing := billing_address test_data in
  let products_to_add := products_to_search test_data in
  new_page >> new_page >> new_page >> new_page >> new_page >> new_page >>
  run_stages credentials billing products_to_add >>
  csv_add_summary >>
  let* r := get_reporter in
  generate_report r >>
  ret tt.

(** The state in which a run starts: nothing bound, nothing logged. *)
Definition initial_state (w : W) (fs : gmap string string) : TestState W F :=
  mkTestState w fs [] None StepTimer_init 0.

End Defs.
End TestCompleteCheckoutFlow.

(** ** A scripted world

    A deterministic world for running the code on examples.  A [Site]
    says which locators never show up, how many elements a locator
    matches, the text of an element, whether the report directory can
    be written, and whether the disk is full.  An element is identified with its locator.  The world
    records what was typed and counts the clock readings. *)

Record Site := mkSite {
  missing : locator -> bool;
  matches : locator -> nat;
  text_at : locator -> string;
  read_only : bool;
  disk_full : bool
}.

Record Scripted := mkScripted {
  ticks : Z;
  typed : list (locator * string);
  shots : list string
}.

#[global] Instance By_eq_dec : EqDecision By.
Proof. solve_decision. Defined.

Definition locator_eqb (a b : locator) : bool := bool_decide (a = b).

(** The clock after [n] readings, a quarter of a second apart. *)
Definition clock_at (n : Z) : datetime :=
  {| year := 2025; month := 3; day := 14; hour := 9; minute := 26;
     second := (n / 4) mod 60; microsecond := 250000 * (n mod 4) |}.

Definition timeout_exn : exn := mkExn TimeoutException "Message: ".

Definition scripted_world (site : Site) : World Scripted := {|
  element := locator;
  wait_until := fun _ _ loc w =>
    if missing site loc then (Raise timeout_exn, w) else (Ok loc, w);
  wait_until_all := fun _ loc w =>
    match matches site loc with
    | O => (Raise timeout_exn, w)
    | n => (Ok (repeat loc n), w)
    end;
  element_click := fun _ w => (Ok tt, w);
  element_clear := fun _ w => (Ok tt, w);
  element_send_keys := fun el text w =>
    (Ok tt, mkScripted (ticks w) (typed w ++ [(el, text)]) (shots w));
  element_text := fun el w => (Ok (text_at site el), w);
  select_by_visible_text := fun el text w =>
    (Ok tt, mkScripted (ticks w) (typed w ++ [(el, text)]) (shots w));
  driver_find_elements := fun loc w => (Ok (repeat loc (matches site loc)), w);
  screenshot := fun name w => mkScripted (ticks w) (typed w) (shots w ++ [name]);
  sleep := fun _ w => w;
  now := fun w => (clock_at (ticks w), mkScripted (ticks w + 1) (typed w) (shots w));
  makedirs := fun _ w => (Ok tt, w);
  open_w := fun path w =>
    if read_only site then (Raise (mkExn OSError ("Permission denied: " ++ path)), w)
    else (Ok tt, w);
  file_write := fun _ _ w =>
    if disk_full site
    then (Some (mkExn OSError "[Errno 28] No space left on device", 0%nat), w)
    else (None, w);
  assert_explanation := fun _ => String LF "assert False";
  unique_email := fun w => ("testuser_1741944413_4821@example.com", w);
  reports_dir := "/work/reports";
  screenshots_dir := "/work/screenshots"
|}.

Definition scripted_start : Scripted := mkScripted 0 [] [].

(** A site on which every element is there, once, and the order goes
    through. *)
Definition happy_site : Site := {|
  missing := fun _ => false;
  matches := fun _ => 1%nat;
  text_at := fun loc =>
    if locator_eqb loc (By_CSS_SELECTOR, ".order-total .cart-total-right strong")
    then "$1,590.00"
    else "Your order has been successfully processed!";
  read_only := false;
  disk_full := false
|}.

(** The site with the locator [gone] never showing up. *)
Definition site_without (gone : locator) : Site := {|
  missing := fun loc => locator_eqb loc gone;
  matches := matches happy_site;
  text_at := text_at happy_site;
  read_only := false;
  disk_full := false
|}.

(** Test data in the shape of [data/test_data.json]. *)
Definition sample_data : TestData := {|
  user_credentials :=
    list_to_map [("first_name", "Jane"); ("last_name", "Doe");
                 ("email", "jane@example.com"); ("password", "Secret#1")];
  billing_address :=
    list_to_map [("first_name", "Jane"); ("last_name", "Doe");
                 ("email", "jane@example.com"); ("country", "United States");
                 ("city", "NYC"); ("address1", "1 Main St");
                 ("zip_code", "10001"); ("phone", "5551234567")];
  products_to_search := ["laptop"; "phone"; "book"; "camera"]
|}.

(** A stand-in for [float] on examples: whole microseconds, printed as an
    integer, rounding left out. *)
#[global] Instance micro_float : PyFloat Z := {|
  fzero := 0;
  total_seconds := fun s e =>
    (second e - second s) * 1000000 + (microsecond e - microsecond s);
  F_of_Z := fun n => n;
  fadd := Z.add;
  fround2 := fun x => x;
  str_float := str_int
|}.

(** ** Notions of the specification *)

(** The number of recorded steps whose status is FAILED. *)
Definition failed_count {F} (l : list (Step F)) : nat :=
  length (filter (fun s => Status s = "FAILED") l).

(** The step numbers are 0, 1, 2, ... in order: strictly increasing,
    without gap or duplicate. *)
Definition contiguous {F} (l : list (Step F)) : Prop :=
  map Step_Number l = map (fun i => SNInt (Z.of_nat i)) (seq 0 (length l)).

(** No step follows a step whose status is FAILED. *)
Definition halts_at_failure {F} (l : list (Step F)) : Prop :=
  forall l1 s l2, l = (l1 ++ s :: l2)%list -> Status s = "FAILED" -> l2 = [].

(** A product counts as added when its search went through, found
    results, and the add-to-cart call returned. *)
Definition add_succeeds {W} `{World W} (product : string) (w : W) : bool :=
  match HomePage.search_product product w with
  | (Ok _, w1) =>
      match ProductPage.get_search_results_count w1 with
      | (Ok count, w2) =>
          if Z.ltb 0 count then
            match ProductPage.add_to_cart_from_listing 0 w2 with
            | (Ok _, _) => true
            | (Raise _, _) => false
            end
          else false
      | (Raise _, _) => false
      end
  | (Raise _, _) => false
  end.

(** The number of products added by the loop over [products], started in
    state [st]. *)
Fixpoint products_added {W} `{World W} {F} `{PyFloat F}
    (products : list string) (st : TestState W F) : Z :=
  match products with
  | [] => 0
  | product :: rest =>
      (if add_succeeds product (world st) then 1 else 0)
      + products_added rest (snd (TestCompleteCheckoutFlow.add_product product st))
  end.

(** An error message that tells of a timeout. *)
Definition has_timeout_indicator (msg : string) : bool :=
  contains "timeout" (lower msg) || contains "timed out" (lower msg).

Definition CRLF : string := String CR (String LF "").

(** ** Notions about runs of the test function *)

Section RunNotions.
Context {W F : Type} `{PyFloat F}.
Local Abbreviation TS A := (M (TestState W F) A).
(** A computation that changes neither the reporter nor the report files. *)
Definition silent {A} (c : TS A) : Prop :=
  forall st : TestState W F,
    csv_reporter (snd (c st)) = csv_reporter st /\ files (snd (c st)) = files st.

(** A silent computation that always returns. *)
Definition quiet {A} (c : TS A) : Prop :=
  silent c /\ forall st : TestState W F, exists a, fst (c st) = Ok a.

(** The [try] block of stage [k]: it records nothing when it raises, and
    the SUCCESS step numbered [k] when it returns. *)
Definition body_ok (k : Z) (c : TS unit) : Prop :=
  forall (st : TestState W F) (r : CSVReporter F),
    csv_reporter st = Some r ->
    files (snd (c st)) = files st /\
    match fst (c st) with
    | Ok _ => exists name d details,
        csv_reporter (snd (c st)) = Some (add_step r k name "SUCCESS" d details "")
    | Raise _ => csv_reporter (snd (c st)) = Some r
    end.

(** The [except] block of stage [k] for the exception [e]: it records the
    FAILED step numbered [k] with [str(e)] and raises [e] again. *)
Definition handler_ok (k : Z) (e : exn) (c : TS unit) : Prop :=
  forall (st : TestState W F) (r : CSVReporter F),
    csv_reporter st = Some r ->
    files (snd (c st)) = files st /\ fst (c st) = Raise e /\
    exists name d details,
      csv_reporter (snd (c st)) = Some (add_step r k name "FAILED" d details (exn_str e)).

(** Stage [k] as a whole: one step numbered [k] is recorded, SUCCESS when
    the stage returns and FAILED, with [str(e)], when it raises [e]. *)
Definition stage_ok (k : Z) (c : TS unit) : Prop :=
  forall (st : TestState W F) (r : CSVReporter F),
    csv_reporter st = Some r ->
    files (snd (c st)) = files st /\
    exists name d details,
      match fst (c st) with
      | Ok _ =>
          csv_reporter (snd (c st)) = Some (add_step r k name "SUCCESS" d details "")
      | Raise e =>
          csv_reporter (snd (c st)) =
            Some (add_step r k name "FAILED" d details (exn_str e))
      end.

(** [n] steps recorded, numbered from 0, all of them SUCCESS. *)
Definition steps_ok (n : nat) (l : list (Step F)) : Prop :=
  contiguous l /\ length l = n /\ Forall (fun s => Status s = "SUCCESS") l.

(** The steps recorded when the stages end with [res]: the nine steps,
    all SUCCESS, when they return; when they raise [e], the SUCCESS steps
    of the stages passed, then the FAILED step of the stage that raised,
    carrying [str(e)]. *)
Definition run_result (res : result unit) (l : list (Step F)) : Prop :=
  match res with
  | Ok _ => steps_ok 9 l
  | Raise e =>
      exists l0 s, l = (l0 ++ [s])%list /\ steps_ok (length l0) l0 /\
        (length l0 < 9)%nat /\ Step_Number s = SNInt (Z.of_nat (length l0)) /\
        Status s = "FAILED" /\ Error_Message s = exn_str e
  end.

(** A computation that, started after [k] SUCCESS steps, ends in a
    [run_result] and leaves the files and the identity of the reporter
    alone. *)
Definition from_prefix (k : nat) (c : TS unit) : Prop :=
  forall (st : TestState W F) (r : CSVReporter F),
    csv_reporter st = Some r -> steps_ok k (steps r) ->
    files (snd (c st)) = files st /\
    exists r', csv_reporter (snd (c st)) = Some r' /\
      csv_file r' = csv_file r /\ report_name r' = report_name r /\
      run_result (fst (c st)) (steps r').

(** How a run of the test function ends, started with the report files
    [fs]: it raises before the first stage and nothing is recorded; or a
    stage raises; or the nine stages pass, the summary is added, and the
    report is written, unless opening the file raises, which changes no
    file, or writing it raises, which leaves a part of the text in it. *)
Definition test_outcome (fs : gmap string string) (res : result unit)
    (st' : TestState W F) : Prop :=
  (exists e, res = Raise e /\ TestCompleteCheckoutFlow.recorded st' = [] /\ files st' = fs)
  \/ (exists e, res = Raise e /\ run_result (Raise e) (TestCompleteCheckoutFlow.recorded st') /\
                files st' = fs)
  \/ (exists l r, steps_ok 9 l /\ csv_reporter st' = Some r /\
        steps r = (l ++ [summary_row l])%list /\
        ((res = Ok tt /\
          files st' = <[csv_file r := report_text (steps r)]> fs)
         \/ (exists e, res = Raise e /\
               (files st' = fs
                \/ exists n,
                     files st' =
                       <[csv_file r := take_str n (report_text (steps r))]> fs)))).

(** The part of the test function that runs once [csv_reporter] is bound
    to a reporter without steps. *)
Definition after_setup (c : TS unit) : Prop :=
  forall (st : TestState W F) (r : CSVReporter F),
    csv_reporter st = Some r -> steps r = [] ->
    test_outcome (files st) (fst (c st)) (snd (c st)).
End RunNotions.

(** The states in which the reader expects the first character of a field. *)
Definition field_start (st : pstate) : Prop :=
  st = START_RECORD \/ st = START_FIELD.

(** The state in which the loop over the products starts: the timer of
    the stage is started and [added_count] is 0. *)
Definition cart_loop_start {W} `{World W} {F} `{PyFloat F}
    (st : TestState W F) : TestState W F :=
  snd ((TestCompleteCheckoutFlow.timer_new_start >>
        TestCompleteCheckoutFlow.set_added_count 0) st).

(** The test of stage 8 on the success message. *)
Definition message_accepted (msg : string) : bool :=
  contains "successfully" (lower msg) || contains "processed" (lower msg).

(** The value typed into an optional billing field: nothing when the key
    is missing or its value is empty. *)
Definition optional_field (d : gmap string string) (key : string)
    (loc : locator) : list (locator * string) :=
  match d !! key with
  | Some v => if String.eqb v "" then [] else [(loc, v)]
  | None => []
  end.

(** What the billing form receives for the dict [d], field by field in
    the order of the form: a missing value is typed as the empty string,
    a missing country is selected as United States, company and address2
    are typed only when present and not empty. *)
Definition billing_fields (d : gmap string string) : list (locator * string) :=
  ([ (CheckoutPage.BILLING_FIRST_NAME, default "" (d !! "first_name"));
     (CheckoutPage.BILLING_LAST_NAME, default "" (d !! "last_name"));
     (CheckoutPage.BILLING_EMAIL, default "" (d !! "email")) ]
   ++ optional_field d "company" CheckoutPage.BILLING_COMPANY
   ++ [ (CheckoutPage.BILLING_COUNTRY, default "United States" (d !! "country"));
        (CheckoutPage.BILLING_CITY, default "" (d !! "city"));
        (CheckoutPage.BILLING_ADDRESS1, default "" (d !! "address1")) ]
   ++ optional_field d "address2" CheckoutPage.BILLING_ADDRESS2
   ++ [ (CheckoutPage.BILLING_ZIP, default "" (d !! "zip_code"));
        (CheckoutPage.BILLING_PHONE, default "" (d !! "phone")) ])%list.

(** The exception [e] was raised by a call of the element facade. *)
Definition raised_by_facade {W} `{World W} (e : exn) : Prop :=
  exists (loc : locator) (text : string) (w0 w1 : W),
    send_keys loc text w0 = (Raise e, w1)
    \/ select_dropdown_by_text loc text w0 = (Raise e, w1).

(** A computation that raises only what a call of the facade raised. *)
Definition facade_only {W} `{World W} {A} (c : M W A) : Prop :=
  forall (w w' : W) (e : exn), c w = (Raise e, w') -> raised_by_facade e.

(** The scripted world of [happy_site]. *)
Definition happy_world : World Scripted := scripted_world happy_site.

(** A reporter without steps, for examples. *)
Definition empty_reporter : CSVReporter Z :=
  mkCSVReporter "e2e_checkout_test" "/work/reports/e2e_checkout_test.csv" [].

(** A billing address without city. *)
Definition billing_without_city : gmap string string :=
  list_to_map [("first_name", "Jane"); ("last_name", "Doe");
               ("email", "jane@example.com"); ("country", "United States")].

(** A site whose cart page shows no total: none of the locators of the
    total is found and the page has no [strong] element. *)
Definition site_without_total : Site := {|
  missing := fun loc =>
    existsb (locator_eqb loc) CartPage.total_locators;
  matches := fun loc =>
    if locator_eqb loc (By_TAG_NAME, "strong") then 0%nat else 1%nat;
  text_at := text_at happy_site;
  read_only := false;
  disk_full := false
|}.

(** ** utils/test_data_reader.py *)

(** A value returned by [json.load]. *)
#[warnings="-register-all"] Inductive json (F : Type) :=
| JNone
| JBool (b : bool)
| JInt (n : Z)
| JFloat (x : F)
| JStr (s : string)
| JList (l : list (json F))
| JDict (d : gmap string (json F)).
Arguments JNone {F}.
Arguments JBool {F} b.
Arguments JInt {F} n.
Arguments JFloat {F} x.
Arguments JStr {F} s.
Arguments JList {F} l.
Arguments JDict {F} d.

(** How a lookup in the test data ends: with the value, with a
    [KeyError] carrying its argument, or with the [TypeError] of
    subscripting by a string a value that is not a dict. *)
Inductive lookup (A : Type) :=
| Found (a : A)
| RaiseKeyError (arg : string)
| RaiseTypeError.
Arguments Found {A} a.
Arguments RaiseKeyError {A} arg.
Arguments RaiseTypeError {A}.

(** [s.split(sep)] for a separator of one character. *)
Fixpoint split_on (sep : ascii) (s : string) : list string :=
  match s with
  | EmptyString => [""]
  | String c r =>
      if Ascii.eqb c sep then "" :: split_on sep r
      else match split_on sep r with
           | [] => [String c ""]
           | word :: words => String c word :: words
           end
  end.

Module TestDataReader.
Section Defs.
Context {F : Type}.

(** [value[k]] for a string [k]. *)
Definition subscript (value : json F) (k : string) : lookup (json F) :=
  match value with
  | JDict d =>
      match d !! k with
      | Some v => Found v
      | None => RaiseKeyError k
      end
  | _ => RaiseTypeError
  end.

(** The loop [for k in keys: value = value[k]]. *)
Fixpoint descend (keys : list string) (value : json F) : lookup (json F) :=
  match keys with
  | [] => Found value
  | k :: rest =>
      match subscript value k with
      | Found v => descend rest v
      | RaiseKeyError arg => RaiseKeyError arg
      | RaiseTypeError => RaiseTypeError
      end
  end.

(** [TestDataReader.get_data] on the loaded data [_data]: a [KeyError] of
    the loop is replaced by one that names the whole key; a [TypeError]
    is not caught. *)
Definition get_data (_data : json F) (key : option string) : lookup (json F) :=
  match key with
  | None => Found _data
  | Some key =>
      match descend (split_on "." key) _data with
      | Found v => Found v
      | RaiseKeyError _ =>
          RaiseKeyError ("Key '" ++ key ++ "' not found in test data")
      | RaiseTypeError => RaiseTypeError
      end
  end.

Definition get_billing_address (_data : json F) : lookup (json F) :=
  get_data _data (Some "billing_address").

Definition get_shipping_address (_data : json F) : lookup (json F) :=
  get_data _data (Some "shipping_address").

Definition get_test_config (_data : json F) : lookup (json F) :=
  get_data _data (Some "test_config").

Definition get_products_to_search (_data : json F) : lookup (json F) :=
  get_data _data (Some "products_to_search").

End Defs.
End TestDataReader.

(** Test data with a nested entry, for examples. *)
Definition nested_data : json Z :=
  JDict (list_to_map
    [("test_config",
      JDict (list_to_map [("base_url", JStr "https://shop.example");
                          ("headless", JBool true);
                          ("implicit_wait", JInt 10)]));
     ("products_to_search", JList [JStr "laptop"; JStr "phone"])]).

(** ** utils/screenshot_handler.py *)

(** [c.isalnum()] (on ASCII characters) *)
Definition isalnum (c : ascii) : bool :=
  let n := nat_of_ascii c in
  ((Nat.leb 48 n && Nat.leb n 57) || (Nat.leb 65 n && Nat.leb n 90)
   || (Nat.leb 97 n && Nat.leb n 122))%bool.

(** [c.isalnum() or c in (' ', '_', '-')] *)
Definition kept_in_name (c : ascii) : bool :=
  isalnum c || Ascii.eqb c " " || Ascii.eqb c "_" || Ascii.eqb c "-".

(** ["".join(c if c.isalnum() or c in (' ', '_', '-') else '_' for c in name)] *)
Fixpoint sanitize (name : string) : string :=
  match name with
  | EmptyString => EmptyString
  | String c rest =>
      String (if kept_in_name c then c else "_"%char) (sanitize rest)
  end.

(** [t.strftime("%Y%m%d_%H%M%S_%f")] *)
Definition strftime_Ymd_HMS_f (t : datetime) : string :=
  strftime_Ymd_HMS t ++ "_" ++ zpad 6 (microsecond t).

Module ScreenshotHandler.
Section Defs.
Context {W : Type} `{World W}.
(** [driver.save_screenshot(path)]: [False] when the file could not be
    written. *)
Variable save_screenshot : string -> M W bool.
(** [self.screenshot_dir] *)
Variable screenshot_dir : string.

(** The file name: [name] is [None] when the argument is left out; an
    empty name counts as none. *)
Definition filename (name : option string) (t : datetime) : string :=
  let timestamp := strftime_Ymd_HMS_f t in
  match name with
  | Some n =>
      if negb (String.eqb n "") then sanitize n ++ "_" ++ timestamp ++ ".png"
      else "screenshot_" ++ timestamp ++ ".png"
  | None => "screenshot_" ++ timestamp ++ ".png"
  end.

(** [ScreenshotHandler.capture_screenshot]: the path, or [None] after
    any exception. *)
Definition capture_screenshot (name : option string) : M W (option string) :=
  try_except
    (fun w =>
       let (t, w') := now w in
       let filepath := path_join screenshot_dir (filename name t) in
       (save_screenshot filepath >> ret (Some filepath)) w')
    (fun _ => ret None).

Definition capture_failure_screenshot (test_name : string)
  : M W (option string) :=
  capture_screenshot (Some ("FAIL_" ++ test_name)).

Definition capture_success_screenshot (test_name : string)
  : M W (option string) :=
  capture_screenshot (Some ("SUCCESS_" ++ test_name)).

End Defs.
End ScreenshotHandler.

(** Every character of [s] passes [p]. *)
Fixpoint all_chars (p : ascii -> bool) (s : string) : bool :=
  match s with
  | EmptyString => true
  | String c rest => p c && all_chars p rest
  end.

(** The characters of the name of a screenshot file. *)
Definition in_file_name (c : ascii) : bool :=
  kept_in_name c || Ascii.eqb c ".".

(** The text is ASCII.  On such text a character of the [str] is one
    [ascii], and [lower], [contains] and [take_str] are [str.lower], [in]
    and the slice [[:n]]. *)
Definition ascii_text (s : string) : bool :=
  all_chars (fun c => Nat.ltb (nat_of_ascii c) 128) s.

(** ** conftest.py *)
Module Conftest.
Import TestCompleteCheckoutFlow.
Section Defs.
Context {W : Type} `{World W} {F : Type} `{PyFloat F}.

(** The [try] block of the loop of the fixture [cart_with_items], for
    one product. *)
Definition cart_item_try (product : string) : M (TestState W F) unit :=
  lift (HomePage.search_product product) >>
  let* count := lift ProductPage.get_search_results_count in
  if Z.ltb 0 count then
    lift (ProductPage.add_to_cart_from_listing 0) >>
    (let* n := get_added_count in set_added_count (n + 1)) >>
    lift HomePage.click_logo
  else ret tt.

(** One iteration: an exception is logged and dropped. *)
Definition cart_item (product : string) : M (TestState W F) unit :=
  try_except (cart_item_try product) (fun _ => ret tt).

Fixpoint cart_items (products : list string) : M (TestState W F) unit :=
  match products with
  | [] => ret tt
  | product :: rest => cart_item product >> cart_items rest
  end.

(** The fixture [cart_with_items] up to its [yield], given the products
    of the test data: the two page objects are built, then the first two
    products are tried. *)
Definition cart_with_items (products : list string) : M (TestState W F) unit :=
  new_page >> new_page >>
  set_added_count 0 >>
  cart_items (firstn 2 products).

End Defs.
End Conftest.

(** A driver whose [save_screenshot] writes nothing and says so. *)
Definition save_nothing : string -> M Scripted bool :=
  fun _ w => (Ok false, w).

(** The probe [probe] waits with [wait]: it returns [found a] when the
    wait returns [a], it returns [missed] when the wait raises a
    [TimeoutException], and it raises again any other exception of the
    wait, each time in the world the wait left; so it never raises a
    [TimeoutException]. *)
Definition probes {W A B} (probe : M W B) (wait : M W A)
    (found : A -> B) (missed : B) : Prop :=
  forall w : W,
    (forall a w1, wait w = (Ok a, w1) -> probe w = (Ok (found a), w1))
    /\ (forall e w1, wait w = (Raise e, w1) ->
          exn_cls e = TimeoutException -> probe w = (Ok missed, w1))
    /\ (forall e w1, wait w = (Raise e, w1) ->
          exn_cls e <> TimeoutException -> probe w = (Raise e, w1))
    /\ (forall e w1, probe w = (Raise e, w1) -> exn_cls e <> TimeoutException).

(** A site on which the success message of the order never shows up. *)
Definition site_without_confirmation : Site :=
  site_without CheckoutPage.ORDER_SUCCESS_MESSAGE.

(** The run of the test function on [site_without_confirmation]. *)
Definition unconfirmed_run : result unit * TestState Scripted Z :=
  TestCompleteCheckoutFlow.test_end_to_end_checkout_flow
    (H:=scripted_world site_without_confirmation)
    sample_data
    (TestCompleteCheckoutFlow.initial_state (F:=Z) scripted_start ∅).

(** A reporter with two steps, whose texts hold a comma, a quote and a
    line break. *)
Definition quoted_reporter : CSVReporter Z :=
  add_step
    (add_step (mkCSVReporter "e2e_checkout_test" "/work/reports/r.csv" [])
       0 "User Registration" "SUCCESS" 1250000 "Registered user: a,b" "")
    1 "Logout After Registration" "FAILED" 250000 "Failed to logout"
    (String "034"%char ("x" ++ String LF "assert False")).

(** * Properties *)

Section ReporterFacts.
Context {F : Type} `{PyFloat F}.

(** C7.  [add_step] appends the step it is given at the end of [steps],
    whatever the step number and whatever is already recorded: it has no
    index check and no way to signal a duplicate or out-of-order index;
    the rest of the reporter is unchanged. *)
Theorem add_step_appends_unconditionally :
  forall (r : CSVReporter F) (n : Z) (name status : string) (d : F)
         (details err : string),
    steps (add_step r n name status d details err) =
      (steps r ++ [mkStep (SNInt n) name status (NFloat (fround2 d)) details err])%list
    /\ length (steps (add_step r n name status d details err))
       = S (length (steps r))
    /\ report_name (add_step r n name status d details err) = report_name r
    /\ csv_file (add_step r n name status d details err) = csv_file r.
Proof.
  intros r n name status d details err. unfold add_step; simpl.
  repeat split. rewrite length_app; simpl; lia.
Qed.

Lemma passed_count_le (l : list (Step F)) :
  (passed_count l <= Z.of_nat (length l))%Z.
Proof.
  unfold passed_count. pose proof (length_filter (fun s => Status s = "SUCCESS") l).
  lia.
Qed.

Lemma passed_count_all (l : list (Step F)) :
  passed_count l = Z.of_nat (length l) <->
  Forall (fun s => Status s = "SUCCESS") l.
Proof.
  unfold passed_count. induction l as [|s l IH]; simpl.
  - split; [constructor | reflexivity].
  - pose proof (length_filter (fun s => Status s = "SUCCESS") l) as Hle.
    rewrite filter_cons. destruct (decide (Status s = "SUCCESS")) as [Hs|Hs]; simpl.
    + split.
      * intros Hc. constructor; [exact Hs|]. apply IH. lia.
      * intros Hall. inversion Hall; subst. apply IH in H3. lia.
    + split.
      * intros Hc. lia.
      * intros Hall. inversion Hall; subst. contradiction.
Qed.

(** The summary status is PASSED or FAILED; it is PASSED exactly when
    every recorded step has status SUCCESS, so any step whose status is
    FAILED makes it FAILED. *)
Lemma summary_status_passed_iff_all_success :
  forall l : list (Step F),
    (Status (summary_row l) = "PASSED" \/ Status (summary_row l) = "FAILED")
    /\ (Status (summary_row l) = "PASSED"
        <-> Forall (fun s => Status s = "SUCCESS") l)
    /\ (Exists (fun s => Status s = "FAILED") l
        -> Status (summary_row l) = "FAILED").
Proof.
  intros l. unfold summary_row; simpl.
  pose proof (passed_count_le l) as Hle.
  pose proof (passed_count_all l) as Hall.
  destruct (Z.eqb_spec (Z.of_nat (length l) - passed_count l) 0) as [He|He].
  - split; [now left|]. split.
    + split; [intros _; apply Hall; lia | reflexivity].
    + intros Hex. assert (Hf : Forall (fun s => Status s = "SUCCESS") l)
        by (apply Hall; lia).
      rewrite Forall_forall in Hf. apply Exists_exists in Hex.
      destruct Hex as [s [Hin Hs]]. apply Hf in Hin. congruence.
  - split; [now right|]. split.
    + split; [discriminate | intros Hf; apply Hall in Hf; lia].
    + reflexivity.
Qed.

(** On steps that are SUCCESS or FAILED, none is FAILED exactly when all
    are SUCCESS. *)
Lemma failed_count_zero (l : list (Step F)) :
  Forall (fun s => Status s = "SUCCESS" \/ Status s = "FAILED") l ->
  failed_count l = 0%nat <-> Forall (fun s => Status s = "SUCCESS") l.
Proof.
  unfold failed_count. induction l as [|s l IH]; intros Hdom.
  - split; [constructor | reflexivity].
  - inversion Hdom as [|x l' Hs Hl]; subst. specialize (IH Hl).
    rewrite filter_cons.
    destruct (decide (Status s = "FAILED")) as [Hf|Hf]; cbn [length].
    + split; [discriminate|]. intros Hall. inversion Hall; subst. congruence.
    + split.
      * intros Hz. constructor; [now destruct Hs | now apply IH].
      * intros Hall. inversion Hall; subst. now apply IH.
Qed.

(** C2.  A report whose steps have the statuses [add_step] is given,
    SUCCESS or FAILED, and which is finalized by [add_summary]: its last
    row is the summary, and the status of the summary is PASSED if and
    only if no recorded step is FAILED; with at least one FAILED step it
    is FAILED. *)
Theorem summary_passed_iff_no_failed_step :
  forall r : CSVReporter F,
    Forall (fun s => Status s = "SUCCESS" \/ Status s = "FAILED") (steps r) ->
    let summary := summary_row (steps r) in
    last (steps (add_summary r)) = Some summary
    /\ Step_Name summary = "SUMMARY"
    /\ (Status summary = "PASSED" <-> failed_count (steps r) = 0%nat)
    /\ ((1 <= failed_count (steps r))%nat -> Status summary = "FAILED").
Proof.
  intros r Hdom summary. subst summary.
  destruct (summary_status_passed_iff_all_success (steps r))
    as (Hcases & Hpassed & _).
  pose proof (failed_count_zero (steps r) Hdom) as Hzero.
  split; [cbn [add_summary steps]; apply last_snoc|].
  split; [reflexivity|]. split.
  - rewrite Hpassed. symmetry. exact Hzero.
  - intros Hone. destruct Hcases as [Hp | Hf]; [|exact Hf].
    apply Hpassed, Hzero in Hp. lia.
Qed.

End ReporterFacts.

Lemma summary_passed_iff_no_failed_step_witness :
  let r :=
    add_step
      (add_step (mkCSVReporter (F:=Z) "r" "r.csv" []) 0 "User Registration"
         "SUCCESS" 0 "" "")
      1 "Logout After Registration" "FAILED" 0 "" "Logout failed" in
  failed_count (steps r) = 1%nat
  /\ Status (summary_row (steps r)) = "FAILED"
  /\ last (steps (add_summary r)) = Some (summary_row (steps r)).
Proof.
  cbv zeta.
  match goal with
  | |- context [steps ?r0] =>
      assert (Hdom : Forall (fun s => Status s = "SUCCESS" \/ Status s = "FAILED")
                       (steps r0))
        by (repeat constructor; auto);
      destruct (summary_passed_iff_no_failed_step r0 Hdom)
        as (Hlast & _ & _ & Hfailed)
  end.
  split; [reflexivity|].
  split; [apply Hfailed; vm_compute; apply le_n | exact Hlast].
Defined.

(** ** Time-stamped report names *)

Lemma string_length_app (a b : string) :
  String.length (a ++ b) = (String.length a + String.length b)%nat.
Proof. induction a as [|c a IH]; simpl; [reflexivity | now rewrite IH]. Qed.

Lemma string_app_cons (x : ascii) (a b : string) :
  String x a ++ b = String x (a ++ b).
Proof. reflexivity. Qed.

Lemma string_cons_inj (c : ascii) (a b : string) :
  String c a = String c b -> a = b.
Proof. congruence. Qed.

Lemma string_app_nil_l (a : string) : "" ++ a = a.
Proof. reflexivity. Qed.

Ltac str_norm :=
  repeat (rewrite string_app_cons in * || rewrite string_app_nil_l in * ).

Lemma string_app_assoc (a b c : string) : (a ++ b) ++ c = a ++ (b ++ c).
Proof.
  induction a as [|x a IH]; [reflexivity|].
  rewrite !string_app_cons. now f_equal.
Qed.

(** Two strings that end in tails of the same length have equal tails. *)
Lemma string_app_inj_tail (x y a b : string) :
  String.length a = String.length b -> x ++ a = y ++ b -> x = y /\ a = b.
Proof.
  revert y. induction x as [|c x IH]; intros y Hlen Heq.
  - destruct y as [|d y]; str_norm; [now split|].
    apply (f_equal String.length) in Heq. simpl in Heq.
    rewrite string_length_app in Heq. lia.
  - destruct y as [|d y]; str_norm.
    + apply (f_equal String.length) in Heq. simpl in Heq.
      rewrite string_length_app in Heq. lia.
    + injection Heq as Hc Hrest. destruct (IH y Hlen Hrest) as [-> ->].
      now subst.
Qed.

Lemma zpad_length (w : nat) (n : Z) : String.length (zpad w n) = w.
Proof.
  revert n. induction w as [|w IH]; intros n; simpl; [reflexivity|].
  rewrite string_length_app, IH. simpl. lia.
Qed.

Lemma digit_char_inj (a b : Z) :
  0 <= a < 10 -> 0 <= b < 10 -> digit_char a = digit_char b -> a = b.
Proof.
  intros Ha Hb Heq. unfold digit_char in Heq.
  apply (f_equal nat_of_ascii) in Heq.
  rewrite !nat_ascii_embedding in Heq by lia. lia.
Qed.

Lemma zpad_inj (w : nat) (a b : Z) :
  0 <= a < 10 ^ Z.of_nat w -> 0 <= b < 10 ^ Z.of_nat w ->
  zpad w a = zpad w b -> a = b.
Proof.
  revert a b. induction w as [|w IH]; intros a b Ha Hb Heq.
  - simpl in *. lia.
  - simpl in Heq.
    apply string_app_inj_tail in Heq; [|reflexivity].
    destruct Heq as [Hhi Hlo]. injection Hlo as Hlo.
    rewrite Nat2Z.inj_succ, Z.pow_succ_r in Ha, Hb by lia.
    apply digit_char_inj in Hlo; try (apply Z.mod_pos_bound; lia).
    apply IH in Hhi.
    + rewrite (Z.div_mod a 10), (Z.div_mod b 10) by lia. congruence.
    + split; [apply Z.div_pos; lia | apply Z.div_lt_upper_bound; lia].
    + split; [apply Z.div_pos; lia | apply Z.div_lt_upper_bound; lia].
Qed.

(** On clock values the time stamp determines the time to the second. *)
Lemma strftime_inj (t1 t2 : datetime) :
  valid_datetime t1 -> valid_datetime t2 ->
  strftime_Ymd_HMS t1 = strftime_Ymd_HMS t2 ->
  to_the_second t1 = to_the_second t2.
Proof.
  intros V1 V2 Heq. unfold valid_datetime in *. unfold strftime_Ymd_HMS in Heq.
  assert (Hsplit : forall w a b r1 r2,
            zpad w a ++ r1 = zpad w b ++ r2 ->
            String.length r1 = String.length r2 ->
            zpad w a = zpad w b /\ r1 = r2).
  { intros w a b r1 r2 E L. now apply string_app_inj_tail. }
  apply Hsplit in Heq; [|now rewrite !string_length_app, !zpad_length].
  destruct Heq as [Hy Heq].
  apply Hsplit in Heq; [|now rewrite !string_length_app, !zpad_length].
  destruct Heq as [Hmo Heq].
  apply Hsplit in Heq; [|now rewrite !string_length_app, !zpad_length].
  destruct Heq as [Hd Heq]. str_norm. apply string_cons_inj in Heq.
  apply Hsplit in Heq; [|now rewrite !string_length_app, !zpad_length].
  destruct Heq as [Hh Heq].
  apply Hsplit in Heq; [|now rewrite !zpad_length].
  destruct Heq as [Hmi Hs].
  unfold to_the_second.
  apply zpad_inj in Hy, Hmo, Hd, Hh, Hmi, Hs; simpl; try lia.
  congruence.
Qed.

Lemma path_join_suffix (a b : string) : exists pre, path_join a b = pre ++ b.
Proof.
  unfold path_join. destruct (starts_with "/" b).
  - now exists "".
  - destruct (String.eqb a "" || ends_with_sep a).
    + now exists a.
    + exists (a ++ "/"). now rewrite string_app_assoc.
Qed.

Lemma strftime_length (t : datetime) : String.length (strftime_Ymd_HMS t) = 15%nat.
Proof.
  unfold strftime_Ymd_HMS. rewrite !string_length_app, !zpad_length. reflexivity.
Qed.

(** Equal report paths carry equal time stamps. *)
Lemma report_path_stamp (d n1 n2 : string) (t1 t2 : datetime) :
  report_path d n1 t1 = report_path d n2 t2 ->
  strftime_Ymd_HMS t1 = strftime_Ymd_HMS t2.
Proof.
  unfold report_path. intros Heq.
  destruct (path_join_suffix d (n1 ++ "_" ++ strftime_Ymd_HMS t1 ++ ".csv")) as [p1 E1].
  destruct (path_join_suffix d (n2 ++ "_" ++ strftime_Ymd_HMS t2 ++ ".csv")) as [p2 E2].
  rewrite E1, E2 in Heq.
  replace (p1 ++ n1 ++ "_" ++ strftime_Ymd_HMS t1 ++ ".csv")
    with ((p1 ++ n1 ++ "_") ++ strftime_Ymd_HMS t1 ++ ".csv") in Heq
    by now rewrite !string_app_assoc.
  replace (p2 ++ n2 ++ "_" ++ strftime_Ymd_HMS t2 ++ ".csv")
    with ((p2 ++ n2 ++ "_") ++ strftime_Ymd_HMS t2 ++ ".csv") in Heq
    by now rewrite !string_app_assoc.
  apply string_app_inj_tail in Heq.
  - destruct Heq as [_ Heq].
    apply string_app_inj_tail in Heq; [tauto | reflexivity].
  - now rewrite !string_length_app, !strftime_length.
Qed.

Lemma strftime_of_to_the_second (t1 t2 : datetime) :
  to_the_second t1 = to_the_second t2 ->
  strftime_Ymd_HMS t1 = strftime_Ymd_HMS t2.
Proof.
  unfold to_the_second, strftime_Ymd_HMS. intros Heq.
  injection Heq as -> -> -> -> -> ->. reflexivity.
Qed.

Section ReportNames.
Context {W : Type} `{World W} {F : Type}.

Lemma CSVReporter_init_csv_file (name : string) (w w' : W) (r : CSVReporter F) :
  CSVReporter_init name w = (Ok r, w') ->
  csv_file r = report_path reports_dir name (init_time w)
  /\ report_name r = name /\ steps r = [].
Proof.
  unfold CSVReporter_init, init_time, bind. intros Hrun.
  destruct (makedirs reports_dir w) as [[[]|e] w1]; simpl in *; [|discriminate].
  destruct (now w1) as [t w2]. injection Hrun as <- _. simpl. auto.
Qed.

(** C4 (amended).  Two reporters whose constructors read clock values
    that differ in some field down to the second get distinct file names,
    whatever their report names; two reporters with the same report name
    whose clock values agree down to the second get the same file name. *)
Theorem csv_file_distinct_iff_seconds_differ :
  forall (n1 n2 : string) (w1 w1' w2 w2' : W) (r1 r2 : CSVReporter F),
    CSVReporter_init n1 w1 = (Ok r1, w1') ->
    CSVReporter_init n2 w2 = (Ok r2, w2') ->
    valid_datetime (init_time w1) -> valid_datetime (init_time w2) ->
    (to_the_second (init_time w1) <> to_the_second (init_time w2) ->
     csv_file r1 <> csv_file r2)
    /\ (n1 = n2 ->
        to_the_second (init_time w1) = to_the_second (init_time w2) ->
        csv_file r1 = csv_file r2).
Proof.
  intros n1 n2 w1 w1' w2 w2' r1 r2 H1 H2 V1 V2.
  apply CSVReporter_init_csv_file in H1, H2.
  destruct H1 as [E1 _], H2 as [E2 _]. rewrite E1, E2. split.
  - intros Hne Heq. apply Hne. apply strftime_inj; [assumption..|].
    eapply report_path_stamp; eassumption.
  - intros -> Hsec. unfold report_path.
    now rewrite (strftime_of_to_the_second _ _ Hsec).
Qed.

End ReportNames.

(** C4, as stated, fails: two reporters constructed one after the other
    within the same second, under the same report name, get the same file
    name, although their clock values differ. *)
Lemma same_second_runs_share_file_name :
  let H := scripted_world happy_site in
  exists (r1 r2 : CSVReporter Z) (w1 w2 : Scripted),
    CSVReporter_init "e2e_checkout_test" scripted_start = (Ok r1, w1)
    /\ CSVReporter_init "e2e_checkout_test" w1 = (Ok r2, w2)
    /\ init_time scripted_start <> init_time w1
    /\ csv_file r1 = csv_file r2.
Proof.
  intros H. eexists _, _, _, _.
  split; [reflexivity|]. split; [reflexivity|]. split.
  - vm_compute. discriminate.
  - reflexivity.
Qed.

Lemma csv_file_distinct_iff_seconds_differ_witness :
  report_path "/work/reports" "e2e_checkout_test" (clock_at 0)
  <> report_path "/work/reports" "e2e_checkout_test" (clock_at 4).
Proof.
  refine (proj1 (@csv_file_distinct_iff_seconds_differ
                   Scripted (scripted_world happy_site) Z
                   "e2e_checkout_test" "e2e_checkout_test"
                   scripted_start _ (mkScripted 4 [] []) _ _ _
                   eq_refl eq_refl _ _) _).
  - vm_compute. repeat split; discriminate.
  - vm_compute. repeat split; discriminate.
  - vm_compute. discriminate.
Defined.

(** ** The csv round trip *)

Lemma is_special_false (c : ascii) :
  is_special c = false ->
  Ascii.eqb c comma = false /\ Ascii.eqb c dquote = false /\
  Ascii.eqb c CR = false /\ Ascii.eqb c LF = false.
Proof.
  unfold is_special. intros Hs.
  apply orb_false_elim in Hs as [Hs H4].
  apply orb_false_elim in Hs as [Hs H3].
  apply orb_false_elim in Hs as [H1 H2]. auto.
Qed.

(** A character that needs no quoting extends the field being read. *)
Lemma feed_plain (st : pstate) (fld : string) flds rows (c : ascii) :
  field_start st \/ st = IN_FIELD ->
  is_special c = false ->
  feed (mkReader st fld flds rows false) c =
    Some (mkReader IN_FIELD (snoc_char fld c) flds rows false).
Proof.
  intros Hst Hc. apply is_special_false in Hc as (H1 & H2 & H3 & H4).
  unfold feed, process_char, is_nl; simpl.
  destruct Hst as [[-> | ->] | ->]; simpl; rewrite ?H1, ?H2, ?H3, ?H4; simpl;
    rewrite ?H1, ?H2, ?H3, ?H4; reflexivity.
Qed.

Lemma snoc_char_app (fld : string) (c : ascii) (s : string) :
  snoc_char fld c ++ s = fld ++ String c s.
Proof. unfold snoc_char. now rewrite string_app_assoc. Qed.

Lemma string_app_nil_r (s : string) : s ++ "" = s.
Proof. induction s as [|c s IH]; [reflexivity|]. rewrite string_app_cons. now f_equal. Qed.

Lemma feed_all_cons (r : reader) (c : ascii) (s : string) :
  feed_all r (String c s) =
    match feed r c with Some r' => feed_all r' s | None => None end.
Proof. reflexivity. Qed.

Lemma feed_all_app (r : reader) (a b : string) :
  feed_all r (a ++ b) =
    match feed_all r a with Some r' => feed_all r' b | None => None end.
Proof.
  revert r. induction a as [|c a IH]; intros r; [reflexivity|].
  rewrite string_app_cons. simpl. destruct (feed r c); [apply IH | reflexivity].
Qed.

(** The characters of an unquoted field. *)
Lemma feed_all_plain (s : string) : forall st fld flds rows,
  field_start st \/ st = IN_FIELD ->
  has_special s = false -> s <> "" ->
  feed_all (mkReader st fld flds rows false) s =
    Some (mkReader IN_FIELD (fld ++ s) flds rows false).
Proof.
  induction s as [|c s IH]; intros st fld flds rows Hst Hs Hne; [congruence|].
  simpl in Hs. apply orb_false_elim in Hs as [Hc Hs].
  simpl. rewrite feed_plain by assumption.
  destruct s as [|d s].
  - simpl. reflexivity.
  - rewrite IH; [|now right|assumption|discriminate].
    now rewrite snoc_char_app.
Qed.

(** Inside quotes every character is kept, and a doubled quote gives one
    quote; the end-of-line marks change nothing there. *)
Lemma feed_quoted_char (fld : string) flds rows (p : bool) (c : ascii) :
  Ascii.eqb c dquote = false ->
  exists p', feed (mkReader IN_QUOTED_FIELD fld flds rows p) c =
               Some (mkReader IN_QUOTED_FIELD (snoc_char fld c) flds rows p').
Proof.
  intros Hq. unfold feed, process_char; simpl.
  destruct p; simpl; rewrite Hq; simpl; destruct (Ascii.eqb c LF); simpl;
    eexists; reflexivity.
Qed.

Lemma feed_quoted_quote (fld : string) flds rows (p : bool) :
  feed_all (mkReader IN_QUOTED_FIELD fld flds rows p)
    (String dquote (String dquote "")) =
    Some (mkReader IN_QUOTED_FIELD (snoc_char fld dquote) flds rows false).
Proof. destruct p; reflexivity. Qed.

Lemma feed_all_escape (s : string) : forall fld flds rows p rest,
  exists p',
    feed_all (mkReader IN_QUOTED_FIELD fld flds rows p) (csv_escape s ++ rest) =
    feed_all (mkReader IN_QUOTED_FIELD (fld ++ s) flds rows p') rest.
Proof.
  induction s as [|c s IH]; intros fld flds rows p rest.
  - exists p. simpl. now rewrite string_app_nil_r.
  - simpl. destruct (Ascii.eqb c dquote) eqn:Hq.
    + apply Ascii.eqb_eq in Hq. subst c.
      destruct (IH (snoc_char fld dquote) flds rows false rest) as [p' Hp'].
      exists p'. rewrite <- snoc_char_app, <- Hp'.
      change (String dquote (String dquote (csv_escape s)) ++ rest)
        with (String dquote (String dquote "") ++ (csv_escape s ++ rest)).
      rewrite feed_all_app. now rewrite feed_quoted_quote.
    + destruct (feed_quoted_char fld flds rows p c Hq) as [p1 Hp1].
      destruct (IH (snoc_char fld c) flds rows p1 rest) as [p' Hp'].
      exists p'. rewrite <- snoc_char_app, <- Hp'.
      rewrite string_app_cons. simpl. now rewrite Hp1.
Qed.

(** After the closing quote, a comma ends the field. *)
Lemma feed_close_comma (fld : string) flds rows (p : bool) :
  feed_all (mkReader IN_QUOTED_FIELD fld flds rows p)
    (String dquote (String comma "")) =
    Some (mkReader START_FIELD "" (flds ++ [fld])%list rows false).
Proof. destruct p; reflexivity. Qed.

(** After the closing quote, CR LF ends the record. *)
Lemma feed_close_crlf (fld : string) flds rows (p : bool) :
  feed_all (mkReader IN_QUOTED_FIELD fld flds rows p) (String dquote CRLF) =
    Some (mkReader START_RECORD "" [] (rows ++ [(flds ++ [fld])%list])%list false).
Proof. destruct p; reflexivity. Qed.

Lemma feed_comma (st : pstate) (fld : string) flds rows :
  field_start st /\ fld = "" \/ st = IN_FIELD ->
  feed (mkReader st fld flds rows false) comma =
    Some (mkReader START_FIELD "" (flds ++ [fld])%list rows false).
Proof. intros [[[-> | ->] ->] | ->]; reflexivity. Qed.

Lemma feed_crlf (st : pstate) (fld : string) flds rows :
  st = START_FIELD /\ fld = "" \/ st = IN_FIELD ->
  feed_all (mkReader st fld flds rows false) CRLF =
    Some (mkReader START_RECORD "" [] (rows ++ [(flds ++ [fld])%list])%list false).
Proof. intros [[-> ->] | ->]; reflexivity. Qed.

(** One field followed by a comma. *)
Lemma feed_field_comma (s : string) (st : pstate) flds rows (rest : string) :
  field_start st ->
  feed_all (mkReader st "" flds rows false)
    (csv_field s ++ String comma rest) =
  feed_all (mkReader START_FIELD "" (flds ++ [s])%list rows false) rest.
Proof.
  intros Hst. unfold csv_field. destruct (has_special s) eqn:Hs.
  - rewrite string_app_cons, feed_all_cons.
    assert (Hopen : feed (mkReader st "" flds rows false) dquote =
                    Some (mkReader IN_QUOTED_FIELD "" flds rows false))
      by (destruct Hst as [-> | ->]; reflexivity).
    rewrite Hopen, string_app_assoc.
    destruct (feed_all_escape s "" flds rows false
                (String dquote "" ++ String comma rest)) as [p' Hp'].
    rewrite Hp'. rewrite string_app_nil_l.
    change (String dquote "" ++ String comma rest)
      with (String dquote (String comma "") ++ rest).
    rewrite feed_all_app. now rewrite feed_close_comma.
  - destruct s as [|c s].
    + rewrite string_app_nil_l, feed_all_cons, feed_comma; [reflexivity|].
      now left.
    + rewrite feed_all_app, feed_all_plain; [|now left|assumption|discriminate].
      rewrite feed_all_cons, feed_comma; [reflexivity|].
      now right.
Qed.

(** The last field of a record, followed by CR LF. *)
Lemma feed_field_crlf (s : string) (st : pstate) flds rows (rest : string) :
  field_start st -> st = START_FIELD \/ s <> "" ->
  feed_all (mkReader st "" flds rows false) (csv_field s ++ CRLF ++ rest) =
  feed_all (mkReader START_RECORD "" [] (rows ++ [(flds ++ [s])%list])%list false) rest.
Proof.
  intros Hst Hne. unfold csv_field. destruct (has_special s) eqn:Hs.
  - rewrite string_app_cons, feed_all_cons.
    assert (Hopen : feed (mkReader st "" flds rows false) dquote =
                    Some (mkReader IN_QUOTED_FIELD "" flds rows false))
      by (destruct Hst as [-> | ->]; reflexivity).
    rewrite Hopen, string_app_assoc.
    destruct (feed_all_escape s "" flds rows false
                (String dquote "" ++ CRLF ++ rest)) as [p' Hp'].
    rewrite Hp'. rewrite string_app_nil_l.
    change (String dquote "" ++ CRLF ++ rest)
      with (String dquote CRLF ++ rest).
    rewrite feed_all_app. now rewrite feed_close_crlf.
  - destruct s as [|c s].
    + destruct Hne as [-> | Hne]; [|congruence].
      rewrite string_app_nil_l, feed_all_app, feed_crlf; [reflexivity|].
      now left.
    + rewrite feed_all_app, feed_all_plain; [|now left|assumption|discriminate].
      rewrite string_app_nil_l, feed_all_app, feed_crlf; [reflexivity|].
      now right.
Qed.

(** The fields of a record, joined by commas and closed by CR LF. *)
Lemma feed_fields (fields : list string) : forall st flds rows rest,
  field_start st -> fields <> [] -> st = START_FIELD \/ fields <> [""] ->
  feed_all (mkReader st "" flds rows false)
    (csv_join (map csv_field fields) ++ CRLF ++ rest) =
  feed_all (mkReader START_RECORD "" [] (rows ++ [(flds ++ fields)%list])%list false) rest.
Proof.
  induction fields as [|f fields IH]; intros st flds rows rest Hst Hne Hone;
    [congruence|].
  destruct fields as [|g fields].
  - simpl. apply feed_field_crlf; [assumption|].
    destruct Hone as [-> | Hone]; [now left|]. right. congruence.
  - change (csv_join (map csv_field (f :: g :: fields)))
      with (csv_field f ++ String comma (csv_join (map csv_field (g :: fields)))).
    rewrite string_app_assoc, string_app_cons.
    rewrite feed_field_comma by assumption.
    rewrite IH; [|now right|discriminate|now left].
    now rewrite <- app_assoc.
Qed.

Lemma feed_csv_row (fields : list string) rows (rest : string) :
  feed_all (mkReader START_RECORD "" [] rows false) (csv_row fields ++ rest) =
  feed_all (mkReader START_RECORD "" [] (rows ++ [fields])%list false) rest.
Proof.
  destruct fields as [|f fields]; [reflexivity|].
  destruct fields as [|g fields].
  - destruct f as [|c f]; [reflexivity|].
    change (csv_row [String c f])
      with (csv_join (map csv_field [String c f]) ++ CRLF).
    rewrite string_app_assoc.
    rewrite (feed_fields [String c f] START_RECORD [] rows rest);
      [reflexivity|now left|discriminate|right; congruence].
  - assert (Hrow : csv_row (f :: g :: fields) =
                   csv_join (map csv_field (f :: g :: fields)) ++ CRLF)
      by (destruct f; reflexivity).
    rewrite Hrow, string_app_assoc.
    rewrite (feed_fields (f :: g :: fields) START_RECORD [] rows rest);
      [reflexivity|now left|discriminate|right; congruence].
Qed.

Lemma feed_csv_rows (rows : list (list string)) : forall rows0,
  feed_all (mkReader START_RECORD "" [] rows0 false) (csv_rows rows) =
    Some (mkReader START_RECORD "" [] (rows0 ++ rows)%list false).
Proof.
  induction rows as [|r rows IH]; intros rows0.
  - simpl. now rewrite app_nil_r.
  - simpl. rewrite feed_csv_row, IH. now rewrite <- app_assoc.
Qed.

Lemma last_char_app (a b : string) :
  b <> "" -> last_char (a ++ b) = last_char b.
Proof.
  intros Hb. induction a as [|c a IH]; [reflexivity|].
  rewrite string_app_cons. simpl. rewrite IH.
  destruct (a ++ b) eqn:E; [|reflexivity].
  destruct a; [now rewrite string_app_nil_l in E | discriminate].
Qed.

Lemma csv_row_ends_line (fields : list string) (rest : string) :
  ends_line rest = true -> ends_line (csv_row fields ++ rest) = true.
Proof.
  intros Hrest. unfold ends_line in *. destruct rest as [|c rest].
  - rewrite string_app_nil_r.
    assert (Hrow : exists pre, csv_row fields = pre ++ CRLF).
    { destruct fields as [|f [|g fields]]; [now exists ""| |].
      - destruct f; [now exists (String dquote (String dquote ""))|].
        now eexists.
      - destruct f; now eexists. }
    destruct Hrow as [pre ->]. now rewrite last_char_app.
  - now rewrite last_char_app.
Qed.

Lemma csv_rows_ends_line (rows : list (list string)) :
  ends_line (csv_rows rows) = true.
Proof.
  induction rows as [|r rows IH]; [reflexivity|].
  simpl. now apply csv_row_ends_line.
Qed.

(** Reading back what the writer wrote gives the records written. *)
Lemma csv_read_csv_rows (rows : list (list string)) :
  csv_read (csv_rows rows) = Some rows.
Proof.
  unfold csv_read, reader_init. rewrite feed_csv_rows, csv_rows_ends_line.
  reflexivity.
Qed.

Section ExportFacts.
Context {W : Type} `{World W} {F : Type} `{PyFloat F}.
Import TestCompleteCheckoutFlow.

Lemma headers_row :
  csv_row headers =
    "Step Number,Step Name,Status,Duration (seconds),Details,Error Message"
    ++ CRLF.
Proof. reflexivity. Qed.

(** [generate_report], outcome by outcome of [open] and of the writing. *)
Lemma generate_report_eq (r : CSVReporter F) (st : TestState W F) :
  generate_report r st =
    match open_w (csv_file r) (world st) with
    | (Raise e, w1) =>
        (Raise e, mkTestState w1 (files st) (warnings st) (csv_reporter st)
                    (timer st) (added_count st))
    | (Ok _, w1) =>
        match file_write (csv_file r) (report_text (steps r)) w1 with
        | (None, w2) =>
            (Ok (csv_file r),
             mkTestState w2 (<[csv_file r := report_text (steps r)]> (files st))
               (warnings st) (csv_reporter st) (timer st) (added_count st))
        | (Some (e, n), w2) =>
            (Raise e,
             mkTestState w2
               (<[csv_file r := take_str n (report_text (steps r))]> (files st))
               (warnings st) (csv_reporter st) (timer st) (added_count st))
        end
    end.
Proof.
  unfold generate_report, try_except, bind, lift, set_file, effect, ret, raise.
  destruct (open_w (csv_file r) (world st)) as [[[]|e] w1]; [|reflexivity].
  cbn [world files warnings csv_reporter timer added_count].
  destruct (file_write (csv_file r) (report_text (steps r)) w1)
    as [[[e n]|] w2];
    cbn [world files warnings csv_reporter timer added_count];
    now rewrite insert_insert_eq.
Qed.

(** What [generate_report] does to the state: when it returns, the file
    holds the report text; when it raises, no file changed or the file
    holds a part of the text; the reporter and the log are as before. *)
Lemma generate_report_spec (r : CSVReporter F) (st : TestState W F) :
  match generate_report r st with
  | (Ok path, st') =>
      path = csv_file r /\
      files st' = <[csv_file r := report_text (steps r)]> (files st) /\
      csv_reporter st' = csv_reporter st /\ warnings st' = warnings st
  | (Raise e, st') =>
      (files st' = files st
       \/ exists n,
            files st' = <[csv_file r := take_str n (report_text (steps r))]> (files st)) /\
      csv_reporter st' = csv_reporter st /\ warnings st' = warnings st
  end.
Proof.
  rewrite generate_report_eq.
  destruct (open_w (csv_file r) (world st)) as [[[]|e] w1]; [|simpl; auto].
  destruct (file_write (csv_file r) (report_text (steps r)) w1)
    as [[[e n]|] w2]; simpl; eauto.
Qed.

(** The text of a report with its summary, read back. *)
Lemma report_text_round_trip (r0 : CSVReporter F) :
  let text := report_text (steps (add_summary r0)) in
  (exists body,
     text = "Step Number,Step Name,Status,Duration (seconds),Details,Error Message"
            ++ CRLF ++ body)
  /\ csv_read text =
       Some (headers :: map step_cells (steps r0)
               ++ [step_cells (summary_row (steps r0))])%list
  /\ Step_Name (summary_row (steps r0)) = "SUMMARY".
Proof.
  cbv zeta. split; [|split; [|reflexivity]].
  - exists (csv_rows (map step_cells (steps (add_summary r0)))).
    unfold report_text. now rewrite headers_row, string_app_assoc.
  - unfold report_text.
    change (csv_row headers ++ csv_rows (map step_cells (steps (add_summary r0))))
      with (csv_rows (headers :: map step_cells (steps (add_summary r0)))).
    rewrite csv_read_csv_rows. simpl. now rewrite map_app.
Qed.

(** Export after [add_summary], by what [open] and the writing do.  When
    [open] raises, [generate_report] raises the same exception and no file
    changes.  When the file is opened and written, [generate_report]
    returns the path, and the file there starts with the fixed header
    line; read back with the csv reader it gives the header, then one
    record per step in recorded order, then the summary record, whose
    step name is SUMMARY; each record is the text of the six values of
    its step.  When the writing raises, [generate_report] raises the same
    exception and the file holds the part of the text written. *)
Theorem export_round_trip :
  forall (r0 : CSVReporter F) (st : TestState W F),
    let text := report_text (steps (add_summary r0)) in
    let run := generate_report (add_summary r0) st in
    match open_w (csv_file r0) (world st) with
    | (Raise e, _) => fst run = Raise e /\ files (snd run) = files st
    | (Ok _, w1) =>
        match file_write (csv_file r0) text w1 with
        | (None, _) =>
            fst run = Ok (csv_file r0) /\
            files (snd run) = <[csv_file r0 := text]> (files st) /\
            (exists body,
               text = "Step Number,Step Name,Status,Duration (seconds),Details,Error Message"
                      ++ CRLF ++ body) /\
            csv_read text =
              Some (headers :: map step_cells (steps r0)
                      ++ [step_cells (summary_row (steps r0))])%list /\
            Step_Name (summary_row (steps r0)) = "SUMMARY"
        | (Some (e, n), _) =>
            fst run = Raise e /\
            files (snd run) = <[csv_file r0 := take_str n text]> (files st)
        end
    end.
Proof.
  intros r0 st text run. subst run. rewrite generate_report_eq.
  change (csv_file (add_summary r0)) with (csv_file r0). fold text.
  destruct (open_w (csv_file r0) (world st)) as [[[]|e] w1]; [|now split].
  destruct (file_write (csv_file r0) text w1) as [[[e n]|] w2]; [now split|].
  split; [reflexivity|]. split; [reflexivity|].
  apply report_text_round_trip.
Qed.

End ExportFacts.

(** ** The stages of the test function *)

Import TestCompleteCheckoutFlow.

Section OrchestratorFacts.
Context {W : Type} `{World W} {F : Type} `{PyFloat F}.
Implicit Types st : TestState W F.
Local Abbreviation TS A := (M (TestState W F) A).

Lemma silent_ret {A} (a : A) : silent (ret a : TS A).
Proof. intros st. now split. Qed.

Lemma silent_raise {A} (e : exn) : silent (raise e : TS A).
Proof. intros st. now split. Qed.

Lemma silent_bind {A B} (c : TS A) (k : A -> TS B) :
  silent c -> (forall a, silent (k a)) -> silent (bind c k).
Proof.
  intros Hc Hk st. unfold bind. specialize (Hc st).
  destruct (c st) as [[a|e] st1]; simpl in *; [|assumption].
  destruct (Hk a st1) as [H1 H2]. destruct Hc as [H3 H4]. split; congruence.
Qed.

Lemma silent_try_except {A} (c : TS A) (h : exn -> TS A) :
  silent c -> (forall e, silent (h e)) -> silent (try_except c h).
Proof.
  intros Hc Hh st. unfold try_except. specialize (Hc st).
  destruct (c st) as [[a|e] st1]; simpl in *; [assumption|].
  destruct (Hh e st1) as [H1 H2]. destruct Hc as [H3 H4]. split; congruence.
Qed.

Lemma silent_lift {A} (c : M W A) : silent (lift c : TS A).
Proof. intros st. unfold lift. destruct (c (world st)); now split. Qed.

Lemma silent_warning (msg : string) : silent (warning msg : TS unit).
Proof. intros st. now split. Qed.

Lemma silent_set_timer (t : StepTimer) : silent (set_timer t : TS unit).
Proof. intros st. now split. Qed.

Lemma silent_set_added_count (n : Z) : silent (set_added_count n : TS unit).
Proof. intros st. now split. Qed.

Lemma silent_get_added_count : silent (get_added_count : TS Z).
Proof. intros st. now split. Qed.

Lemma silent_timer_get_duration : silent (timer_get_duration : TS F).
Proof. intros st. now split. Qed.

Lemma silent_getitem (d : gmap string string) (k : string) :
  silent (getitem d k : TS string).
Proof. unfold getitem. destruct (d !! k); [apply silent_ret | apply silent_raise]. Qed.

Lemma silent_py_assert (b : bool) (msg : string) : silent (py_assert b msg : TS unit).
Proof. unfold py_assert. destruct b; [apply silent_ret | apply silent_raise]. Qed.

Lemma silent_test_assert (b : bool) (msg : string) :
  silent (test_assert b msg : TS unit).
Proof. intros st. unfold test_assert. apply silent_py_assert. Qed.

Lemma silent_timer_stop : silent (timer_stop : TS unit).
Proof.
  intros st. unfold timer_stop, bind, lift, StepTimer_stop.
  destruct (now (world st)); now split.
Qed.

Lemma silent_timer_new_start : silent (timer_new_start : TS unit).
Proof.
  intros st. unfold timer_new_start, bind, set_timer, effect, lift, StepTimer_start.
  simpl. destruct (now (world st)); now split.
Qed.

Lemma quiet_bind {A B} (c : TS A) (k : A -> TS B) :
  quiet c -> (forall a, quiet (k a)) -> quiet (bind c k).
Proof.
  intros [Hc Rc] Hk. split.
  - apply silent_bind; [assumption|]. intros a. apply Hk.
  - intros st. unfold bind. destruct (Rc st) as [a Ha].
    destruct (c st) as [[a'|e] st1]; simpl in *; [|discriminate].
    destruct (Hk a') as [_ Rk]. apply Rk.
Qed.

Lemma quiet_timer_stop : quiet (timer_stop : TS unit).
Proof.
  split; [apply silent_timer_stop|]. intros st.
  unfold timer_stop, bind, lift, StepTimer_stop.
  destruct (now (world st)). now eexists.
Qed.

Lemma quiet_timer_new_start : quiet (timer_new_start : TS unit).
Proof.
  split; [apply silent_timer_new_start|]. intros st.
  unfold timer_new_start, bind, set_timer, effect, lift, StepTimer_start. simpl.
  destruct (now (world st)). now eexists.
Qed.

Lemma quiet_timer_get_duration : quiet (timer_get_duration : TS F).
Proof. split; [apply silent_timer_get_duration|]. intros st. now eexists. Qed.

Lemma quiet_get_added_count : quiet (get_added_count : TS Z).
Proof. split; [apply silent_get_added_count|]. intros st. now eexists. Qed.

Lemma quiet_set_added_count (n : Z) : quiet (set_added_count n : TS unit).
Proof. split; [apply silent_set_added_count|]. intros st. now eexists. Qed.

Lemma quiet_warning (msg : string) : quiet (warning msg : TS unit).
Proof. split; [apply silent_warning|]. intros st. now eexists. Qed.

Lemma quiet_getitem (d : gmap string string) (k v : string) :
  d !! k = Some v -> quiet (getitem d k : TS string).
Proof.
  intros Hk. split; [apply silent_getitem|]. intros st.
  unfold getitem. rewrite Hk. now eexists.
Qed.

Lemma body_ok_bind {A} (k : Z) (c : TS A) (f : A -> TS unit) :
  silent c -> (forall a, body_ok k (f a)) -> body_ok k (bind c f).
Proof.
  intros Hc Hf st r Hr. unfold bind. destruct (Hc st) as [H1 H2].
  destruct (c st) as [[a|e] st1]; simpl in *.
  - destruct (Hf a st1 r) as [H3 H4]; [congruence|]. split; [congruence|exact H4].
  - split; congruence.
Qed.

Lemma body_ok_add_step (k : Z) (name : string) (d : F) (details : string) :
  body_ok k (csv_add_step k name "SUCCESS" d details "" : TS unit).
Proof.
  intros st r Hr. unfold csv_add_step, bind, get_reporter. rewrite Hr. simpl.
  split; [reflexivity|]. now exists name, d, details.
Qed.

Lemma handler_ok_bind {A} (k : Z) (e : exn) (c : TS A) (f : A -> TS unit) :
  quiet c -> (forall a, handler_ok k e (f a)) -> handler_ok k e (bind c f).
Proof.
  intros [Hc Rc] Hf st r Hr. unfold bind. destruct (Hc st) as [H1 H2].
  destruct (Rc st) as [a Ha].
  destruct (c st) as [[a'|e'] st1]; simpl in *; [|discriminate].
  destruct (Hf a' st1 r) as (H3 & H4 & H5); [congruence|].
  split; [congruence|]. split; assumption.
Qed.

Lemma handler_ok_add_step (k : Z) (e : exn) (name : string) (d : F)
    (details : string) :
  handler_ok k e
    (csv_add_step k name "FAILED" d details (exn_str e) >> raise e : TS unit).
Proof.
  intros st r Hr. unfold csv_add_step, bind, get_reporter, raise. rewrite Hr.
  simpl. split; [reflexivity|]. split; [reflexivity|]. now exists name, d, details.
Qed.

Lemma stage_ok_try (k : Z) (body : TS unit) (h : exn -> TS unit) :
  body_ok k body -> (forall e, handler_ok k e (h e)) ->
  stage_ok k (try_except body h).
Proof.
  intros Hb Hh st r Hr. unfold try_except.
  destruct (Hb st r Hr) as [H1 H2].
  destruct (body st) as [[[]|e] st1]; simpl in *.
  - split; [assumption|]. destruct H2 as (name & d & details & H2).
    now exists name, d, details.
  - destruct (Hh e st1 r H2) as (H3 & H4 & name & d & details & H5).
    split; [congruence|]. exists name, d, details. now rewrite H4.
Qed.

Lemma stage_ok_bind {A} (k : Z) (c : TS A) (f : A -> TS unit) :
  quiet c -> (forall a, stage_ok k (f a)) -> stage_ok k (bind c f).
Proof.
  intros [Hc Rc] Hf st r Hr. unfold bind. destruct (Hc st) as [H1 H2].
  destruct (Rc st) as [a Ha].
  destruct (c st) as [[a'|e'] st1]; simpl in *; [|discriminate].
  destruct (Hf a' st1 r) as (H3 & H4); [congruence|].
  split; [congruence|assumption].
Qed.

End OrchestratorFacts.

Create HintDb silent.

#[global] Hint Resolve silent_ret silent_raise silent_lift silent_warning
  silent_set_timer silent_set_added_count silent_get_added_count
  silent_timer_get_duration silent_getitem silent_py_assert
  silent_test_assert silent_timer_stop
  silent_timer_new_start : silent.

(** Decompose a goal about a stage into its calls. *)
Ltac silent_tac :=
  repeat first
    [ solve [auto with silent]
    | apply silent_bind; [|intros ?]
    | apply silent_try_except; [|intros ?]
    | match goal with |- silent (if ?b then _ else _) => destruct b end ].

Ltac body_tac :=
  repeat first
    [ apply body_ok_add_step
    | apply body_ok_bind; [silent_tac|intros ?] ].

Ltac handler_tac :=
  repeat first
    [ apply handler_ok_add_step
    | apply handler_ok_bind;
      [ first [ apply quiet_timer_stop | apply quiet_timer_get_duration
              | apply quiet_get_added_count
              | eapply quiet_getitem; eassumption ]
      | intros ? ] ].


Section StageFacts.
Context {W : Type} `{World W} {F : Type} `{PyFloat F}.
Local Abbreviation TS A := (M (TestState W F) A).
Variables (credentials billing : gmap string string).
Variable products_to_add : list string.
Variable email : string.
Hypothesis Hemail : credentials !! "email" = Some email.

Lemma silent_add_product (product : string) :
  silent (add_product product : TS unit).
Proof. unfold add_product, add_product_try. silent_tac. Qed.

Lemma silent_add_products (products : list string) :
  silent (add_products products : TS unit).
Proof.
  induction products as [|p ps IH]; simpl; [apply silent_ret|].
  apply silent_bind; [apply silent_add_product | intros _; exact IH].
Qed.

Ltac stage_tac :=
  repeat (apply stage_ok_bind;
          [ first [apply quiet_timer_new_start | apply quiet_set_added_count]
          | intros _ ]);
  apply stage_ok_try;
  [ repeat first
      [ apply body_ok_add_step
      | apply body_ok_bind;
        [ first [apply silent_add_products | silent_tac] | intros ? ] ]
  | intros ?; handler_tac ].

Lemma step0_ok : stage_ok 0 (step0 credentials : TS unit).
Proof. unfold step0. stage_tac. Qed.

Lemma step1_ok : stage_ok 1 (step1 : TS unit).
Proof. unfold step1. stage_tac. Qed.

Lemma step2_ok : stage_ok 2 (step2 credentials : TS unit).
Proof. unfold step2. stage_tac. Qed.

Lemma step3_ok : stage_ok 3 (step3 products_to_add : TS unit).
Proof. unfold step3. stage_tac. Qed.

Lemma step4_ok : stage_ok 4 (step4 : TS unit).
Proof. unfold step4. stage_tac. Qed.

Lemma step5_ok : stage_ok 5 (step5 : TS unit).
Proof. unfold step5. stage_tac. Qed.

Lemma step6_ok : stage_ok 6 (step6 billing : TS unit).
Proof. unfold step6. stage_tac. Qed.

Lemma step7_ok : stage_ok 7 (step7 : TS unit).
Proof. unfold step7. stage_tac. Qed.

Lemma step8_ok : stage_ok 8 (step8 : TS unit).
Proof. unfold step8. stage_tac. Qed.

Lemma contiguous_snoc (l : list (Step F)) (s : Step F) :
  contiguous l -> Step_Number s = SNInt (Z.of_nat (length l)) ->
  contiguous (l ++ [s]).
Proof.
  unfold contiguous. intros Hl Hs.
  rewrite map_app, length_app. simpl length.
  rewrite seq_app, map_app, Hl. simpl. now rewrite Hs.
Qed.

Lemma steps_ok_snoc (k : nat) (l : list (Step F)) (s : Step F) :
  steps_ok k l -> Step_Number s = SNInt (Z.of_nat k) -> Status s = "SUCCESS" ->
  steps_ok (S k) (l ++ [s]).
Proof.
  intros (Hc & Hlen & Hall) Hn Hs. split; [|split].
  - apply contiguous_snoc; [assumption|]. now rewrite Hlen.
  - rewrite length_app. simpl. lia.
  - apply Forall_app. split; [assumption|]. now constructor.
Qed.

(** A stage followed by the later stages. *)
Lemma from_prefix_stage (k : nat) (c rest : TS unit) :
  stage_ok (Z.of_nat k) c -> (k < 9)%nat -> from_prefix (S k) rest ->
  from_prefix k (c >> rest).
Proof.
  intros Hc Hk Hrest st r Hr Hok. unfold bind.
  destruct (Hc st r Hr) as (Hf & name & d & details & Hres).
  destruct (c st) as [[[]|e] st1]; simpl in *.
  - destruct (Hrest st1 _ Hres) as (Hf' & r' & Hr' & Hcf & Hrn & Hrun).
    { simpl. now apply steps_ok_snoc. }
    split; [congruence|]. exists r'. auto.
  - split; [assumption|]. eexists. split; [exact Hres|].
    split; [reflexivity|]. split; [reflexivity|].
    simpl. eexists _, _. split; [reflexivity|].
    destruct Hok as (Hc' & Hlen & Hall).
    split; [now repeat split|]. simpl. rewrite Hlen. auto.
Qed.

(** The last stage. *)
Lemma from_prefix_last (c : TS unit) : stage_ok 8 c -> from_prefix 8 c.
Proof.
  intros Hc st r Hr Hok.
  destruct (Hc st r Hr) as (Hf & name & d & details & Hres).
  split; [assumption|].
  destruct (c st) as [[[]|e] st1]; simpl in *.
  - eexists. split; [exact Hres|]. split; [reflexivity|]. split; [reflexivity|].
    simpl. now apply (steps_ok_snoc 8).
  - eexists. split; [exact Hres|]. split; [reflexivity|]. split; [reflexivity|].
    simpl. eexists _, _. split; [reflexivity|].
    destruct Hok as (Hc' & Hlen & Hall).
    split; [now repeat split|]. simpl. rewrite Hlen. split; [lia|]. auto.
Qed.

Lemma run_stages_from_prefix :
  from_prefix 0 (run_stages credentials billing products_to_add : TS unit).
Proof.
  unfold run_stages.
  apply (from_prefix_stage 0); [apply step0_ok | lia |].
  apply (from_prefix_stage 1); [apply step1_ok | lia |].
  apply (from_prefix_stage 2); [apply step2_ok | lia |].
  apply (from_prefix_stage 3); [apply step3_ok | lia |].
  apply (from_prefix_stage 4); [apply step4_ok | lia |].
  apply (from_prefix_stage 5); [apply step5_ok | lia |].
  apply (from_prefix_stage 6); [apply step6_ok | lia |].
  apply (from_prefix_stage 7); [apply step7_ok | lia |].
  apply from_prefix_last, step8_ok.
Qed.

End StageFacts.

Section WholeTest.
Context {W : Type} `{World W} {F : Type} `{PyFloat F}.
Local Abbreviation TS A := (M (TestState W F) A).

Lemma after_setup_bind {A} (c : TS A) (k : A -> TS unit) :
  silent c -> (forall a, after_setup (k a)) -> after_setup (bind c k).
Proof.
  intros Hc Hk st r Hr Hs. unfold bind. destruct (Hc st) as [H1 H2].
  destruct (c st) as [[a|e] st1]; simpl in *.
  - rewrite <- H2. apply (Hk a st1 r); congruence.
  - left. exists e. split; [reflexivity|]. split; [|assumption].
    unfold recorded. now rewrite H1, Hr.
Qed.

Lemma bind_eq {S A B} (c : M S A) (k : A -> M S B) (s : S) :
  bind c k s = match c s with
               | (Ok a, s') => k a s'
               | (Raise e, s') => (Raise e, s')
               end.
Proof. reflexivity. Qed.

(** The summary and the export, once the stages have passed. *)
Lemma summary_and_export (st : TestState W F) (r : CSVReporter F) :
  csv_reporter st = Some r ->
  (csv_add_summary >>
   (let* r' := get_reporter in generate_report r' >> ret tt)) st =
  match generate_report (add_summary r)
          (mkTestState (world st) (files st) (warnings st)
             (Some (add_summary r)) (timer st) (added_count st)) with
  | (Ok _, st') => (Ok tt, st')
  | (Raise e, st') => (Raise e, st')
  end.
Proof.
  intros Hr. unfold csv_add_summary, bind, get_reporter, set_reporter, effect.
  rewrite Hr. reflexivity.
Qed.

(** The stages, the summary and the export. *)
Lemma stages_and_export (credentials billing : gmap string string)
    (products : list string) (email : string) :
  credentials !! "email" = Some email ->
  after_setup (run_stages credentials billing products >>
               csv_add_summary >>
               (let* r := get_reporter in generate_report r >> ret tt) : TS unit).
Proof.
  intros Hemail st r Hr Hs. rewrite bind_eq.
  destruct (run_stages_from_prefix credentials billing products email Hemail st r Hr)
    as (Hf & r1 & Hr1 & Hcf & Hrn & Hrun).
  { rewrite Hs. repeat split. constructor. }
  destruct (run_stages credentials billing products st) as [[[]|e] st1];
    simpl in Hf, Hr1, Hrun.
  - right; right. exists (steps r1), (add_summary r1).
    split; [assumption|]. rewrite (summary_and_export st1 r1 Hr1).
    pose proof (generate_report_spec (add_summary r1)
      (mkTestState (world st1) (files st1) (warnings st1)
         (Some (add_summary r1)) (timer st1) (added_count st1))) as Hg.
    destruct (generate_report (add_summary r1) _) as [[path|e] st2]; simpl in *.
    + destruct Hg as (-> & Hfiles & Hrep & _).
      split; [assumption|]. split; [reflexivity|]. left.
      split; [reflexivity|]. now rewrite Hfiles, Hf.
    + destruct Hg as (Hfiles & Hrep & _).
      split; [assumption|]. split; [reflexivity|]. right.
      exists e. split; [reflexivity|].
      destruct Hfiles as [Hfiles | [n Hfiles]]; [left; congruence|].
      right. exists n. now rewrite Hfiles, Hf.
  - right; left. exists e. split; [reflexivity|]. split; [|assumption].
    simpl. unfold recorded. now rewrite Hr1.
Qed.

(** How every run of the test function ends. *)
Lemma test_end_to_end_outcome (data : TestData) (w : W) (fs : gmap string string) :
  let run := test_end_to_end_checkout_flow data (initial_state (F:=F) w fs) in
  test_outcome fs (fst run) (snd run).
Proof.
  intros run. subst run.
  destruct (test_end_to_end_checkout_flow data (initial_state w fs))
    as [res st'] eqn:Hrun. simpl.
  unfold test_end_to_end_checkout_flow in Hrun. cbv zeta in Hrun.
  rewrite bind_eq in Hrun. unfold lift at 1 in Hrun. simpl in Hrun.
  destruct (CSVReporter_init "e2e_checkout_test" w) as [[rep|e] w1] eqn:E0.
  - apply CSVReporter_init_csv_file in E0 as (_ & _ & Hsteps).
    rewrite bind_eq in Hrun. unfold set_reporter at 1, effect at 1 in Hrun.
    simpl in Hrun.
    rewrite bind_eq in Hrun. unfold get_user_credentials at 1 in Hrun.
    simpl in Hrun. destruct (unique_email w1) as [em w2].
    match type of Hrun with
    | ?c ?st = _ =>
        assert (Hc : after_setup c);
        [| pose proof (Hc st rep eq_refl Hsteps) as Hout;
           rewrite Hrun in Hout; exact Hout]
    end.
    repeat (apply after_setup_bind; [apply silent_lift | intros _]).
    eapply stages_and_export. apply lookup_insert_eq.
  - injection Hrun as <- <-. left. exists e. auto.
Qed.

End WholeTest.

(** ** Every run of the test function *)

Section RunFacts.
Context {W : Type} `{World W} {F : Type} `{PyFloat F}.
Local Abbreviation TS A := (M (TestState W F) A).

Lemma halts_when_all_success (l : list (Step F)) :
  Forall (fun s => Status s = "SUCCESS") l -> halts_at_failure l.
Proof.
  intros Hall l1 s l2 -> Hs. apply Forall_app in Hall as [_ Hall].
  inversion Hall; subst. congruence.
Qed.

Lemma halts_snoc (l : list (Step F)) (s : Step F) :
  Forall (fun x => Status x = "SUCCESS") l -> halts_at_failure (l ++ [s]).
Proof.
  intros Hall l1. revert l Hall.
  induction l1 as [|b l1 IH]; intros l Hall x l2 Heq Hx.
  - destruct l as [|a l]; simpl in Heq.
    + now injection Heq as _ <-.
    + injection Heq as -> _. inversion Hall; subst. congruence.
  - destruct l as [|a l]; simpl in Heq.
    + injection Heq as _ Heq. destruct l1; discriminate.
    + injection Heq as _ Heq. inversion Hall; subst. eapply IH; eassumption.
Qed.

(** The loop over the products never raises, and records no step. *)
Lemma add_products_returns (products : list string) (st : TestState W F) :
  exists st', add_products products st = (Ok tt, st')
              /\ recorded st' = recorded st /\ files st' = files st.
Proof.
  revert st. induction products as [|p ps IH]; intros st.
  - exists st. now repeat split.
  - simpl. rewrite bind_eq.
    assert (Hp : exists st1, add_product p st = (Ok tt, st1)).
    { unfold add_product, try_except.
      destruct (add_product_try p st) as [[[]|e] st1]; [now eexists|].
      unfold warning, effect. now eexists. }
    destruct Hp as [st1 Hp]. rewrite Hp.
    destruct (silent_add_product p st) as [Hr Hf]. rewrite Hp in Hr, Hf.
    simpl in Hr, Hf. destruct (IH st1) as (st' & Hrun & Hrec & Hfiles).
    exists st'. split; [assumption|].
    split; [rewrite Hrec; unfold recorded; now rewrite Hr | congruence].
Qed.

(** C1 (amended).  In every run of the test function the steps recorded are
    numbered 0, 1, 2, ... without gap or duplicate, each is SUCCESS or
    FAILED, and no step follows a FAILED one: a FAILED step is the last
    record, the run raises the exception whose text it carries, and
    neither a further step nor the summary is appended.  The summary
    follows the steps only when all nine are SUCCESS.  A product that
    cannot be added does not halt the sequence: the per-product loop of
    the cart stage never raises and records nothing itself.  Nor does an
    order number that cannot be read: [get_order_number] never raises,
    and returns the empty string when the read raises. *)
Theorem steps_contiguous_and_halt_at_failure :
  forall (data : TestData) (w : W) (fs : gmap string string),
    let run := test_end_to_end_checkout_flow data (initial_state (F:=F) w fs) in
    (exists l tail,
        recorded (snd run) = (l ++ tail)%list /\
        contiguous l /\ halts_at_failure l /\ (length l <= 9)%nat /\
        Forall (fun s => Status s = "SUCCESS" \/ Status s = "FAILED") l /\
        (tail = [] \/
         tail = [summary_row l] /\ length l = 9%nat /\
         Forall (fun s => Status s = "SUCCESS") l) /\
        (fst run = Ok tt -> tail = [summary_row l]) /\
        (forall s, last l = Some s -> Status s = "FAILED" ->
           tail = [] /\ exists e, fst run = Raise e /\ Error_Message s = exn_str e))
    /\ (forall (products : list string) (st : TestState W F),
          exists st', add_products products st = (Ok tt, st')
                      /\ recorded st' = recorded st)
    /\ (forall w0 : W,
          exists num w1,
            CheckoutPage.get_order_number w0 = (Ok num, w1) /\
            (forall e w',
               get_text CheckoutPage.ORDER_NUMBER w0 = (Raise e, w') ->
               num = "")).
Proof.
  intros data w fs run. split; [|split].
  - pose proof (test_end_to_end_outcome data w fs) as Hout. fold run in Hout.
    destruct Hout as [(e & Hres & Hrec & _) | [(e & Hres & Hrun & _) | Hout]].
    + exists [], []. rewrite Hrec, Hres.
      split; [reflexivity|]. split; [reflexivity|].
      split; [intros l1 s l2 Heq; destruct l1; discriminate|].
      split; [simpl; lia|]. split; [constructor|].
      split; [now left|]. split; discriminate.
    + destruct Hrun as (l0 & s & Hrec & (Hc & _ & Hall) & Hlen & Hn & Hs & He).
      exists (l0 ++ [s])%list, []. rewrite Hrec, Hres, app_nil_r.
      split; [reflexivity|]. split; [now apply contiguous_snoc|].
      split; [now apply halts_snoc|].
      split; [rewrite length_app; simpl; lia|].
      split.
      { apply Forall_app. split; [|constructor; [now right|constructor]].
        eapply Forall_impl; [exact Hall|]. intros x Hx. now left. }
      split; [now left|]. split; [discriminate|].
      intros s' Hlast Hs'. rewrite last_snoc in Hlast. injection Hlast as <-.
      split; [reflexivity|]. now exists e.
    + destruct Hout as (l & r & (Hc & Hlen & Hall) & Hr & Hsteps & Hres).
      exists l, [summary_row l]. unfold recorded. rewrite Hr, Hsteps.
      split; [reflexivity|]. split; [assumption|].
      split; [now apply halts_when_all_success|].
      split; [lia|]. split.
      { eapply Forall_impl; [exact Hall|]. intros x Hx. now left. }
      split; [right; now repeat split|]. split; [reflexivity|].
      intros s Hlast Hs. apply last_Some in Hlast as [l' ->].
      apply Forall_app in Hall as [_ Hall]. inversion Hall; subst. congruence.
  - intros products st. destruct (add_products_returns products st) as (st' & ? & ? & ?).
    exists st'. now split.
  - intros w0. unfold CheckoutPage.get_order_number, try_except.
    destruct (get_text CheckoutPage.ORDER_NUMBER w0) as [[m|e] w1] eqn:E.
    + exists m, w1. split; [reflexivity|]. intros e w' He. discriminate.
    + exists "", w1. split; [reflexivity|]. reflexivity.
Qed.

(** A run that raises was either halted by a stage, or before the first
    stage, and then no report file changed: nothing is recorded, or the
    last record is the FAILED step carrying the text of the exception.
    Or the nine stages passed and the export itself raised: then no file
    changed, or the report file holds a part of the report text. *)
Theorem raising_run_report_files :
  forall (data : TestData) (w : W) (fs : gmap string string) (e : exn),
    let run := test_end_to_end_checkout_flow data (initial_state (F:=F) w fs) in
    fst run = Raise e ->
    (files (snd run) = fs /\
     (recorded (snd run) = [] \/
      exists s, last (recorded (snd run)) = Some s /\
                Status s = "FAILED" /\ Error_Message s = exn_str e))
    \/ (exists l r,
          steps_ok 9 l /\ csv_reporter (snd run) = Some r /\
          steps r = (l ++ [summary_row l])%list /\
          (files (snd run) = fs \/
           exists n,
             files (snd run) =
               <[csv_file r := take_str n (report_text (steps r))]> fs)).
Proof.
  intros data w fs e run Hres.
  pose proof (test_end_to_end_outcome data w fs) as Hout. fold run in Hout.
  destruct Hout as [(e1 & _ & Hrec & Hf) | [(e1 & He1 & Hrun & Hf) | Hout]].
  - left. auto.
  - left. split; [assumption|]. right.
    destruct Hrun as (l0 & s & Hrec & _ & _ & _ & Hs & He).
    exists s. rewrite Hrec, last_snoc.
    assert (e1 = e) by congruence. subst e1. auto.
  - right. destruct Hout as (l & r & Hl & Hr & Hsteps & Hcase).
    exists l, r. repeat (split; [assumption|]).
    destruct Hcase as [[Hok _] | (e1 & _ & Hf)]; [congruence | assumption].
Qed.

End RunFacts.

(** C3 on a failing run: the registration link never becomes clickable;
    stage 0 is recorded FAILED with the text of the exception, the test
    function raises, and no report file exists afterwards. *)
Lemma failed_registration_leaves_no_report :
  let H := scripted_world (site_without RegistrationPage.REGISTER_LINK) in
  let run := test_end_to_end_checkout_flow sample_data
               (initial_state (F:=Z) scripted_start ∅) in
  fst run = Raise timeout_exn
  /\ map (fun s => (Step_Number s, Status s, Error_Message s))
         (recorded (snd run)) = [(SNInt 0, "FAILED", "Message: ")]
  /\ files (snd run) = ∅.
Proof. vm_compute. repeat split. Qed.

(** ** The cart stage *)

Section TestOperations.
Context {W : Type} `{World W} {F : Type} `{PyFloat F}.
Implicit Types st : TestState W F.

Lemma timer_stop_eq st :
  timer_stop st =
    (Ok tt, mkTestState (snd (now (world st))) (files st) (warnings st)
              (csv_reporter st)
              {| start_time := start_time (timer st);
                 end_time := Some (fst (now (world st))) |}
              (added_count st)).
Proof.
  unfold timer_stop, bind, lift, StepTimer_stop, set_timer, effect.
  destruct (now (world st)). reflexivity.
Qed.

Lemma timer_new_start_eq st :
  timer_new_start st =
    (Ok tt, mkTestState (snd (now (world st))) (files st) (warnings st)
              (csv_reporter st)
              {| start_time := Some (fst (now (world st))); end_time := None |}
              (added_count st)).
Proof.
  unfold timer_new_start, bind, lift, StepTimer_start, set_timer, effect. simpl.
  destruct (now (world st)). reflexivity.
Qed.

Lemma csv_add_step_eq st (r : CSVReporter F) k name status d details err :
  csv_reporter st = Some r ->
  csv_add_step k name status d details err st =
    (Ok tt, mkTestState (world st) (files st) (warnings st)
              (Some (add_step r k name status d details err))
              (timer st) (added_count st)).
Proof.
  intros Hr. unfold csv_add_step, bind, get_reporter, set_reporter, effect.
  now rewrite Hr.
Qed.

Lemma get_added_count_eq st : get_added_count st = (Ok (added_count st), st).
Proof. reflexivity. Qed.

Lemma set_added_count_eq (n : Z) st :
  set_added_count n st =
    (Ok tt, mkTestState (world st) (files st) (warnings st) (csv_reporter st)
              (timer st) n).
Proof. reflexivity. Qed.

Lemma timer_get_duration_eq st :
  timer_get_duration st = (Ok (get_duration (timer st)), st).
Proof. reflexivity. Qed.

Lemma py_assert_eq (b : bool) (msg : string) st :
  py_assert b msg st =
    if b then (Ok tt, st) else (Raise (mkExn AssertionError msg), st).
Proof. now destruct b. Qed.

Lemma test_assert_eq (b : bool) (msg : string) st :
  test_assert b msg st =
    if b then (Ok tt, st)
    else (Raise (mkExn AssertionError (msg ++ assert_explanation (world st))),
          st).
Proof. unfold test_assert. apply py_assert_eq. Qed.

Lemma warning_eq (msg : string) st :
  warning msg st =
    (Ok tt, mkTestState (world st) (files st) (warnings st ++ [msg])
              (csv_reporter st) (timer st) (added_count st)).
Proof. reflexivity. Qed.

Lemma raise_eq {S A} (e : exn) (s : S) : raise e s = (Raise (A:=A) e, s).
Proof. reflexivity. Qed.

Lemma ret_eq {S A} (a : A) (s : S) : ret a s = (Ok a, s).
Proof. reflexivity. Qed.

Lemma lift_eq {A} (c : M W A) st :
  lift c st =
    (fst (c (world st)),
     mkTestState (snd (c (world st))) (files st) (warnings st)
       (csv_reporter st) (timer st) (added_count st)).
Proof. unfold lift. now destruct (c (world st)). Qed.

End TestOperations.

Ltac red_in E :=
  cbv beta iota in E;
  cbn [world files warnings csv_reporter timer added_count fst snd exn_str]
    in E.

(** Run the test-level operations at the head of the run in [E]. *)
Ltac run_in E :=
  red_in E;
  repeat (first
    [ rewrite bind_eq in E | rewrite timer_stop_eq in E
    | rewrite timer_new_start_eq in E
    | rewrite get_added_count_eq in E | rewrite set_added_count_eq in E
    | rewrite timer_get_duration_eq in E | rewrite py_assert_eq in E
    | rewrite test_assert_eq in E
    | rewrite warning_eq in E | rewrite raise_eq in E | rewrite ret_eq in E
    | rewrite lift_eq in E ];
    red_in E).

Section CartStage.
Context {W : Type} `{World W} {F : Type} `{PyFloat F}.
Local Abbreviation TS A := (M (TestState W F) A).
Implicit Types st : TestState W F.

(** One product: the iteration returns, records nothing, and counts the
    product exactly when it was added. *)
Lemma add_product_counts (product : string) st :
  exists st',
    add_product product st = (Ok tt, st') /\
    csv_reporter st' = csv_reporter st /\ files st' = files st /\
    timer st' = timer st /\
    added_count st' =
      added_count st + (if add_succeeds product (world st) then 1 else 0).
Proof.
  unfold add_product, add_product_try, try_except, add_succeeds.
  rewrite bind_eq. unfold lift at 1.
  destruct (HomePage.search_product product (world st)) as [[[]|e] w1];
    [|unfold warning, effect; eexists; repeat split; simpl; lia].
  rewrite bind_eq. unfold lift at 1. cbn [world].
  destruct (ProductPage.get_search_results_count w1) as [[n|e] w2];
    [|unfold warning, effect; eexists; repeat split; simpl; lia].
  destruct (Z.ltb 0 n);
    [|unfold warning, effect; eexists; repeat split; simpl; lia].
  rewrite bind_eq. unfold lift at 1. cbn [world].
  destruct (ProductPage.add_to_cart_from_listing 0 w2) as [[[]|e] w3];
    [|unfold warning, effect; eexists; repeat split; simpl; lia].
  rewrite bind_eq. unfold get_added_count, set_added_count, effect, bind at 1.
  cbn [added_count world files warnings csv_reporter timer].
  rewrite bind_eq. unfold lift at 1. cbn [world].
  destruct (ProductPage.close_notification w3) as [[[]|e] w4];
    [|unfold warning, effect; eexists; repeat split; simpl; lia].
  unfold lift. cbn [world].
  destruct (HomePage.click_logo w4) as [[[]|e] w5];
    unfold warning, effect; eexists; repeat split; simpl; lia.
Qed.

Lemma add_products_counts (products : list string) : forall st,
  exists st',
    add_products products st = (Ok tt, st') /\
    csv_reporter st' = csv_reporter st /\ files st' = files st /\
    timer st' = timer st /\
    added_count st' = added_count st + products_added products st.
Proof.
  induction products as [|p ps IH]; intros st.
  - exists st. simpl. repeat split. lia.
  - simpl. rewrite bind_eq.
    destruct (add_product_counts p st) as (st1 & Hrun & Hr & Hf & Ht & Hn).
    rewrite Hrun. simpl.
    destruct (IH st1) as (st' & Hrun' & Hr' & Hf' & Ht' & Hn').
    exists st'. split; [assumption|]. repeat split; try congruence. lia.
Qed.

(** The count of added products lies between 0 and the number of
    products tried. *)
Lemma products_added_bounds (products : list string) : forall st,
  0 <= products_added products st <= Z.of_nat (length products).
Proof.
  induction products as [|p ps IH]; intros st; simpl; [lia|].
  specialize (IH (snd (add_product p st))).
  destruct (add_succeeds p (world st)); lia.
Qed.

Lemma cart_loop_start_eq st :
  cart_loop_start st =
    mkTestState (snd (now (world st))) (files st) (warnings st)
      (csv_reporter st)
      {| start_time := Some (fst (now (world st))); end_time := None |} 0.
Proof.
  unfold cart_loop_start. rewrite bind_eq, timer_new_start_eq. reflexivity.
Qed.

(** The cart stage is decided by the number [n] of products added among
    the first three: with none it records FAILED and raises the
    [AssertionError], whose text, also recorded, is the message of the
    assertion followed by what the test runner appends; with one or more
    it records SUCCESS with the count in the details.  [n] is at most 3
    however long the list. *)
Theorem cart_stage_by_count :
  forall (products : list string) (w : W) (fs : gmap string string)
         (ws : list string) (r : CSVReporter F) (t : StepTimer) (n0 : Z),
    let st := mkTestState w fs ws (Some r) t n0 in
    let n := products_added (firstn 3 products) (cart_loop_start st) in
    0 <= n <= 3 /\
    exists (d : F) (st' : TestState W F),
      files st' = fs /\
      if Z.ltb 0 n then
        step3 products st = (Ok tt, st') /\
        csv_reporter st' =
          Some (add_step r 3 "Add Products to Cart" "SUCCESS" d
                  ("Added " ++ str_int n ++ " products to cart") "")
      else
        exists detail : string,
          step3 products st =
            (Raise (mkExn AssertionError
                      ("Failed to add any products to cart" ++ detail)), st') /\
          csv_reporter st' =
            Some (add_step r 3 "Add Products to Cart" "FAILED" d
                    "Only added 0 products"
                    ("Failed to add any products to cart" ++ detail)).
Proof.
  intros products w fs ws r t n0 st n.
  assert (Hn : 0 <= n <= 3).
  { pose proof (products_added_bounds (firstn 3 products) (cart_loop_start st)).
    pose proof (firstn_le_length 3 products). fold n in H1. lia. }
  split; [exact Hn|].
  destruct (add_products_counts (firstn 3 products) (cart_loop_start st))
    as (st2 & Hrun & Hr & Hf & Ht & Hc).
  fold n in Hc. rewrite cart_loop_start_eq in Hr, Hf, Hc, Hrun.
  subst st. cbn [world files warnings csv_reporter timer added_count] in *.
  destruct (step3 products (mkTestState w fs ws (Some r) t n0))
    as [res st'] eqn:E.
  unfold step3, try_except in E. run_in E. rewrite Hrun in E. run_in E.
  assert (Hc' : added_count st2 = n) by lia.
  destruct (Z.ltb 0 n) eqn:Hpos.
  - rewrite Hc', Hpos in E. cbv beta iota in E. run_in E.
    erewrite csv_add_step_eq in E by (cbn; exact Hr). rewrite Hc' in E.
    injection E as <- <-. eexists _, _.
    split; [|split; reflexivity]. exact Hf.
  - assert (Hz : n = 0) by (apply Z.ltb_ge in Hpos; lia).
    rewrite Hc', Hpos in E. cbv beta iota in E. run_in E.
    erewrite csv_add_step_eq in E by (cbn; exact Hr). run_in E.
    rewrite Hc', Hz in E.
    injection E as <- <-. eexists _, _.
    split; [|eexists; split; reflexivity]. exact Hf.
Qed.

End CartStage.

(** ** The cart validation stage *)

Section Queries.
Context {W : Type} `{World W}.

(** A query whose [except] clause returns a default never raises: it
    gives the result of its body or the default. *)
Lemma try_default_returns {A} (body : M W A) (x : A) (w : W) :
  exists a w', try_except body (fun _ => ret x) w = (Ok a, w')
               /\ (body w = (Ok a, w') \/ a = x).
Proof.
  unfold try_except. destruct (body w) as [[a|e] w1] eqn:E.
  - exists a, w1. auto.
  - exists x, w1. auto.
Qed.

Lemma get_cart_items_count_returns (w : W) :
  exists n w', CartPage.get_cart_items_count w = (Ok n, w') /\ 0 <= n.
Proof.
  destruct (try_default_returns
              (let* items := find_elements CartPage.CART_ITEMS in
               ret (Z.of_nat (length items))) 0 w) as (n & w' & Hrun & Hn).
  exists n, w'. split; [exact Hrun|].
  destruct Hn as [Hbody | ->]; [|lia].
  rewrite bind_eq in Hbody.
  destruct (find_elements CartPage.CART_ITEMS w) as [[items|e] w1];
    [|discriminate].
  injection Hbody as <- _. lia.
Qed.

Lemma get_product_names_returns (w : W) :
  exists l w', CartPage.get_product_names w = (Ok l, w').
Proof.
  destruct (try_default_returns
              (let* name_elements := find_elements CartPage.PRODUCT_NAMES in
               texts_of strip name_elements) [] w) as (l & w' & Hrun & _).
  now exists l, w'.
Qed.

(** [get_cart_total] never raises and never returns the empty string:
    when no total is read it gives a placeholder. *)
Lemma get_cart_total_returns (w : W) :
  exists total w', CartPage.get_cart_total w = (Ok total, w') /\ total <> "".
Proof.
  unfold CartPage.get_cart_total.
  match goal with
  | |- context [try_except ?b _] =>
      destruct (try_default_returns b "Total retrieval failed" w)
        as (total & w' & Hrun & Hcase)
  end.
  exists total, w'. split; [exact Hrun|].
  destruct Hcase as [Hbody | ->]; [|discriminate].
  rewrite bind_eq in Hbody. unfold time_sleep, effect in Hbody.
  rewrite bind_eq in Hbody.
  destruct (CartPage.total_from_locators CartPage.total_locators "" (sleep 2 w))
    as [[t1|e] w1]; [|discriminate].
  rewrite bind_eq in Hbody.
  match type of Hbody with
  | context [if String.eqb t1 "" then ?a else ?b] =>
      destruct ((if String.eqb t1 "" then a else b) w1) as [[t2|e] w2];
        [|discriminate]
  end.
  destruct (String.eqb_spec t2 ""); simpl in Hbody;
    injection Hbody as <- _; [discriminate | assumption].
Qed.

(** With none of the locators found, the loop over them leaves the
    total empty. *)
Lemma total_from_locators_none (locs : list locator) : forall w,
  (forall loc w0, In loc locs ->
     exists e w1, wait_until 2 presence_of_element_located loc w0 = (Raise e, w1)) ->
  exists w', CartPage.total_from_locators locs "" w = (Ok "", w').
Proof.
  induction locs as [|loc locs IH]; intros w Hmiss.
  - now exists w.
  - simpl. rewrite bind_eq. unfold try_except at 1.
    rewrite bind_eq. unfold is_element_present, try_except. rewrite bind_eq.
    unfold wait_time. simpl Z.eqb. cbv iota.
    destruct (Hmiss loc w (or_introl eq_refl)) as (e & w1 & ->).
    assert (Hrest : exists w', CartPage.total_from_locators locs "" w1 = (Ok "", w')).
    { apply IH. intros l w0 Hin. apply Hmiss. now right. }
    destruct (is_class TimeoutException e); simpl; exact Hrest.
Qed.

(** When the page shows no total at all, [get_cart_total] returns the
    placeholder text. *)
Lemma get_cart_total_placeholder (w : W) :
  (forall loc w0, In loc CartPage.total_locators ->
     exists e w1, wait_until 2 presence_of_element_located loc w0 = (Raise e, w1)) ->
  (forall w0, exists w1, driver_find_elements (By_TAG_NAME, "strong") w0 = (Ok [], w1)) ->
  exists w', CartPage.get_cart_total w = (Ok "Total not displayed", w').
Proof.
  intros Hmiss Hstrong.
  destruct (CartPage.get_cart_total w) as [res w'] eqn:E.
  unfold CartPage.get_cart_total, try_except, time_sleep, effect in E.
  rewrite !bind_eq in E.
  destruct (total_from_locators_none CartPage.total_locators (sleep 2 w) Hmiss)
    as (w1 & Hloop).
  rewrite Hloop in E. cbv beta iota in E. unfold bind in E.
  change (String.eqb "" "") with true in E. cbv beta iota in E.
  destruct (Hstrong w1) as (w2 & Hs). rewrite Hs in E. simpl in E.
  injection E as <- <-. now eexists.
Qed.

End Queries.

Section CartValidation.
Context {W : Type} `{World W} {F : Type} `{PyFloat F}.
Local Abbreviation TS A := (M (TestState W F) A).

(** Once the cart page is reached, the cart stage is decided by the item
    count alone: with no item it records FAILED and raises the
    [AssertionError], whose text, also recorded, is [Cart is empty]
    followed by what the test runner appends; with an item it records
    SUCCESS, and the details carry the count and the total, which is
    never empty. *)
Theorem cart_validation_by_count :
  forall (w : W) (fs : gmap string string) (ws : list string)
         (r : CSVReporter F) (t : StepTimer) (n0 : Z) (w2 : W),
    let st := mkTestState w fs ws (Some r) t n0 in
    HomePage.navigate_to_shopping_cart (snd (now w)) = (Ok tt, w2) ->
    exists (count : Z) (w3 : W),
      CartPage.get_cart_items_count w2 = (Ok count, w3) /\ 0 <= count /\
      exists (d : F) (st' : TestState W F),
        files st' = fs /\
        if Z.ltb 0 count then
          exists total, total <> "" /\
            step4 st = (Ok tt, st') /\
            csv_reporter st' =
              Some (add_step r 4 "Cart Validation" "SUCCESS" d
                      ("Cart items: " ++ str_int count ++ ", Total: " ++ total) "")
        else
          step4 st =
            (Raise (mkExn AssertionError
                      ("Cart is empty" ++ assert_explanation w3)), st') /\
          csv_reporter st' =
            Some (add_step r 4 "Cart Validation" "FAILED" d
                    "Failed to validate cart"
                    ("Cart is empty" ++ assert_explanation w3)).
Proof.
  intros w fs ws r t n0 w2 st Hnav. subst st.
  destruct (get_cart_items_count_returns w2) as (count & w3 & Hcount & Hpos).
  exists count, w3. split; [exact Hcount|]. split; [exact Hpos|].
  destruct (get_product_names_returns w3) as (names & w4 & Hnames).
  destruct (get_cart_total_returns w4) as (total & w5 & Htotal & Hne).
  destruct (step4 (mkTestState w fs ws (Some r) t n0)) as [res st'] eqn:E.
  unfold step4, try_except in E. run_in E.
  rewrite Hnav in E. run_in E. rewrite Hcount in E. run_in E.
  destruct (Z.ltb 0 count) eqn:Hc.
  - run_in E. rewrite Hnames in E. run_in E. rewrite Htotal in E. run_in E.
    destruct (negb (String.eqb total "") && contains "$" total); run_in E;
      (erewrite csv_add_step_eq in E by (cbn; reflexivity));
      injection E as <- <-; eexists _, _;
      (split; [|exists total; split; [exact Hne|split; reflexivity]]);
      reflexivity.
  - run_in E.
    erewrite csv_add_step_eq in E by (cbn; reflexivity). run_in E.
    injection E as <- <-. eexists _, _.
    split; [|split; reflexivity]. reflexivity.
Qed.

End CartValidation.

(** ** The stages for logout, billing and order validation *)

Section OtherStages.
Context {W : Type} `{World W} {F : Type} `{PyFloat F}.
Local Abbreviation TS A := (M (TestState W F) A).

(** Stage 8 is decided by the success message read from the page, which
    is the empty string when reading it raises, a timeout included.  For
    an ASCII message: an accepted message gives SUCCESS, whatever becomes
    of the order number; any other gives FAILED and the [AssertionError]
    whose text, also recorded, is [Unexpected success message: ], the
    message, and what the test runner appends; the exception that emptied
    the message is not part of it. *)
Theorem order_validation_by_message :
  forall (w : W) (fs : gmap string string) (ws : list string)
         (r : CSVReporter F) (t : StepTimer) (n0 : Z),
    let st := mkTestState w fs ws (Some r) t n0 in
    (forall m w', get_text CheckoutPage.ORDER_SUCCESS_MESSAGE (snd (now w))
                  = (Ok m, w') -> ascii_text m = true) ->
    exists (msg : string) (w2 : W),
      CheckoutPage.get_order_success_message (snd (now w)) = (Ok msg, w2) /\
      ascii_text msg = true /\
      (forall e w', get_text CheckoutPage.ORDER_SUCCESS_MESSAGE (snd (now w))
                    = (Raise e, w') -> msg = "") /\
      exists (d : F) (st' : TestState W F),
        files st' = fs /\
        if message_accepted msg then
          step8 st = (Ok tt, st') /\
          csv_reporter st' =
            Some (add_step r 8 "Order Completion Validation" "SUCCESS" d
                    ("Order confirmed. Message: " ++ take_str 50 msg ++ "...") "")
        else
          step8 st =
            (Raise (mkExn AssertionError
                      (("Unexpected success message: " ++ msg)
                       ++ assert_explanation w2)),
             st') /\
          csv_reporter st' =
            Some (add_step r 8 "Order Completion Validation" "FAILED" d
                    "Failed to validate order completion"
                    (("Unexpected success message: " ++ msg)
                     ++ assert_explanation w2)).
Proof.
  intros w fs ws r t n0 st Hascii. subst st.
  destruct (try_default_returns (get_text CheckoutPage.ORDER_SUCCESS_MESSAGE)
              "" (snd (now w))) as (msg & w2 & Hmsg & Hcase).
  fold (CheckoutPage.get_order_success_message (W:=W)) in Hmsg.
  exists msg, w2. split; [exact Hmsg|]. split.
  { destruct Hcase as [Hok | ->]; [now apply (Hascii msg w2) | reflexivity]. }
  split.
  { intros e w' Hraise. destruct Hcase as [Hok | ->]; [congruence|reflexivity]. }
  destruct (try_default_returns (get_text CheckoutPage.ORDER_NUMBER) "" w2)
    as (num & w3 & Hnum & _).
  fold (CheckoutPage.get_order_number (W:=W)) in Hnum.
  destruct (step8 (mkTestState w fs ws (Some r) t n0)) as [res st'] eqn:E.
  unfold step8, try_except in E. run_in E. rewrite Hmsg in E. run_in E.
  fold (message_accepted msg) in E.
  destruct (message_accepted msg).
  - run_in E. rewrite Hnum in E. run_in E.
    unfold capture_screenshot, effect in E. run_in E.
    erewrite csv_add_step_eq in E by (cbn; reflexivity).
    injection E as <- <-. eexists _, _.
    split; [|split; reflexivity]. reflexivity.
  - run_in E. erewrite csv_add_step_eq in E by (cbn; reflexivity). run_in E.
    injection E as <- <-. eexists _, _.
    split; [|split; reflexivity]. reflexivity.
Qed.

(** Stage 6 with a billing address that has no city: the form is filled
    and submitted, then building the details of the SUCCESS step raises
    KeyError, so the stage is recorded FAILED with the key as its error
    message. *)
Theorem billing_stage_needs_city :
  forall (billing : gmap string string) (w w2 w3 : W)
         (fs : gmap string string) (ws : list string)
         (r : CSVReporter F) (t : StepTimer) (n0 : Z),
    let st := mkTestState w fs ws (Some r) t n0 in
    billing !! "city" = None ->
    CheckoutPage.fill_billing_address billing (snd (now w)) = (Ok tt, w2) ->
    CheckoutPage.click_billing_continue w2 = (Ok tt, w3) ->
    exists (d : F) (st' : TestState W F),
      step6 billing st = (Raise (mkExn KeyError "'city'"), st') /\
      csv_reporter st' =
        Some (add_step r 6 "Fill Billing Address" "FAILED" d
                "Failed to fill billing address" "'city'") /\
      files st' = fs.
Proof.
  intros billing w w2 w3 fs ws r t n0 st Hcity Hfill Hclick. subst st.
  destruct (step6 billing (mkTestState w fs ws (Some r) t n0))
    as [res st'] eqn:E.
  unfold step6, try_except in E. run_in E. rewrite Hfill in E. run_in E.
  rewrite Hclick in E. run_in E.
  unfold getitem at 1 in E. rewrite Hcity in E. run_in E.
  erewrite csv_add_step_eq in E by (cbn; reflexivity). run_in E.
  injection E as <- <-. eexists _, _. repeat split.
Qed.

(** Stage 1 when the user is not logged in after registration: no logout
    is attempted, a warning is logged, and the stage is recorded SUCCESS. *)
Theorem logout_stage_without_login :
  forall (w w2 : W) (fs : gmap string string) (ws : list string)
         (r : CSVReporter F) (t : StepTimer) (n0 : Z),
    let st := mkTestState w fs ws (Some r) t n0 in
    LoginPage.is_logged_in (snd (now w)) = (Ok false, w2) ->
    exists (d : F) (st' : TestState W F),
      step1 st = (Ok tt, st') /\
      csv_reporter st' =
        Some (add_step r 1 "Logout After Registration" "SUCCESS" d
                "User logged out successfully after registration" "") /\
      warnings st' = (ws ++ ["User was not logged in after registration"])%list /\
      world st' = snd (now w2).
Proof.
  intros w w2 fs ws r t n0 st Hlog. subst st.
  destruct (step1 (mkTestState w fs ws (Some r) t n0)) as [res st'] eqn:E.
  unfold step1, try_except in E. run_in E. rewrite Hlog in E. run_in E.
  erewrite csv_add_step_eq in E by (cbn; reflexivity).
  injection E as <- <-. eexists _, _. repeat split.
Qed.

End OtherStages.

(** ** The billing form *)

Section Billing.
Context {W : Type} `{World W}.

Lemma optional_getitem (d : gmap string string) (key : string) (loc : locator) :
  (if dict_truthy d key
   then let* v := getitem d key in send_keys loc v
   else ret tt) =
  match optional_field d key loc with
  | [] => ret tt
  | (l, v) :: _ => send_keys l v
  end.
Proof.
  unfold dict_truthy, optional_field, getitem.
  destruct (d !! key) as [v|]; [|reflexivity].
  destruct (String.eqb v ""); reflexivity.
Qed.

Lemma optional_field_cases (d : gmap string string) (key : string) (loc : locator) :
  optional_field d key loc = [] \/
  exists v, optional_field d key loc = [(loc, v)].
Proof.
  unfold optional_field. destruct (d !! key) as [v|]; [|now left].
  destruct (String.eqb v ""); [now left | right; now exists v].
Qed.

Lemma facade_only_ret {A} (a : A) : facade_only (ret a).
Proof. intros w w' e Hc. discriminate. Qed.

Lemma facade_only_bind {A B} (c : M W A) (k : A -> M W B) :
  facade_only c -> (forall a, facade_only (k a)) -> facade_only (bind c k).
Proof.
  intros Hc Hk w w' e. rewrite bind_eq.
  destruct (c w) as [[a|e1] w1] eqn:E.
  - apply Hk.
  - intros Heq. injection Heq as <- _. eapply Hc, E.
Qed.

Lemma facade_only_send_keys (loc : locator) (text : string) :
  facade_only (send_keys loc text).
Proof. intros w w' e Hc. exists loc, text, w, w'. now left. Qed.

Lemma facade_only_select (loc : locator) (text : string) :
  facade_only (select_dropdown_by_text loc text).
Proof. intros w w' e Hc. exists loc, text, w, w'. now right. Qed.

Lemma facade_only_optional (d : gmap string string) (key : string) (loc : locator) :
  facade_only (if dict_truthy d key
               then let* v := getitem d key in send_keys loc v
               else ret tt).
Proof.
  rewrite optional_getitem.
  destruct (optional_field_cases d key loc) as [-> | [v ->]];
    [apply facade_only_ret | apply facade_only_send_keys].
Qed.

Lemma facade_only_reraise {A} (c : M W A) (shot : string) :
  facade_only c ->
  facade_only (try_except c (fun e => capture_screenshot shot >> raise e)).
Proof.
  intros Hc w w' e. unfold try_except.
  destruct (c w) as [[a|e1] w1] eqn:E; [discriminate|].
  unfold capture_screenshot, effect, raise, bind. intros Heq.
  injection Heq as <- _. eapply Hc, E.
Qed.

(** [fill_billing_address] raises only what a call of the facade raised:
    no lookup in the dict can fail. *)
Lemma fill_billing_address_facade_only (d : gmap string string) :
  facade_only (CheckoutPage.fill_billing_address d).
Proof.
  unfold CheckoutPage.fill_billing_address. apply facade_only_reraise.
  repeat first
    [ apply facade_only_send_keys
    | apply facade_only_bind; [|intros _]
    | apply facade_only_select
    | apply facade_only_optional ].
Qed.

End Billing.

Section ScriptedForm.
#[local] Existing Instance happy_world.

Lemma scripted_send_keys (loc : locator) (text : string) (w : Scripted) :
  send_keys loc text w =
    (Ok tt, mkScripted (ticks w) (typed w ++ [(loc, text)]) (shots w)).
Proof. reflexivity. Qed.

Lemma scripted_select (loc : locator) (text : string) (w : Scripted) :
  select_dropdown_by_text loc text w =
    (Ok tt, mkScripted (ticks w) (typed w ++ [(loc, text)]) (shots w)).
Proof. reflexivity. Qed.

Lemma scripted_optional (d : gmap string string) (key : string) (loc : locator)
    (w : Scripted) :
  (if dict_truthy d key
   then let* v := getitem d key in send_keys loc v
   else ret tt) w =
  (Ok tt, mkScripted (ticks w) (typed w ++ optional_field d key loc) (shots w)).
Proof.
  rewrite optional_getitem.
  destruct (optional_field_cases d key loc) as [-> | [v ->]].
  - rewrite app_nil_r. now destruct w.
  - apply scripted_send_keys.
Qed.

(** In the scripted world with every element present, the form receives
    exactly [billing_fields d], whatever keys the dict has. *)
Lemma fill_billing_address_types (d : gmap string string) (w : Scripted) :
  CheckoutPage.fill_billing_address d w =
    (Ok tt, mkScripted (ticks w) (typed w ++ billing_fields d) (shots w)).
Proof.
  unfold CheckoutPage.fill_billing_address, try_except, billing_fields, dict_get.
  repeat (rewrite bind_eq;
          first [rewrite scripted_send_keys | rewrite scripted_select
                | rewrite scripted_optional];
          cbv beta iota; cbn [ticks typed shots]).
  rewrite scripted_send_keys. cbn [ticks typed shots].
  repeat rewrite <- app_assoc. reflexivity.
Qed.

End ScriptedForm.

(** ** Examples in the scripted world *)

Lemma cart_validation_by_count_witness :
  exists (count : Z) (w3 : Scripted),
    CartPage.get_cart_items_count (H:=happy_world)
      (mkScripted 1 [] []) = (Ok count, w3) /\ 0 <= count.
Proof.
  destruct (cart_validation_by_count (H:=happy_world) (F:=Z)
              scripted_start ∅ [] empty_reporter StepTimer_init 0
              (mkScripted 1 [] []) eq_refl)
    as (count & w3 & Hcount & Hpos & _).
  exists count, w3. split; assumption.
Defined.

Lemma billing_stage_needs_city_witness :
  exists (d : Z) (st' : TestState Scripted Z),
    step6 (H:=happy_world) billing_without_city
      (mkTestState scripted_start ∅ [] (Some empty_reporter) StepTimer_init 0)
    = (Raise (mkExn KeyError "'city'"), st').
Proof.
  destruct (billing_stage_needs_city (H:=happy_world) (F:=Z)
              billing_without_city scripted_start _ _ ∅ []
              empty_reporter StepTimer_init 0 eq_refl eq_refl eq_refl)
    as (d & st' & Hrun & _).
  exists d, st'. exact Hrun.
Defined.

Lemma logout_stage_without_login_witness :
  exists (d : Z) (st' : TestState Scripted Z),
    step1 (H:=scripted_world (site_without LoginPage.LOGOUT_LINK))
      (mkTestState scripted_start ∅ [] (Some empty_reporter) StepTimer_init 0)
    = (Ok tt, st')
    /\ warnings st' = ["User was not logged in after registration"].
Proof.
  destruct (logout_stage_without_login
              (H:=scripted_world (site_without LoginPage.LOGOUT_LINK)) (F:=Z)
              scripted_start _ ∅ [] empty_reporter StepTimer_init 0 eq_refl)
    as (d & st' & Hrun & _ & Hw & _).
  exists d, st'. split; assumption.
Defined.

(** ** Reports of whole runs *)

Lemma get_cart_total_placeholder_witness :
  exists w' : Scripted,
    CartPage.get_cart_total (H:=scripted_world site_without_total)
      scripted_start = (Ok "Total not displayed", w').
Proof.
  apply (get_cart_total_placeholder (H:=scripted_world site_without_total)).
  - intros loc w0 Hin. exists timeout_exn, w0.
    assert (Hm : missing site_without_total loc = true).
    { apply existsb_exists. exists loc. split; [exact Hin|].
      unfold locator_eqb. now apply bool_decide_eq_true. }
    change (wait_until 2 presence_of_element_located loc w0)
      with (if missing site_without_total loc
            then (Raise timeout_exn, w0) else (Ok loc, w0)).
    now rewrite Hm.
  - intros w0. now exists w0.
Defined.

Section ReporterEdge.
Context {F : Type} `{PyFloat F}.

(** A summary row never has status SUCCESS, so [add_summary] on a report
    that already ends with a summary counts that row as failed: the
    second summary is FAILED, whatever the steps. *)
Theorem second_summary_is_failed :
  forall r : CSVReporter F,
    Status (summary_row (steps (add_summary r))) = "FAILED"
    /\ length (steps (add_summary (add_summary r)))
       = S (S (length (steps r))).
Proof.
  intros r. split.
  - unfold summary_row at 1. cbn [Status].
    destruct (Z.eqb_spec (Z.of_nat (length (steps (add_summary r)))
                          - passed_count (steps (add_summary r))) 0)
      as [Hz | Hz]; [|reflexivity].
    assert (Hall : Forall (fun s => Status s = "SUCCESS") (steps (add_summary r)))
      by (apply passed_count_all; lia).
    simpl in Hall. apply Forall_app in Hall as [_ Hall].
    inversion Hall as [|x l Hx _]; subst. exfalso. revert Hx.
    unfold summary_row. cbn [Status].
    destruct (Z.eqb _ 0); discriminate.
  - simpl. rewrite !length_app. simpl. lia.
Qed.

End ReporterEdge.

Section RunReports.
Context {W : Type} `{World W} {F : Type} `{PyFloat F}.

Lemma summary_of_nine (l : list (Step F)) :
  steps_ok 9 l ->
  Status (summary_row l) = "PASSED" /\
  Details (summary_row l) = "Total: 9, Passed: 9, Failed: 0".
Proof.
  intros (_ & Hlen & Hall). apply passed_count_all in Hall.
  unfold summary_row. cbn [Status Details]. rewrite Hall, Hlen.
  split; reflexivity.
Qed.

(** A run of the test function that returns has written one file, at the
    path of its reporter; read back, the file holds the header, the nine
    steps and the summary, and the summary is PASSED with nine of nine
    steps passed: the test function never writes a report whose summary
    is FAILED. *)
Theorem returning_run_report :
  forall (data : TestData) (w : W) (fs : gmap string string),
    let run := test_end_to_end_checkout_flow data (initial_state (F:=F) w fs) in
    fst run = Ok tt ->
    exists (r : CSVReporter F) (text : string) (l : list (Step F)),
      csv_reporter (snd run) = Some r /\
      files (snd run) = <[csv_file r := text]> fs /\
      length l = 9%nat /\
      csv_read text =
        Some (headers :: map step_cells l ++ [step_cells (summary_row l)])%list /\
      Status (summary_row l) = "PASSED" /\
      Details (summary_row l) = "Total: 9, Passed: 9, Failed: 0".
Proof.
  intros data w fs run Hok.
  pose proof (test_end_to_end_outcome data w fs) as Hout. fold run in Hout.
  destruct Hout as [(e & He & _) | [(e & He & _) | Hout]]; [congruence..|].
  destruct Hout as (l & r & Hl & Hr & Hsteps & [[_ Hfiles] | (e & He & _)]);
    [|congruence].
  exists r, (report_text (steps r)), l.
  split; [exact Hr|]. split; [exact Hfiles|].
  split; [apply Hl|]. split.
  - unfold report_text.
    change (csv_row headers ++ csv_rows (map step_cells (steps r)))
      with (csv_rows (headers :: map step_cells (steps r))).
    rewrite csv_read_csv_rows, Hsteps, map_app. reflexivity.
  - now apply summary_of_nine.
Qed.

(** A product whose search raises is skipped: the exception is logged as
    a warning with its text, nothing is counted or recorded, and the
    iteration returns. *)
Theorem failed_search_is_skipped :
  forall (product : string) (st : TestState W F) (e : exn) (w1 : W),
    HomePage.search_product product (world st) = (Raise e, w1) ->
    add_product product st =
      (Ok tt,
       mkTestState w1 (files st)
         (warnings st ++ ["  ⚠ Failed to add " ++ product ++ ": " ++ exn_str e])
         (csv_reporter st) (timer st) (added_count st)).
Proof.
  intros product st e w1 Hsearch.
  destruct (add_product product st) as [res st'] eqn:E.
  unfold add_product, add_product_try, try_except in E. run_in E.
  rewrite Hsearch in E. run_in E. exact (eq_sym E).
Qed.

End RunReports.

Lemma returning_run_report_witness :
  exists (r : CSVReporter Z) (text : string),
    files (snd (test_end_to_end_checkout_flow (H:=happy_world) sample_data
                  (initial_state scripted_start ∅)))
    = <[csv_file r := text]> ∅.
Proof.
  assert (Hrun : fst (test_end_to_end_checkout_flow (H:=happy_world)
                        sample_data (initial_state (F:=Z) scripted_start ∅))
                 = Ok tt) by (vm_compute; reflexivity).
  destruct (returning_run_report (H:=happy_world) (F:=Z) sample_data
              scripted_start ∅ Hrun)
    as (r & text & l & _ & Hfiles & _).
  exists r, text. exact Hfiles.
Defined.

Lemma failed_search_is_skipped_witness :
  exists st' : TestState Scripted Z,
    add_product (H:=scripted_world (site_without HomePage.SEARCH_BOX)) "laptop"
      (mkTestState scripted_start ∅ [] (Some empty_reporter) StepTimer_init 0)
    = (Ok tt, st')
    /\ added_count st' = 0.
Proof.
  assert (Hs : HomePage.search_product
                 (H:=scripted_world (site_without HomePage.SEARCH_BOX))
                 "laptop" scripted_start
               = (Raise timeout_exn,
                  mkScripted 0 []
                    ["sendkeys_failed_small-searchterms";
                     "product_search_failed"]))
    by (vm_compute; reflexivity).
  eexists. split.
  - exact (failed_search_is_skipped
             (H:=scripted_world (site_without HomePage.SEARCH_BOX)) (F:=Z)
             "laptop"
             (mkTestState scripted_start ∅ [] (Some empty_reporter)
                StepTimer_init 0) timeout_exn _ Hs).
  - reflexivity.
Defined.

Lemma raising_run_report_files_witness :
  let run :=
    test_end_to_end_checkout_flow
      (H:=scripted_world (site_without CheckoutPage.CONFIRM_BUTTON))
      sample_data (initial_state (F:=Z) scripted_start ∅) in
  (files (snd run) = ∅ /\
   (recorded (snd run) = [] \/
    exists s, last (recorded (snd run)) = Some s /\
              Status s = "FAILED" /\ Error_Message s = "Message: "))
  \/ (exists l r,
        steps_ok 9 l /\ csv_reporter (snd run) = Some r /\
        steps r = (l ++ [summary_row l])%list /\
        (files (snd run) = ∅ \/
         exists n,
           files (snd run) =
             <[csv_file r := take_str n (report_text (steps r))]> ∅)).
Proof.
  assert (Hrun : fst (test_end_to_end_checkout_flow
                (H:=scripted_world (site_without CheckoutPage.CONFIRM_BUTTON))
                sample_data (initial_state (F:=Z) scripted_start ∅))
                 = Raise timeout_exn) by (vm_compute; reflexivity).
  exact (raising_run_report_files
           (H:=scripted_world (site_without CheckoutPage.CONFIRM_BUTTON)) (F:=Z)
           sample_data scripted_start ∅ timeout_exn Hrun).
Defined.

(** ** Probes, cart edits and the checkout flow *)

Section Probes.
Context {W : Type} `{World W}.

(** A [try] whose handler turns a timeout into a value and raises
    anything else again. *)
Lemma probes_try {A B} (wait : M W A) (found : A -> B) (missed : B) :
  probes
    (try_except (let* a := wait in ret (found a))
       (fun e => if is_class TimeoutException e then ret missed else raise e))
    wait found missed.
Proof.
  intros w. unfold try_except. rewrite bind_eq.
  destruct (wait w) as [[a|e] w1]; cbv beta iota.
  - unfold ret. repeat split; intros; congruence.
  - unfold is_class.
    destruct (bool_decide_reflect (exn_cls e = TimeoutException)) as [He|He];
      cbv beta iota; unfold ret, raise; repeat split; intros; congruence.
Qed.

(** The three probes of [BasePage], by the outcome of their wait,
    whatever the driver does: [is_element_visible] and
    [is_element_present] return [True] when the wait returns, [False]
    when it raises a [TimeoutException], and raise again any other
    exception; [find_elements] returns the elements found, the empty list
    after a [TimeoutException], and raises again any other exception.
    None of them ever raises a [TimeoutException]. *)
Theorem probes_swallow_timeouts :
  forall (loc : locator) (timeout : option Z),
    probes (is_element_visible loc timeout)
      (wait_until (wait_time timeout) visibility_of_element_located loc)
      (fun _ => true) false
    /\ probes (is_element_present loc timeout)
         (wait_until (wait_time timeout) presence_of_element_located loc)
         (fun _ => true) false
    /\ probes (find_elements loc) (wait_until_all default_timeout loc)
         (fun elements => elements) [].
Proof.
  intros loc timeout. split; [|split].
  - apply (probes_try _ (fun _ => true) false).
  - apply (probes_try _ (fun _ => true) false).
  - intros w. destruct (probes_try (wait_until_all default_timeout loc)
                          (fun elements => elements) [] w)
      as (Hok & Hmiss & Hother & Hnever).
    assert (Heq : find_elements loc w =
              try_except (let* a := wait_until_all default_timeout loc in ret a)
                (fun e => if is_class TimeoutException e then ret [] else raise e)
                w).
    { unfold find_elements, try_except. rewrite bind_eq.
      now destruct (wait_until_all default_timeout loc w) as [[l|e] w1]. }
    rewrite Heq. auto.
Qed.

(** [timeout if timeout else self.timeout]: a timeout of 0 counts as no
    timeout, so a probe never waits zero seconds; it waits the default 20
    seconds exactly for no timeout, 0 and 20. *)
Theorem wait_time_never_zero :
  forall timeout : option Z,
    wait_time timeout <> 0
    /\ (wait_time timeout = default_timeout
        <-> timeout = None \/ timeout = Some 0 \/ timeout = Some 20).
Proof.
  intros [t|]; unfold wait_time, default_timeout.
  - destruct (Z.eqb_spec t 0) as [-> | Hne].
    + split; [discriminate|]. split; auto.
    + split; [assumption|]. split.
      * intros ->. auto.
      * intros [Hn | [Hz | Ht]]; congruence.
  - split; [discriminate|]. split; auto.
Qed.

End Probes.

Section CartEdits.
Context {W : Type} `{World W}.

Lemma list_getitem_front {S A} (l : list A) (i : Z) (s : S) :
  0 <= i < Z.of_nat (length l) ->
  exists x, nth_error l (Z.to_nat i) = Some x /\
            list_getitem l i s = (Ok x, s).
Proof.
  intros Hi. unfold list_getitem.
  destruct (Z.ltb_spec i 0); [lia|].
  destruct (Z.leb_spec 0 i); [|lia].
  destruct (nth_error l (Z.to_nat i)) as [x|] eqn:E.
  - now exists x.
  - apply nth_error_None in E. lia.
Qed.

Lemma list_getitem_back {S A} (l : list A) (i : Z) (s : S) :
  - Z.of_nat (length l) <= i < 0 ->
  list_getitem l i s = list_getitem l (i + Z.of_nat (length l)) s.
Proof.
  intros Hi. unfold list_getitem.
  destruct (Z.ltb_spec i 0); [|lia].
  destruct (Z.ltb_spec (i + Z.of_nat (length l)) 0); [lia|]. reflexivity.
Qed.

Lemma list_getitem_below {S A} (l : list A) (i : Z) (s : S) :
  i < - Z.of_nat (length l) ->
  list_getitem l i s = (Raise (mkExn IndexError "list index out of range"), s).
Proof.
  intros Hi. unfold list_getitem.
  destruct (Z.ltb_spec i 0); [|lia].
  destruct (Z.leb_spec 0 (i + Z.of_nat (length l))); [lia|]. reflexivity.
Qed.

(** [update_quantity] by the index it is given, [n] quantity fields being
    found.  From [n] on, the method raises its own [IndexError] and
    touches no field.  The guard [product_index < len(qty_elements)] lets
    every negative index through: [-n .. -1] edit the field counted from
    the end, as the index [i + n] does, and below [-n] the [IndexError] is
    the one of the list, with another message. *)
Theorem update_quantity_by_index :
  forall (i q : Z) (w w1 : W) (inputs : list element),
    find_elements CartPage.QUANTITIES w = (Ok inputs, w1) ->
    let n := Z.of_nat (length inputs) in
    (n <= i ->
       CartPage.update_quantity i q w = (Raise (CartPage.out_of_range i), w1))
    /\ (- n <= i < 0 ->
       CartPage.update_quantity i q w = CartPage.update_quantity (i + n) q w)
    /\ (i < - n ->
       CartPage.update_quantity i q w =
         (Raise (mkExn IndexError "list index out of range"), w1)).
Proof.
  intros i q w w1 inputs Hfind n. subst n.
  unfold CartPage.update_quantity, try_except.
  rewrite !bind_eq, Hfind. cbv beta iota.
  split; [|split]; intros Hi.
  - destruct (Z.ltb_spec i (Z.of_nat (length inputs))); [lia|]. reflexivity.
  - destruct (Z.ltb_spec i (Z.of_nat (length inputs))); [|lia].
    destruct (Z.ltb_spec (i + Z.of_nat (length inputs)) (Z.of_nat (length inputs)));
      [|lia].
    rewrite !bind_eq. now rewrite list_getitem_back.
  - destruct (Z.ltb_spec i (Z.of_nat (length inputs))); [|lia].
    rewrite bind_eq, list_getitem_below by lia. reflexivity.
Qed.

(** [remove_product] with an index that addresses no checkbox raises an
    [IndexError], clicks nothing and leaves a screenshot; the message is
    the method's own from [n] on and the list's below [-n]. *)
Theorem remove_product_out_of_range :
  forall (i : Z) (w w1 : W) (boxes : list element),
    find_elements CartPage.REMOVE_CHECKBOXES w = (Ok boxes, w1) ->
    let n := Z.of_nat (length boxes) in
    (n <= i ->
       CartPage.remove_product i w =
         (Raise (CartPage.out_of_range i), screenshot "remove_product_failed" w1))
    /\ (i < - n ->
       CartPage.remove_product i w =
         (Raise (mkExn IndexError "list index out of range"),
          screenshot "remove_product_failed" w1)).
Proof.
  intros i w w1 boxes Hfind n. subst n.
  unfold CartPage.remove_product, try_except.
  rewrite !bind_eq, Hfind. cbv beta iota.
  split; intros Hi.
  - destruct (Z.ltb_spec i (Z.of_nat (length boxes))); [lia|]. reflexivity.
  - destruct (Z.ltb_spec i (Z.of_nat (length boxes))); [|lia].
    rewrite bind_eq, list_getitem_below by lia. reflexivity.
Qed.

(** [validate_cart_contents] never raises: it returns whether the item
    count equals the expected one, so [False] for every negative
    expectation. *)
Theorem validate_cart_contents_decides :
  forall (k : Z) (w : W),
    exists (n : Z) (w' : W),
      CartPage.get_cart_items_count w = (Ok n, w')
      /\ CartPage.validate_cart_contents k w = (Ok (Z.eqb n k), w')
      /\ (k < 0 -> Z.eqb n k = false).
Proof.
  intros k w.
  destruct (get_cart_items_count_returns w) as (n & w' & Hcount & Hpos).
  exists n, w'. split; [exact Hcount|]. split.
  - unfold CartPage.validate_cart_contents, try_except.
    rewrite bind_eq, Hcount. cbv beta iota.
    now destruct (Z.eqb n k).
  - intros Hk. apply Z.eqb_neq. lia.
Qed.

(** The queries of the cart page never raise: each has a value to fall
    back on, and the total is never the empty string. *)
Theorem cart_queries_never_raise :
  forall w : W,
    (exists n w', CartPage.get_cart_items_count w = (Ok n, w') /\ 0 <= n)
    /\ (exists l w', CartPage.get_product_names w = (Ok l, w'))
    /\ (exists l w', CartPage.get_product_prices w = (Ok l, w'))
    /\ (exists total w', CartPage.get_cart_total w = (Ok total, w') /\ total <> "")
    /\ (exists b w', CartPage.is_cart_empty w = (Ok b, w')).
Proof.
  intros w. split; [apply get_cart_items_count_returns|].
  split; [apply get_product_names_returns|].
  split.
  { destruct (try_default_returns
                (let* price_elements := find_elements CartPage.UNIT_PRICES in
                 texts_of strip price_elements) [] w) as (l & w' & Hrun & _).
    now exists l, w'. }
  split; [apply get_cart_total_returns|].
  destruct (try_default_returns
              (is_element_visible CartPage.EMPTY_CART_MESSAGE (Some 5)) false w)
    as (b & w' & Hrun & _).
  now exists b, w'.
Qed.

End CartEdits.

Section CheckoutFlow.
Context {W : Type} `{World W}.

(** Every outcome of [complete_checkout_flow] ends with a screenshot
    named after it: the last thing done is the capture of
    [order_completed_successfully] when it returns [True], of
    [order_completion_failed] when it returns [False], and of
    [checkout_flow_exception] when it raises. *)
Theorem complete_checkout_flow_leaves_screenshot :
  forall (billing : gmap string string) (shipping payment : string) (w : W),
    exists w0 : W,
      snd (CheckoutPage.complete_checkout_flow billing shipping payment w)
      = screenshot
          match fst (CheckoutPage.complete_checkout_flow billing shipping payment w) with
          | Ok true => "order_completed_successfully"
          | Ok false => "order_completion_failed"
          | Raise _ => "checkout_flow_exception"
          end w0.
Proof.
  intros billing shipping payment w.
  unfold CheckoutPage.complete_checkout_flow.
  match goal with
  | |- context [try_except ?b ?h] => set (body := b)
  end.
  assert (Hbody : forall b w', body w = (Ok b, w') ->
            exists w0, w' = screenshot (if b then "order_completed_successfully"
                                        else "order_completion_failed") w0).
  { intros b w' Hrun. subst body. revert Hrun.
    repeat (rewrite bind_eq;
            match goal with
            | |- context [match ?c w with _ => _ end] =>
                destruct (c w) as [[[]|e] ?w]
            | |- context [match ?c ?x with _ => _ end] =>
                destruct (c x) as [[[]|e] ?w]
            end; [|discriminate]).
    rewrite bind_eq.
    match goal with
    | |- context [CheckoutPage.is_order_completed ?x] =>
        destruct (CheckoutPage.is_order_completed x) as [[[]|e] wc]
    end; [| |discriminate].
    - rewrite bind_eq.
      match goal with
      | |- context [CheckoutPage.get_order_success_message ?x] =>
          destruct (CheckoutPage.get_order_success_message x) as [[m|e] wm]
      end; [|discriminate].
      rewrite bind_eq.
      destruct (CheckoutPage.get_order_number wm) as [[n|e] wn]; [|discriminate].
      rewrite bind_eq. unfold capture_screenshot, effect, ret.
      intros [= <- <-]. now exists wn.
    - rewrite bind_eq. unfold capture_screenshot, effect, ret.
      intros [= <- <-]. now exists wc. }
  unfold try_except. destruct (body w) as [[b|e] w1] eqn:E.
  - destruct (Hbody b w1 eq_refl) as (w0 & ->). exists w0. simpl.
    now destruct b.
  - exists w1. rewrite bind_eq. reflexivity.
Qed.

End CheckoutFlow.

Lemma update_quantity_by_index_witness :
  CartPage.update_quantity (H:=happy_world) 3 2 scripted_start
  = (Raise (CartPage.out_of_range 3), scripted_start)
  /\ CartPage.update_quantity (H:=happy_world) (-1) 2 scripted_start
     = CartPage.update_quantity (H:=happy_world) 0 2 scripted_start
  /\ CartPage.update_quantity (H:=happy_world) (-2) 2 scripted_start
     = (Raise (mkExn IndexError "list index out of range"), scripted_start).
Proof.
  assert (Hfind : find_elements (H:=happy_world) CartPage.QUANTITIES scripted_start
                  = (Ok [CartPage.QUANTITIES], scripted_start)) by reflexivity.
  destruct (update_quantity_by_index (H:=happy_world) 3 2 _ _ _ Hfind)
    as (Hhigh & _ & _).
  destruct (update_quantity_by_index (H:=happy_world) (-1) 2 _ _ _ Hfind)
    as (_ & Hback & _).
  destruct (update_quantity_by_index (H:=happy_world) (-2) 2 _ _ _ Hfind)
    as (_ & _ & Hlow).
  split; [apply Hhigh; simpl; lia|].
  split; [apply Hback; simpl; lia | apply Hlow; simpl; lia].
Defined.

Lemma remove_product_out_of_range_witness :
  CartPage.remove_product (H:=happy_world) 1 scripted_start
  = (Raise (CartPage.out_of_range 1),
     mkScripted 0 [] ["remove_product_failed"]).
Proof.
  assert (Hfind : find_elements (H:=happy_world) CartPage.REMOVE_CHECKBOXES
                    scripted_start
                  = (Ok [CartPage.REMOVE_CHECKBOXES], scripted_start))
    by reflexivity.
  destruct (remove_product_out_of_range (H:=happy_world) 1 _ _ _ Hfind)
    as (Hhigh & _).
  apply Hhigh. simpl. lia.
Defined.

(** ** Lookups in the test data *)

Section DataFacts.
Context {F : Type}.
Implicit Types (v data : json F) (a b key : string).

Lemma split_on_nonempty (sep : ascii) (s : string) : split_on sep s <> [].
Proof.
  destruct s as [|c r]; simpl; [discriminate|].
  destruct (Ascii.eqb c sep); [discriminate|].
  destruct (split_on sep r); discriminate.
Qed.

(** [(a + sep + b).split(sep) == a.split(sep) + b.split(sep)] *)
Lemma split_on_app (sep : ascii) (a b : string) :
  split_on sep (a ++ String sep b) = (split_on sep a ++ split_on sep b)%list.
Proof.
  induction a as [|c r IH].
  - rewrite string_app_nil_l. simpl. now rewrite Ascii.eqb_refl.
  - rewrite string_app_cons. simpl. rewrite IH.
    destruct (Ascii.eqb c sep); [reflexivity|].
    pose proof (split_on_nonempty sep r) as Hne.
    destruct (split_on sep r) as [|word words]; [congruence|]. reflexivity.
Qed.

Lemma descend_app (p q : list string) : forall v,
  TestDataReader.descend (p ++ q) v =
    match TestDataReader.descend p v with
    | Found u => TestDataReader.descend q u
    | RaiseKeyError arg => RaiseKeyError arg
    | RaiseTypeError => RaiseTypeError
    end.
Proof.
  induction p as [|k p IH]; intros v; simpl; [reflexivity|].
  destruct (TestDataReader.subscript v k); [apply IH | reflexivity..].
Qed.

(** A dotted key is looked up part by part: [get_data(a + '.' + b)]
    gives a value exactly when [get_data(a)] gives one and looking up [b]
    in it gives that value. *)
Theorem get_data_dotted :
  forall data a b (x : json F),
    TestDataReader.get_data data (Some (a ++ "." ++ b)) = Found x
    <-> exists v, TestDataReader.get_data data (Some a) = Found v
                  /\ TestDataReader.get_data v (Some b) = Found x.
Proof.
  intros data a b x. unfold TestDataReader.get_data.
  change (a ++ "." ++ b) with (a ++ String "." b).
  rewrite split_on_app, descend_app.
  destruct (TestDataReader.descend (split_on "." a) data) as [v| |].
  - split.
    + intros Hx. exists v. split; [reflexivity|].
      destruct (TestDataReader.descend (split_on "." b) v);
        [assumption | discriminate..].
    + intros (u & [= <-] & Hu).
      destruct (TestDataReader.descend (split_on "." b) v);
        [assumption | discriminate..].
  - split; [discriminate|]. now intros (u & Hu & _).
  - split; [discriminate|]. now intros (u & Hu & _).
Qed.

(** The errors of [get_data]: a [KeyError] always names the whole key
    asked for, never the part that was missing; and a part that meets a
    value which is not a dict ends in a [TypeError], which the method does
    not turn into a [KeyError]. *)
Theorem get_data_errors :
  forall data key,
    (forall arg, TestDataReader.get_data data (Some key) = RaiseKeyError arg ->
       arg = "Key '" ++ key ++ "' not found in test data")
    /\ (forall a b v,
          key = a ++ "." ++ b ->
          TestDataReader.get_data data (Some a) = Found v ->
          (forall d, v <> JDict d) ->
          TestDataReader.get_data data (Some key) = RaiseTypeError).
Proof.
  intros data key. split.
  - intros arg. unfold TestDataReader.get_data.
    destruct (TestDataReader.descend (split_on "." key) data);
      [discriminate | now intros [= <-] | discriminate].
  - intros a b v -> Ha Hv. revert Ha. unfold TestDataReader.get_data.
    change (a ++ "." ++ b) with (a ++ String "." b).
    rewrite split_on_app, descend_app.
    destruct (TestDataReader.descend (split_on "." a) data) as [u| |];
      [|discriminate..].
    intros [= ->].
    pose proof (split_on_nonempty "." b) as Hne.
    destruct (split_on "." b) as [|k ks]; [congruence|]. simpl.
    destruct v; try reflexivity. now destruct (Hv d).
Qed.

End DataFacts.

(** Examples on nested data: a dotted key, a missing part, and a part
    looked up in a string. *)
Lemma get_data_examples :
  TestDataReader.get_data nested_data (Some "test_config.base_url")
  = Found (JStr "https://shop.example")
  /\ TestDataReader.get_data nested_data (Some "test_config.port")
     = RaiseKeyError "Key 'test_config.port' not found in test data"
  /\ TestDataReader.get_data nested_data (Some "test_config.base_url.host")
     = RaiseTypeError.
Proof. vm_compute. repeat split. Qed.

(** ** Screenshot files *)

Section FileNames.

Lemma all_chars_app (p : ascii -> bool) (a b : string) :
  all_chars p (a ++ b) = all_chars p a && all_chars p b.
Proof.
  induction a as [|c a IH]; [reflexivity|].
  rewrite string_app_cons. simpl. now rewrite IH, andb_assoc.
Qed.

Lemma all_chars_sanitize (name : string) :
  all_chars in_file_name (sanitize name) = true.
Proof.
  induction name as [|c r IH]; [reflexivity|]. simpl. rewrite IH, andb_true_r.
  unfold in_file_name. destruct (kept_in_name c) eqn:E; [now rewrite E|].
  reflexivity.
Qed.

Lemma digit_char_in_file_name (n : Z) : in_file_name (digit_char (n mod 10)) = true.
Proof.
  assert (Hn : 0 <= n mod 10 < 10) by (apply Z.mod_pos_bound; lia).
  assert (Hcase : n mod 10 = 0 \/ n mod 10 = 1 \/ n mod 10 = 2 \/ n mod 10 = 3
                  \/ n mod 10 = 4 \/ n mod 10 = 5 \/ n mod 10 = 6
                  \/ n mod 10 = 7 \/ n mod 10 = 8 \/ n mod 10 = 9) by lia.
  destruct Hcase as [-> | [-> | [-> | [-> | [-> | [-> | [-> | [-> | [-> | ->]]]]]]]]];
    reflexivity.
Qed.

Lemma all_chars_zpad (w : nat) : forall n,
  all_chars in_file_name (zpad w n) = true.
Proof.
  induction w as [|w IH]; intros n; [reflexivity|]. simpl.
  rewrite all_chars_app, IH. cbn [all_chars andb].
  rewrite digit_char_in_file_name. reflexivity.
Qed.

Lemma all_chars_stamp (t : datetime) :
  all_chars in_file_name (strftime_Ymd_HMS_f t) = true.
Proof.
  unfold strftime_Ymd_HMS_f, strftime_Ymd_HMS.
  rewrite !all_chars_app, !all_chars_zpad. reflexivity.
Qed.

Lemma all_chars_filename (name : option string) (t : datetime) :
  all_chars in_file_name (ScreenshotHandler.filename name t) = true.
Proof.
  unfold ScreenshotHandler.filename.
  destruct name as [n|]; [destruct (negb (String.eqb n ""))|];
    rewrite !all_chars_app, ?all_chars_sanitize, all_chars_stamp; reflexivity.
Qed.

Lemma in_file_name_not_slash (c : ascii) : in_file_name c = true -> "/"%char <> c.
Proof. intros Hc <-. discriminate Hc. Qed.

Lemma prefix_slash (c : ascii) (r : string) :
  "/"%char <> c -> String.prefix "/" (String c r) = false.
Proof.
  intros Hne. cbn [String.prefix].
  destruct (ascii_dec "/" c); [contradiction | reflexivity].
Qed.

Lemma all_chars_no_slash (s : string) :
  all_chars in_file_name s = true -> contains "/" s = false.
Proof.
  induction s as [|c r IH]; [reflexivity|]. cbn [all_chars].
  intros Hall. apply andb_true_iff in Hall as [Hc Hr].
  change (contains "/" (String c r))
    with (String.prefix "/" (String c r) || contains "/" r).
  now rewrite (IH Hr), prefix_slash by now apply in_file_name_not_slash.
Qed.

(** The file of a screenshot lies in the screenshot directory, whatever
    the name asked for: the file name has no [/] in it, so the path is
    the directory, a separator where one is needed, and the file name. *)
Theorem screenshot_stays_in_directory :
  forall (dir : string) (name : option string) (t : datetime),
    let f := ScreenshotHandler.filename name t in
    contains "/" f = false
    /\ (path_join dir f = dir ++ "/" ++ f \/ path_join dir f = dir ++ f).
Proof.
  intros dir name t f.
  assert (Hall : all_chars in_file_name f = true) by apply all_chars_filename.
  split; [now apply all_chars_no_slash|].
  unfold path_join.
  assert (Hstart : starts_with "/" f = false).
  { destruct f as [|c r]; [reflexivity|]. cbn [all_chars] in Hall.
    apply andb_true_iff in Hall as [Hc _]. unfold starts_with.
    now apply prefix_slash, in_file_name_not_slash. }
  rewrite Hstart. destruct (String.eqb dir "" || ends_with_sep dir); auto.
Qed.

Lemma string_app_inv_head (p a b : string) : p ++ a = p ++ b -> a = b.
Proof.
  induction p as [|c p IH]; [trivial|].
  rewrite !string_app_cons. intros Heq. apply IH. congruence.
Qed.

Lemma strftime_f_inj (t1 t2 : datetime) :
  valid_datetime t1 -> valid_datetime t2 ->
  strftime_Ymd_HMS_f t1 = strftime_Ymd_HMS_f t2 -> t1 = t2.
Proof.
  intros V1 V2 Heq. unfold strftime_Ymd_HMS_f in Heq.
  apply string_app_inj_tail in Heq;
    [|now rewrite !string_length_app, !zpad_length].
  destruct Heq as [Hsec Hus]. apply string_cons_inj in Hus.
  apply (strftime_inj _ _ V1 V2) in Hsec. unfold to_the_second in Hsec.
  apply zpad_inj in Hus; [|unfold valid_datetime in *; simpl; lia..].
  destruct t1, t2. simpl in *. congruence.
Qed.

(** The time stamp of a screenshot goes down to the microsecond: two
    screenshots of the same name taken at different clock values get
    different file names, also within one second. *)
Theorem screenshot_names_differ_by_time :
  forall (name : option string) (t1 t2 : datetime),
    valid_datetime t1 -> valid_datetime t2 -> t1 <> t2 ->
    ScreenshotHandler.filename name t1 <> ScreenshotHandler.filename name t2.
Proof.
  intros name t1 t2 V1 V2 Hne Heq. apply Hne. clear Hne.
  unfold ScreenshotHandler.filename in Heq.
  assert (Hcore : forall p,
            p ++ strftime_Ymd_HMS_f t1 ++ ".png"
            = p ++ strftime_Ymd_HMS_f t2 ++ ".png" -> t1 = t2).
  { intros p Hp. apply string_app_inv_head in Hp.
    apply string_app_inj_tail in Hp; [|reflexivity].
    now apply strftime_f_inj. }
  destruct name as [n|]; [destruct (negb (String.eqb n ""))|].
  - apply (Hcore (sanitize n ++ "_")). now rewrite !string_app_assoc.
  - now apply (Hcore "screenshot_").
  - now apply (Hcore "screenshot_").
Qed.

End FileNames.

Section Capture.
Context {W : Type} `{World W}.
Variable save_screenshot : string -> M W bool.
Variable screenshot_dir : string.

(** [capture_screenshot] never raises.  It returns the path whenever
    [save_screenshot] returns, also when that returns [False] because
    nothing was written; it returns [None] when [save_screenshot]
    raises. *)
Theorem capture_screenshot_never_raises :
  forall (name : option string) (w : W),
    let path :=
      path_join screenshot_dir (ScreenshotHandler.filename name (fst (now w))) in
    exists (r : option string) (w' : W),
      ScreenshotHandler.capture_screenshot save_screenshot screenshot_dir name w
      = (Ok r, w')
      /\ (forall saved w2,
            save_screenshot path (snd (now w)) = (Ok saved, w2) -> r = Some path)
      /\ (forall e w2,
            save_screenshot path (snd (now w)) = (Raise e, w2) -> r = None).
Proof.
  intros name w path. subst path.
  unfold ScreenshotHandler.capture_screenshot, try_except.
  destruct (now w) as [t w1]. cbn [fst snd]. rewrite bind_eq.
  destruct (save_screenshot _ w1) as [[saved|e] w2].
  - eexists _, _. split; [reflexivity|]. split; [reflexivity | discriminate].
  - eexists _, _. split; [reflexivity|]. split; [discriminate | reflexivity].
Qed.

End Capture.

Lemma screenshot_names_differ_by_time_witness :
  ScreenshotHandler.filename (Some "login_failed") (clock_at 0)
  <> ScreenshotHandler.filename (Some "login_failed") (clock_at 1).
Proof.
  apply screenshot_names_differ_by_time.
  - unfold valid_datetime. vm_compute. repeat split; discriminate.
  - unfold valid_datetime. vm_compute. repeat split; discriminate.
  - discriminate.
Defined.

(** An example: the driver saves nothing, and the path comes back all
    the same; the separators of the name asked for are replaced. *)
Lemma capture_screenshot_unsaved_path :
  ScreenshotHandler.capture_screenshot (H:=happy_world) save_nothing
    "/work/screenshots" (Some "a/../b") scripted_start
  = (Ok (Some "/work/screenshots/a____b_20250314_092600_000000.png"),
     mkScripted 1 [] []).
Proof. vm_compute. reflexivity. Qed.

(** ** The cart fixture and the account flows *)

Section Fixture.
Context {W : Type} `{World W} {F : Type} `{PyFloat F}.
Implicit Types st : TestState W F.

(** One product of the fixture: the iteration returns, writes and
    records nothing, and counts at most one product. *)
Lemma cart_item_returns (product : string) st :
  exists st',
    Conftest.cart_item product st = (Ok tt, st') /\
    files st' = files st /\ csv_reporter st' = csv_reporter st /\
    added_count st <= added_count st' <= added_count st + 1.
Proof.
  destruct (Conftest.cart_item product st) as [res st'] eqn:E.
  unfold Conftest.cart_item, Conftest.cart_item_try, try_except in E.
  run_in E.
  destruct (HomePage.search_product product (world st)) as [[[]|e] w1];
    run_in E;
    [|injection E as <- <-; eexists; repeat split; simpl; lia].
  destruct (ProductPage.get_search_results_count w1) as [[n|e] w2];
    run_in E;
    [|injection E as <- <-; eexists; repeat split; simpl; lia].
  destruct (Z.ltb 0 n); run_in E;
    [|injection E as <- <-; eexists; repeat split; simpl; lia].
  destruct (ProductPage.add_to_cart_from_listing 0 w2) as [[[]|e] w3];
    run_in E;
    [|injection E as <- <-; eexists; repeat split; simpl; lia].
  destruct (HomePage.click_logo w3) as [[[]|e] w4]; run_in E;
    injection E as <- <-; eexists; repeat split; simpl; lia.
Qed.

Lemma cart_items_returns (products : list string) : forall st,
  exists st',
    Conftest.cart_items products st = (Ok tt, st') /\
    files st' = files st /\ csv_reporter st' = csv_reporter st /\
    added_count st <= added_count st'
      <= added_count st + Z.of_nat (length products).
Proof.
  induction products as [|p ps IH]; intros st.
  - exists st. simpl. repeat split; lia.
  - cbn [Conftest.cart_items]. rewrite bind_eq.
    destruct (cart_item_returns p st) as (st1 & Hrun & Hf & Hr & Hn).
    rewrite Hrun. cbv beta iota.
    destruct (IH st1) as (st' & Hrun' & Hf' & Hr' & Hn').
    exists st'. split; [assumption|]. repeat split; try congruence.
    + lia.
    + cbn [length]. lia.
Qed.

(** The fixture [cart_with_items] raises only what the construction of
    a page object raised.  Once the page objects are built it always
    yields, with at most two products added and possibly none: no
    product found or added is no error for the fixture. *)
Theorem cart_with_items_outcome :
  forall (products : list string) st,
    match fst (Conftest.cart_with_items products st) with
    | Ok _ => 0 <= added_count (snd (Conftest.cart_with_items products st)) <= 2
    | Raise e => exists w0 w1 : W, makedirs screenshots_dir w0 = (Raise e, w1)
    end
    /\ files (snd (Conftest.cart_with_items products st)) = files st.
Proof.
  intros products st.
  destruct (Conftest.cart_with_items products st) as [res st'] eqn:E.
  unfold Conftest.cart_with_items, new_page in E. run_in E.
  destruct (makedirs screenshots_dir (world st)) as [[[]|e] w1] eqn:E1;
    run_in E; [|injection E as <- <-; cbn; split; [eauto | reflexivity]].
  destruct (makedirs screenshots_dir w1) as [[[]|e] w2] eqn:E2;
    run_in E; [|injection E as <- <-; cbn; split; [eauto | reflexivity]].
  match type of E with
  | Conftest.cart_items _ ?s = _ =>
      destruct (cart_items_returns (firstn 2 products) s)
        as (st2 & Hrun & Hf & _ & Hn)
  end.
  rewrite Hrun in E. injection E as <- <-. cbn [fst snd].
  cbn [files added_count] in Hf, Hn.
  pose proof (firstn_le_length 2 products). split; [lia | exact Hf].
Qed.

End Fixture.

Section AccountFlows.
Context {W : Type} `{World W}.

(** Each outcome of [register_new_user] and of [login] ends with a
    screenshot named after it: the last thing done is the capture of
    [..._successful] when the flow returns [True], of [..._failed] when it
    returns [False], and of [..._exception] when it raises. *)
Theorem account_flows_leave_screenshot :
  forall (first_name last_name email password gender : string)
         (remember_me : bool) (w : W),
    (exists w0 : W,
       snd (RegistrationPage.register_new_user
              first_name last_name email password gender w)
       = screenshot
           match fst (RegistrationPage.register_new_user
                        first_name last_name email password gender w) with
           | Ok true => "registration_successful"
           | Ok false => "registration_failed"
           | Raise _ => "registration_exception"
           end w0)
    /\ (exists w0 : W,
       snd (LoginPage.login email password remember_me w)
       = screenshot
           match fst (LoginPage.login email password remember_me w) with
           | Ok true => "login_successful"
           | Ok false => "login_failed"
           | Raise _ => "login_exception"
           end w0).
Proof.
  intros first_name last_name email password gender remember_me w. split.
  - unfold RegistrationPage.register_new_user.
    match goal with
    | |- context [try_except ?b ?h] => set (body := b)
    end.
    unfold try_except. destruct (body w) as [[b|e] w1] eqn:E.
    + subst body. revert E.
      rewrite bind_eq.
      destruct (RegistrationPage.navigate_to_registration_page w)
        as [[[]|e] w2]; [|discriminate].
      rewrite bind_eq.
      destruct (RegistrationPage.fill_registration_form _ _ _ _ _ w2)
        as [[[]|e] w3]; [|discriminate].
      rewrite bind_eq.
      destruct (RegistrationPage.click_register_button w3)
        as [[[]|e] w4]; [|discriminate].
      rewrite bind_eq.
      destruct (RegistrationPage.is_registration_successful w4)
        as [[[]|e] w5]; [| |discriminate].
      * rewrite bind_eq.
        destruct (RegistrationPage.get_success_message w5)
          as [[m|e] w6]; [|discriminate].
        rewrite bind_eq. unfold capture_screenshot, effect, ret.
        intros [= <- <-]. now exists w6.
      * rewrite bind_eq.
        destruct (RegistrationPage.get_validation_errors w5)
          as [[l|e] w6]; [|discriminate].
        rewrite bind_eq. unfold capture_screenshot, effect, ret.
        intros [= <- <-]. now exists w6.
    + exists w1. rewrite bind_eq. reflexivity.
  - unfold LoginPage.login.
    match goal with
    | |- context [try_except ?b ?h] => set (body := b)
    end.
    unfold try_except. destruct (body w) as [[b|e] w1] eqn:E.
    + subst body. revert E.
      rewrite bind_eq.
      destruct (LoginPage.navigate_to_login_page w)
        as [[[]|e] w2]; [|discriminate].
      rewrite bind_eq.
      destruct (LoginPage.enter_email email w2)
        as [[[]|e] w3]; [|discriminate].
      rewrite bind_eq.
      destruct (LoginPage.enter_password password w3)
        as [[[]|e] w4]; [|discriminate].
      rewrite bind_eq.
      destruct ((if remember_me then LoginPage.check_remember_me else ret tt) w4)
        as [[[]|e] w5]; [|discriminate].
      rewrite bind_eq.
      destruct (LoginPage.click_login_button w5)
        as [[[]|e] w6]; [|discriminate].
      rewrite bind_eq.
      destruct (LoginPage.is_logged_in w6)
        as [[[]|e] w7]; [| |discriminate].
      * rewrite bind_eq. unfold capture_screenshot, effect, ret.
        intros [= <- <-]. now exists w7.
      * rewrite bind_eq.
        destruct (LoginPage.get_error_message w7)
          as [[m|e] w8]; [|discriminate].
        rewrite bind_eq.
        destruct (LoginPage.get_validation_errors w8)
          as [[v|e] w9]; [|discriminate].
        rewrite bind_eq. unfold capture_screenshot, effect, ret.
        intros [= <- <-]. now exists w9.
    + exists w1. rewrite bind_eq. reflexivity.
Qed.

End AccountFlows.

(** An example: on a site without search box the fixture yields with no
    product in the cart. *)
Lemma cart_with_items_empty_cart :
  let run :=
    Conftest.cart_with_items (H:=scripted_world (site_without HomePage.SEARCH_BOX))
      ["laptop"; "phone"; "book"] (initial_state (F:=Z) scripted_start ∅) in
  fst run = Ok tt /\ added_count (snd run) = 0.
Proof. vm_compute. split; reflexivity. Qed.

(** ** Failures that do not halt the run *)

Lemma order_validation_by_message_witness :
  exists (msg : string) (w2 : Scripted),
    CheckoutPage.get_order_success_message (H:=happy_world) (mkScripted 1 [] [])
    = (Ok msg, w2) /\ ascii_text msg = true.
Proof.
  assert (Hascii : forall m w',
            get_text (H:=happy_world) CheckoutPage.ORDER_SUCCESS_MESSAGE
              (snd (now (World:=happy_world) scripted_start)) = (Ok m, w') ->
            ascii_text m = true).
  { intros m w' Hget. injection Hget as <- _. reflexivity. }
  destruct (order_validation_by_message (H:=happy_world) (F:=Z)
              scripted_start ∅ [] empty_reporter StepTimer_init 0 Hascii)
    as (msg & w2 & Hmsg & Hasc & _).
  exists msg, w2. split; assumption.
Defined.

(** C1, as stated, fails in its last clause: on a site where the order
    number never shows up, reading it times out inside
    [get_order_number], a collaborator action outside the per-product
    loop; the failure is swallowed there, a screenshot of it is left, and
    the run goes on: nine steps are recorded SUCCESS and the run
    returns. *)
Lemma order_number_failure_does_not_halt :
  let H := scripted_world (site_without CheckoutPage.ORDER_NUMBER) in
  let run := test_end_to_end_checkout_flow sample_data
               (initial_state (F:=Z) scripted_start ∅) in
  (forall w : Scripted,
     fst (get_text CheckoutPage.ORDER_NUMBER w) = Raise timeout_exn)
  /\ fst run = Ok tt
  /\ map (fun s => (Step_Number s, Status s)) (recorded (snd run))
     = [ (SNInt 0, "SUCCESS"); (SNInt 1, "SUCCESS"); (SNInt 2, "SUCCESS");
         (SNInt 3, "SUCCESS"); (SNInt 4, "SUCCESS"); (SNInt 5, "SUCCESS");
         (SNInt 6, "SUCCESS"); (SNInt 7, "SUCCESS"); (SNInt 8, "SUCCESS");
         (SNStr "", "PASSED") ]
  /\ In "element_not_found_.order-number" (shots (world (snd run))).
Proof.
  cbv zeta. split; [intros w; reflexivity|].
  vm_compute. split; [reflexivity|]. split; [reflexivity|]. tauto.
Qed.

(** ** The stages and the export, claim by claim *)

Section ClaimStages.
Context {W : Type} `{World W} {F : Type} `{PyFloat F}.
Local Abbreviation TS A := (M (TestState W F) A).
Implicit Types st : TestState W F.

Lemma prefix_app (a x : string) : String.prefix a (a ++ x) = true.
Proof.
  induction a as [|c a IH]; [rewrite string_app_nil_l; now destruct x|].
  rewrite string_app_cons. cbn [String.prefix].
  destruct (ascii_dec c c); [exact IH | congruence].
Qed.

(** A product that is not added is logged and skipped: the iteration
    returns, one warning is logged, and the count and the reporter are as
    before. *)
Lemma add_product_skips (product : string) st :
  add_succeeds product (world st) = false ->
  exists st' msg,
    add_product product st = (Ok tt, st') /\
    added_count st' = added_count st /\
    warnings st' = (warnings st ++ [msg])%list /\
    csv_reporter st' = csv_reporter st /\ files st' = files st.
Proof.
  intros Hfail. unfold add_succeeds in Hfail.
  destruct (add_product product st) as [res st'] eqn:E.
  unfold add_product, add_product_try, try_except in E. run_in E.
  destruct (HomePage.search_product product (world st)) as [[[]|e] w1];
    run_in E; [|injection E as <- <-; eexists _, _; repeat split].
  destruct (ProductPage.get_search_results_count w1) as [[n|e] w2];
    run_in E; [|injection E as <- <-; eexists _, _; repeat split].
  destruct (Z.ltb 0 n); run_in E;
    [|injection E as <- <-; eexists _, _; repeat split].
  destruct (ProductPage.add_to_cart_from_listing 0 w2) as [[[]|e] w3];
    [discriminate|].
  run_in E. injection E as <- <-. eexists _, _. repeat split.
Qed.

(** C5.  The stage that fills the cart, for every list of products.  Of
    the first three, [n] are added, each product counting exactly when it
    was added.  With [n = 0] the stage records FAILED, carrying the text
    of the [AssertionError] it raises, and no later stage runs.  With
    [n >= 1] it records SUCCESS, and the details report [n].  A product
    that is not added is logged and skipped: its iteration returns with
    one more warning and the same count, and fails nothing. *)
Theorem populate_cart_stage_by_count :
  forall (products : list string) (w : W) (fs : gmap string string)
         (ws : list string) (r : CSVReporter F) (t : StepTimer) (n0 : Z),
    let st := mkTestState w fs ws (Some r) t n0 in
    let n := products_added (firstn 3 products) (cart_loop_start st) in
    (exists (d : F) (st' : TestState W F),
       if Z.ltb 0 n then
         step3 products st = (Ok tt, st') /\
         csv_reporter st' =
           Some (add_step r 3 "Add Products to Cart" "SUCCESS" d
                   ("Added " ++ str_int n ++ " products to cart") "")
       else
         exists e : exn,
           exn_cls e = AssertionError /\
           String.prefix "Failed to add any products to cart" (exn_str e) = true /\
           step3 products st = (Raise e, st') /\
           csv_reporter st' =
             Some (add_step r 3 "Add Products to Cart" "FAILED" d
                     "Only added 0 products" (exn_str e)) /\
           forall rest : TS unit,
             (step3 products >> rest) st = (Raise e, st'))
    /\ (forall (product : string) (st0 : TestState W F),
          exists st1,
            add_product product st0 = (Ok tt, st1) /\
            added_count st1 =
              added_count st0
              + (if add_succeeds product (world st0) then 1 else 0))
    /\ (forall (product : string) (st0 : TestState W F),
          add_succeeds product (world st0) = false ->
          exists st1 msg,
            add_product product st0 = (Ok tt, st1) /\
            added_count st1 = added_count st0 /\
            warnings st1 = (warnings st0 ++ [msg])%list /\
            csv_reporter st1 = csv_reporter st0).
Proof.
  intros products w fs ws r t n0 st n. split; [|split].
  - destruct (add_products_counts (firstn 3 products) (cart_loop_start st))
      as (st2 & Hrun & Hr & Hf & Ht & Hc).
    fold n in Hc. rewrite cart_loop_start_eq in Hr, Hf, Hc, Hrun.
    subst st. cbn [world files warnings csv_reporter timer added_count] in *.
    destruct (step3 products (mkTestState w fs ws (Some r) t n0))
      as [res st'] eqn:E.
    pose proof E as Hstep.
    unfold step3, try_except in E. run_in E. rewrite Hrun in E. run_in E.
    assert (Hc' : added_count st2 = n) by lia.
    destruct (Z.ltb 0 n) eqn:Hpos.
    + rewrite Hc', Hpos in E. cbv beta iota in E. run_in E.
      erewrite csv_add_step_eq in E by (cbn; exact Hr). rewrite Hc' in E.
      injection E as <- <-. eexists _, _. split; reflexivity.
    + assert (Hz : n = 0).
      { apply Z.ltb_ge in Hpos.
        pose proof (products_added_bounds (firstn 3 products)
                      (cart_loop_start (mkTestState w fs ws (Some r) t n0))).
        fold n in H1. lia. }
      rewrite Hc', Hpos in E. cbv beta iota in E. run_in E.
      erewrite csv_add_step_eq in E by (cbn; exact Hr). run_in E.
      rewrite Hc', Hz in E.
      injection E as <- <-. eexists _, _, _.
      split; [|split; [|split; [reflexivity|split]]].
      * reflexivity.
      * cbn [exn_str]. apply prefix_app.
      * reflexivity.
      * intros rest. rewrite bind_eq, Hstep. reflexivity.
  - intros product st0.
    destruct (add_product_counts product st0) as (st1 & Hrun & _ & _ & _ & Hn).
    now exists st1.
  - intros product st0 Hfail.
    destruct (add_product_skips product st0 Hfail)
      as (st1 & msg & Hrun & Hn & Hw & Hr & _).
    now exists st1, msg.
Qed.

(** C8.  The stage that validates the cart.  The query of the total
    never raises and never returns the empty string; when the page shows
    no total at all it returns the placeholder [Total not displayed].
    Once the cart page is reached, the
    stage is decided by the item count alone: with no item it records
    FAILED, carrying the text of the [AssertionError] it raises, which
    starts with [Cart is empty]; with an item it records SUCCESS with the
    count and the total in the details, whatever the total. *)
Theorem validate_cart_stage_by_count :
  forall (w : W) (fs : gmap string string) (ws : list string)
         (r : CSVReporter F) (t : StepTimer) (n0 : Z) (w2 : W),
    let st := mkTestState w fs ws (Some r) t n0 in
    HomePage.navigate_to_shopping_cart (snd (now w)) = (Ok tt, w2) ->
    (forall w0 : W,
       exists total w1,
         CartPage.get_cart_total w0 = (Ok total, w1) /\ total <> "")
    /\ (forall w0 : W,
          (forall loc w', In loc CartPage.total_locators ->
             exists e w'',
               wait_until 2 presence_of_element_located loc w' = (Raise e, w'')) ->
          (forall w', exists w'',
             driver_find_elements (By_TAG_NAME, "strong") w' = (Ok [], w'')) ->
          exists w1,
            CartPage.get_cart_total w0 = (Ok "Total not displayed", w1))
    /\ exists (count : Z) (w3 : W),
         CartPage.get_cart_items_count w2 = (Ok count, w3) /\ 0 <= count /\
         exists (d : F) (st' : TestState W F),
           if Z.ltb 0 count then
             exists total, total <> "" /\
               step4 st = (Ok tt, st') /\
               csv_reporter st' =
                 Some (add_step r 4 "Cart Validation" "SUCCESS" d
                         ("Cart items: " ++ str_int count ++ ", Total: " ++ total)
                         "")
           else
             exists e : exn,
               exn_cls e = AssertionError /\
               String.prefix "Cart is empty" (exn_str e) = true /\
               step4 st = (Raise e, st') /\
               csv_reporter st' =
                 Some (add_step r 4 "Cart Validation" "FAILED" d
                         "Failed to validate cart" (exn_str e)).
Proof.
  intros w fs ws r t n0 w2 st Hnav. subst st.
  split; [intros w0; apply get_cart_total_returns|].
  split.
  { intros w0 Hmiss Hstrong.
    destruct (CartPage.get_cart_total w0) as [res w'] eqn:E.
    unfold CartPage.get_cart_total, try_except, time_sleep, effect in E.
    rewrite !bind_eq in E.
    destruct (total_from_locators_none CartPage.total_locators (sleep 2 w0) Hmiss)
      as (w1 & Hloop).
    rewrite Hloop in E. cbv beta iota in E. unfold bind in E.
    change (String.eqb "" "") with true in E. cbv beta iota in E.
    destruct (Hstrong w1) as (w2' & Hs). rewrite Hs in E. simpl in E.
    injection E as <- <-. now eexists. }
  destruct (get_cart_items_count_returns w2) as (count & w3 & Hcount & Hpos).
  exists count, w3. split; [exact Hcount|]. split; [exact Hpos|].
  destruct (get_product_names_returns w3) as (names & w4 & Hnames).
  destruct (get_cart_total_returns w4) as (total & w5 & Htotal & Hne).
  destruct (step4 (mkTestState w fs ws (Some r) t n0)) as [res st'] eqn:E.
  unfold step4, try_except in E. run_in E.
  rewrite Hnav in E. run_in E. rewrite Hcount in E. run_in E.
  destruct (Z.ltb 0 count) eqn:Hc.
  - run_in E. rewrite Hnames in E. run_in E. rewrite Htotal in E. run_in E.
    destruct (negb (String.eqb total "") && contains "$" total); run_in E;
      (erewrite csv_add_step_eq in E by (cbn; reflexivity));
      injection E as <- <-; eexists _, _;
      exists total; (split; [exact Hne|split; reflexivity]).
  - run_in E.
    erewrite csv_add_step_eq in E by (cbn; reflexivity). run_in E.
    injection E as <- <-. eexists _, _, _.
    split; [|split; [|split; reflexivity]].
    + reflexivity.
    + cbn [exn_str]. apply prefix_app.
Qed.

(** C9 (amended).  The wait for the success message of the order, when
    it ends in an exception, a timeout included: [get_order_success_message]
    swallows the exception and returns the empty string, stage 8 fails on
    its assertion, and the step is recorded FAILED with the text of the
    [AssertionError], which is [Unexpected success message: ] followed by
    what the test runner appends; the text of the exception of the wait
    is not recorded.  Stage 8 raises, so nothing runs after it. *)
Theorem confirmation_timeout_is_recorded_as_assertion :
  forall (w : W) (fs : gmap string string) (ws : list string)
         (r : CSVReporter F) (t : StepTimer) (n0 : Z) (e : exn) (w1 : W),
    let st := mkTestState w fs ws (Some r) t n0 in
    get_text CheckoutPage.ORDER_SUCCESS_MESSAGE (snd (now w)) = (Raise e, w1) ->
    let text := "Unexpected success message: " ++ assert_explanation w1 in
    CheckoutPage.get_order_success_message (snd (now w)) = (Ok "", w1)
    /\ exists (d : F) (st' : TestState W F),
         step8 st = (Raise (mkExn AssertionError text), st') /\
         csv_reporter st' =
           Some (add_step r 8 "Order Completion Validation" "FAILED" d
                   "Failed to validate order completion" text) /\
         files st' = fs /\
         forall rest : TS unit,
           (step8 >> rest) st = (Raise (mkExn AssertionError text), st').
Proof.
  intros w fs ws r t n0 e w1 st Hwait text. subst st text.
  assert (Hmsg : CheckoutPage.get_order_success_message (snd (now w))
                 = (Ok "", w1)).
  { unfold CheckoutPage.get_order_success_message, try_except.
    now rewrite Hwait. }
  split; [exact Hmsg|].
  destruct (step8 (mkTestState w fs ws (Some r) t n0)) as [res st'] eqn:E.
  pose proof E as Hstep.
  unfold step8, try_except in E. run_in E. rewrite Hmsg in E. run_in E.
  change (contains "successfully" (lower "") || contains "processed" (lower ""))
    with false in E.
  run_in E. erewrite csv_add_step_eq in E by (cbn; reflexivity). run_in E.
  rewrite string_app_nil_r in E.
  injection E as <- <-. eexists _, _.
  split; [reflexivity|]. split; [reflexivity|]. split; [reflexivity|].
  intros rest. rewrite bind_eq, Hstep. reflexivity.
Qed.

End ClaimStages.

(** C9, as stated, fails: on a site where the success message never
    shows up, the wait for it times out; the run raises the
    [AssertionError] of stage 8, the step is recorded FAILED, and its
    error message tells nothing of a timeout. *)
Lemma confirmation_timeout_has_no_indicator :
  (forall w : Scripted,
     fst (get_text (H:=scripted_world site_without_confirmation)
            CheckoutPage.ORDER_SUCCESS_MESSAGE w) = Raise timeout_exn)
  /\ exists (s : Step Z) (msg : string),
       fst unconfirmed_run = Raise (mkExn AssertionError msg)
       /\ last (recorded (snd unconfirmed_run)) = Some s
       /\ Step_Number s = SNInt 8 /\ Status s = "FAILED"
       /\ Error_Message s = msg
       /\ String.prefix "Unexpected success message: " msg = true
       /\ has_timeout_indicator msg = false.
Proof.
  split; [intros w; reflexivity|].
  eexists _, _. vm_compute. repeat split.
Qed.

Lemma validate_cart_stage_by_count_witness :
  exists (count : Z) (w3 : Scripted),
    CartPage.get_cart_items_count (H:=happy_world) (mkScripted 1 [] [])
    = (Ok count, w3) /\ 0 <= count.
Proof.
  destruct (validate_cart_stage_by_count (H:=happy_world) (F:=Z)
              scripted_start ∅ [] empty_reporter StepTimer_init 0
              (mkScripted 1 [] []) eq_refl)
    as (_ & _ & count & w3 & Hcount & Hpos & _).
  exists count, w3. split; assumption.
Defined.

Lemma confirmation_timeout_is_recorded_as_assertion_witness :
  CheckoutPage.get_order_success_message
    (H:=scripted_world site_without_confirmation) (mkScripted 1 [] [])
  = (Ok "", mkScripted 1 []
              ["element_not_found_.section.order-completed .title strong"]).
Proof.
  assert (Hwait :
    get_text (H:=scripted_world site_without_confirmation)
      CheckoutPage.ORDER_SUCCESS_MESSAGE
      (snd (now (World:=scripted_world site_without_confirmation) scripted_start))
    = (Raise timeout_exn,
       mkScripted 1 []
         ["element_not_found_.section.order-completed .title strong"]))
    by reflexivity.
  destruct (confirmation_timeout_is_recorded_as_assertion
              (H:=scripted_world site_without_confirmation) (F:=Z)
              scripted_start ∅ [] empty_reporter StepTimer_init 0 _ _ Hwait)
    as (Hmsg & _).
  exact Hmsg.
Defined.

Section ClaimExport.
Context {W : Type} `{World W} {F : Type} `{PyFloat F}.

(** C6.  Export of the recorded steps and their summary.  When the file
    is opened and written, [generate_report] returns the path of the
    reporter, and the file there is a table: it starts with the fixed
    header line, and read back with the csv reader it gives the header,
    then one record per step in recorded order, then the summary record,
    whose step name is SUMMARY.  Each record is the text of the six
    values of its step, whatever commas, quotes or line breaks they
    hold. *)
Theorem export_parses_back :
  forall (r0 : CSVReporter F) (st : TestState W F) (w1 w2 : W),
    open_w (csv_file r0) (world st) = (Ok tt, w1) ->
    file_write (csv_file r0) (report_text (steps (add_summary r0))) w1
    = (None, w2) ->
    exists (st' : TestState W F) (text body : string),
      generate_report (add_summary r0) st = (Ok (csv_file r0), st') /\
      files st' !! csv_file r0 = Some text /\
      text = "Step Number,Step Name,Status,Duration (seconds),Details,Error Message"
             ++ CRLF ++ body /\
      csv_read text =
        Some (["Step Number"; "Step Name"; "Status"; "Duration (seconds)";
               "Details"; "Error Message"]
              :: map step_cells (steps r0)
              ++ [step_cells (summary_row (steps r0))])%list /\
      Step_Name (summary_row (steps r0)) = "SUMMARY" /\
      steps (add_summary r0) = (steps r0 ++ [summary_row (steps r0)])%list.
Proof.
  intros r0 st w1 w2 Hopen Hwrite.
  destruct (report_text_round_trip r0) as ([body Hbody] & Hread & Hname).
  pose proof (generate_report_eq (add_summary r0) st) as Hrun.
  change (csv_file (add_summary r0)) with (csv_file r0) in Hrun.
  rewrite Hopen, Hwrite in Hrun.
  eexists _, (report_text (steps (add_summary r0))), body.
  split; [exact Hrun|]. split; [cbn [files]; apply lookup_insert_eq|].
  split; [exact Hbody|]. split; [exact Hread|]. split; [exact Hname|].
  reflexivity.
Qed.

End ClaimExport.

Lemma export_parses_back_witness :
  exists (st' : TestState Scripted Z) (text body : string),
    generate_report (H:=happy_world) (add_summary quoted_reporter)
      (initial_state scripted_start ∅)
    = (Ok "/work/reports/r.csv", st') /\
    files st' !! "/work/reports/r.csv" = Some text /\
    text = "Step Number,Step Name,Status,Duration (seconds),Details,Error Message"
           ++ CRLF ++ body.
Proof.
  destruct (export_parses_back (H:=happy_world) quoted_reporter
              (initial_state scripted_start ∅) scripted_start scripted_start
              eq_refl eq_refl)
    as (st' & text & body & Hrun & Hfile & Htext & _).
  exists st', text, body. repeat split; assumption.
Defined.

(** C10.  [fill_billing_address] is total over its dict.  In every
    world and for every dict, an exception it raises was raised by a call
    of the element facade: no lookup in the dict raises, so no
    [KeyError] comes from a missing key.  And for every dict the form
    receives [billing_fields]: the empty string for a missing first name,
    last name, email, city, address, zip code or phone, United States for
    a missing country, and the company and the second address line only
    when present and not empty. *)
Theorem fill_billing_address_total :
  forall d : gmap string string,
    (forall (W : Type) (H : World W) (w w' : W) (e : exn),
       CheckoutPage.fill_billing_address d w = (Raise e, w') ->
       raised_by_facade e)
    /\ (forall w : Scripted,
          CheckoutPage.fill_billing_address (H:=happy_world) d w =
            (Ok tt, mkScripted (ticks w) (typed w ++ billing_fields d) (shots w))).
Proof.
  intros d. split.
  - intros W H w w' e. revert w w' e.
    change (facade_only (CheckoutPage.fill_billing_address d)).
    unfold CheckoutPage.fill_billing_address. apply facade_only_reraise.
    repeat first
      [ apply facade_only_send_keys
      | apply facade_only_bind; [|intros _]
      | apply facade_only_select
      | apply facade_only_optional ].
  - intros w.
    unfold CheckoutPage.fill_billing_address, try_except, billing_fields, dict_get.
    repeat (rewrite bind_eq;
            first [rewrite scripted_send_keys | rewrite scripted_select
                  | rewrite scripted_optional];
            cbv beta iota; cbn [ticks typed shots]).
    rewrite scripted_send_keys. cbn [ticks typed shots].
    repeat rewrite <- app_assoc. reflexivity.
Qed.

(** An example: the disk is full; [open] truncates the report file, the
    writing raises, and [generate_report] raises with the file empty. *)
Lemma export_on_full_disk :
  let H := scripted_world
             {| missing := missing happy_site; matches := matches happy_site;
                text_at := text_at happy_site; read_only := false;
                disk_full := true |} in
  let run := generate_report (add_summary quoted_reporter)
               (initial_state scripted_start
                  {["/work/reports/r.csv" := "old report"]}) in
  fst run = Raise (mkExn OSError "[Errno 28] No space left on device")
  /\ files (snd run) = {["/work/reports/r.csv" := ""]}.
Proof.
  cbv zeta. rewrite generate_report_eq. cbn [fst snd files].
  split; [reflexivity|]. apply insert_singleton_eq.
Qed.
